(** * Quadra utility locate report: the formatting core of
      [docassemble/quadralocate/objects.py], embedded shallowly.

    Conventions of the embedding.

    - Python [str] is [string]; the character-level functions ([strip],
      [lower], [upper], [int]) are written for ASCII text, which is what the
      fixed labels and the examples of the report use.
    - Python [float] is IEEE binary64, modelled exactly by [spec_float] with
      precision 53 and maximal exponent 1024; [int] is [Z].
    - A raised exception is the left injection of [M]; a bare [except:] is a
      [match] on the result.
    - [int(str)] raises [ValueError] on a literal of more than 4300 digits,
      the default limit of CPython on the digits of a conversion; [str(int)]
      is modelled for the ints within that limit.
    - A [dict] is an association list in insertion order. *)

From Stdlib Require Import ZArith List String Ascii Bool Lia.
From Stdlib Require Import SpecFloat DecimalString.
Import ListNotations.

Local Open Scope list_scope.
Local Open Scope string_scope.
Local Open Scope Z_scope.

(* ================================================================== *)
(** ** Exceptions *)

Inductive exn : Type := TypeError | ValueError | OverflowError.

Definition M (A : Type) : Type := (exn + A)%type.

Definition ret {A : Type} (a : A) : M A := inr a.
Definition raise {A : Type} (e : exn) : M A := inl e.

Definition bind {A B : Type} (c : M A) (k : A -> M B) : M B :=
  match c with
  | inl e => inl e
  | inr a => k a
  end.

Notation "x <- c ;; k" := (bind c (fun x => k))
  (at level 61, c at next level, right associativity).

(** [for x in xs: acc = body(acc, x)], where the body may raise. *)
Fixpoint foldM {A B : Type} (body : B -> A -> M B) (xs : list A) (acc : B) : M B :=
  match xs with
  | [] => ret acc
  | x :: xs' => acc' <- body acc x ;; foldM body xs' acc'
  end.

Fixpoint mapM {A B : Type} (f : A -> M B) (xs : list A) : M (list B) :=
  match xs with
  | [] => ret []
  | x :: xs' => y <- f x ;; ys <- mapM f xs' ;; ret (y :: ys)
  end.

(* ================================================================== *)
(** ** Python strings *)

Module PyStr.

Definition CR : string := String (ascii_of_nat 13) "".

Definition char_code (c : ascii) : nat := nat_of_ascii c.

(** [str.isspace] on ASCII: TAB..CR, FS..US and the blank. *)
Definition isspace (c : ascii) : bool :=
  let n := char_code c in
  ((9 <=? n) && (n <=? 13) || (28 <=? n) && (n <=? 32))%nat.

Definition isupper (c : ascii) : bool :=
  let n := char_code c in ((65 <=? n) && (n <=? 90))%nat.

Definition islower (c : ascii) : bool :=
  let n := char_code c in ((97 <=? n) && (n <=? 122))%nat.

Definition lower_char (c : ascii) : ascii :=
  if isupper c then ascii_of_nat (char_code c + 32) else c.

Definition upper_char (c : ascii) : ascii :=
  if islower c then ascii_of_nat (char_code c - 32) else c.

Fixpoint map_chars (f : ascii -> ascii) (s : string) : string :=
  match s with
  | EmptyString => EmptyString
  | String c r => String (f c) (map_chars f r)
  end.

Definition lower (s : string) : string := map_chars lower_char s.
Definition upper (s : string) : string := map_chars upper_char s.

Fixpoint lstrip_by (p : ascii -> bool) (s : string) : string :=
  match s with
  | EmptyString => EmptyString
  | String c r => if p c then lstrip_by p r else s
  end.

Fixpoint rstrip_by (p : ascii -> bool) (s : string) : string :=
  match s with
  | EmptyString => EmptyString
  | String c r =>
      match rstrip_by p r with
      | EmptyString => if p c then EmptyString else String c EmptyString
      | r' => String c r'
      end
  end.

Definition strip_by (p : ascii -> bool) (s : string) : string :=
  rstrip_by p (lstrip_by p s).

(** [s.strip()] *)
Definition strip (s : string) : string := strip_by isspace s.

Fixpoint mem_char (c : ascii) (chars : string) : bool :=
  match chars with
  | EmptyString => false
  | String d r => Ascii.eqb c d || mem_char c r
  end.

(** [s.rstrip(chars)] and [s.strip(chars)] *)
Definition rstrip_chars (chars s : string) : string :=
  rstrip_by (fun c => mem_char c chars) s.
Definition strip_chars (chars s : string) : string :=
  strip_by (fun c => mem_char c chars) s.

Fixpoint startswith (p s : string) : bool :=
  match p, s with
  | EmptyString, _ => true
  | String a p', String b s' => Ascii.eqb a b && startswith p' s'
  | String _ _, EmptyString => false
  end.

(** [sub in s] *)
Fixpoint contains (sub s : string) : bool :=
  startswith sub s ||
  match s with
  | EmptyString => false
  | String _ r => contains sub r
  end.

(** [s.replace(c, '')] for a single character [c] *)
Fixpoint remove_char (c : ascii) (s : string) : string :=
  match s with
  | EmptyString => EmptyString
  | String a r => if Ascii.eqb a c then remove_char c r else String a (remove_char c r)
  end.

Fixpoint take (n : nat) (s : string) : string :=
  match n, s with
  | S n', String c r => String c (take n' r)
  | _, _ => EmptyString
  end.

Fixpoint drop (n : nat) (s : string) : string :=
  match n, s with
  | S n', String _ r => drop n' r
  | _, _ => s
  end.

(** [s[:-2]] and [s[-2:]] *)
Definition all_but_last2 (s : string) : string := take (String.length s - 2) s.
Definition last2 (s : string) : string := drop (String.length s - 2) s.

(** [sep.join(items)] *)
Fixpoint join (sep : string) (items : list string) : string :=
  match items with
  | [] => EmptyString
  | [x] => x
  | x :: rest => x ++ sep ++ join sep rest
  end.

(** [s.split(c)] for a single-character separator: never the empty list *)
Fixpoint split (c : ascii) (s : string) : list string :=
  match s with
  | EmptyString => [EmptyString]
  | String a r =>
      if Ascii.eqb a c then EmptyString :: split c r
      else match split c r with
           | h :: t => String a h :: t
           | [] => [String a EmptyString]
           end
  end.

Fixpoint spaces (n : nat) : string :=
  match n with
  | O => EmptyString
  | S n' => String " " (spaces n')
  end.

(** truth value of a string: non-empty *)
Definition truthy (s : string) : bool :=
  match s with
  | EmptyString => false
  | String _ _ => true
  end.

End PyStr.

(* ================================================================== *)
(** ** Python numbers *)

Module PyNum.

Definition float : Type := spec_float.

Definition prec : Z := 53.
Definition emax : Z := 1024.

Definition fmul : float -> float -> float := SFmul prec emax.
Definition fadd : float -> float -> float := SFadd prec emax.
Definition fdiv : float -> float -> float := SFdiv prec emax.

Definition fzero : float := S754_zero false.

(** An integer as an unrounded binary value. *)
Definition raw_of_Z (z : Z) : float :=
  match z with
  | Z0 => S754_zero false
  | Zpos p => S754_finite false p 0
  | Zneg p => S754_finite true p 0
  end.

Definition is_infinite (f : float) : bool :=
  match f with
  | S754_infinity _ => true
  | _ => false
  end.

(** [float(z)]: the nearest double, [OverflowError] beyond the range. *)
Definition float_of_int (z : Z) : M float :=
  let f := binary_normalize prec emax z 0 false in
  if is_infinite f then raise OverflowError else ret f.

(** [a / b] on two ints with [b > 0]: the correctly rounded quotient. *)
Definition int_truediv (a b : Z) : M float :=
  let f := fdiv (raw_of_Z a) (raw_of_Z b) in
  if is_infinite f then raise OverflowError else ret f.

(** The decimal literal [digits / 10^scale] as the reader of Python rounds
    it, for [digits] and [10^scale] below [2^53]. *)
Definition literal (digits : Z) (scale : nat) : float :=
  fdiv (raw_of_Z digits) (raw_of_Z (10 ^ Z.of_nat scale)).

(** Nearest integer to [n / d], ties to the even one ([0 <= n], [0 < d]). *)
Definition div_half_even (n d : Z) : Z :=
  let q := n / d in
  let r := n mod d in
  match (2 * r ?= d) with
  | Lt => q
  | Gt => q + 1
  | Eq => if Z.even q then q else q + 1
  end.

(** Nearest integer to [m * 2^e], ties to even. *)
Definition round_magnitude (m : positive) (e : Z) : Z :=
  if 0 <=? e then Zpos m * 2 ^ e
  else div_half_even (Zpos m) (2 ^ (- e)).

(** [round(x)] on a float: an int. *)
Definition round_float (x : float) : M Z :=
  match x with
  | S754_zero _ => ret 0
  | S754_infinity _ => raise OverflowError
  | S754_nan => raise ValueError
  | S754_finite s m e =>
      let k := round_magnitude m e in
      ret (if s then - k else k)
  end.

(** [str(z)] *)
Definition str_of_Z (z : Z) : string := NilZero.string_of_int (Z.to_int z).

(** [f"{z:02d}"] *)
Definition fmt_02d (z : Z) : string :=
  if z <? 0 then str_of_Z z
  else if z <? 10 then "0" ++ str_of_Z z
  else str_of_Z z.

(** Hundredths of [m * 2^e], rounded to nearest, ties to even. *)
Definition hundredths (m : positive) (e : Z) : Z :=
  if 0 <=? e then Zpos m * 2 ^ e * 100
  else div_half_even (Zpos m * 100) (2 ^ (- e)).

Definition fixed2 (neg : bool) (h : Z) : string :=
  (if neg then "-" else "") ++ str_of_Z (h / 100) ++ "." ++ fmt_02d (h mod 100).

(** [f"{x:.2f}"] *)
Definition fmt_2f (x : float) : string :=
  match x with
  | S754_zero s => fixed2 s 0
  | S754_infinity s => if s then "-inf" else "inf"
  | S754_nan => "nan"
  | S754_finite s m e => fixed2 s (hundredths m e)
  end.

Definition digit_val (c : ascii) : option Z :=
  let n := nat_of_ascii c in
  if ((48 <=? n) && (n <=? 57))%nat then Some (Z.of_nat (n - 48)) else None.

(** The digits of [int(str)] after the first one: single underscores are
    allowed between two digits. *)
Fixpoint int_digits (acc : Z) (s : string) : option Z :=
  match s with
  | EmptyString => Some acc
  | String c r =>
      match digit_val c with
      | Some d => int_digits (10 * acc + d) r
      | None =>
          if Ascii.eqb c "_" then
            match r with
            | String c' r' =>
                match digit_val c' with
                | Some d => int_digits (10 * acc + d) r'
                | None => None
                end
            | EmptyString => None
            end
          else None
      end
  end.

Definition int_unsigned (s : string) : option Z :=
  match s with
  | String c r =>
      match digit_val c with
      | Some d => int_digits d r
      | None => None
      end
  | EmptyString => None
  end.

(** The default of [sys.get_int_max_str_digits()]: [int] refuses a literal
    with more digit characters than this, leading zeros included. *)
Definition MAX_STR_DIGITS : nat := 4300.

Fixpoint count_digits (s : string) : nat :=
  match s with
  | EmptyString => O
  | String c r =>
      match digit_val c with
      | Some _ => S (count_digits r)
      | None => count_digits r
      end
  end.

(** The blanks that [int] skips around an ASCII literal: TAB..CR and the
    space, fewer than [str.isspace] accepts. *)
Definition int_blank (c : ascii) : bool :=
  let n := nat_of_ascii c in
  ((9 <=? n) && (n <=? 13) || (n =? 32))%nat.

(** [int(s)] in base ten: surrounding blanks, one optional sign, digits;
    [ValueError] for a text that is no literal and for a literal of more
    than [MAX_STR_DIGITS] digits. *)
Definition int_of_str (s : string) : M Z :=
  let t := PyStr.strip_by int_blank s in
  let parsed :=
    match t with
    | String c r =>
        if Ascii.eqb c "+" then int_unsigned r
        else if Ascii.eqb c "-" then option_map Z.opp (int_unsigned r)
        else int_unsigned t
    | EmptyString => None
    end in
  match parsed with
  | Some z =>
      if (count_digits t <=? MAX_STR_DIGITS)%nat then ret z else raise ValueError
  | None => raise ValueError
  end.

(** A number held by a field: an [int] or a [float]. *)
Inductive num : Type :=
| PInt (z : Z)
| PFloat (f : float).

(** [n == 0] *)
Definition num_is_zero (n : num) : bool :=
  match n with
  | PInt z => z =? 0
  | PFloat f => SFeqb f fzero
  end.

(** [n > 0] *)
Definition num_gt_zero (n : num) : bool :=
  match n with
  | PInt z => 0 <? z
  | PFloat f => SFltb fzero f
  end.

(** truth value of a number; a NaN is true *)
Definition num_truthy (n : num) : bool := negb (num_is_zero n).

(** [float(n)] *)
Definition float_of_num (n : num) : M float :=
  match n with
  | PInt z => float_of_int z
  | PFloat f => ret f
  end.

(** [round(n * 100)] *)
Definition round_times_100 (n : num) : M Z :=
  match n with
  | PInt z => ret (z * 100)
  | PFloat f => round_float (fmul f (raw_of_Z 100))
  end.

End PyNum.

Import PyStr PyNum.

(* ================================================================== *)
(** ** Lists and dictionaries *)

(** [items.append(x)] *)
Definition push {A : Type} (items : list A) (x : A) : list A := (items ++ [x])%list.

Definition dict (V : Type) : Type := list (string * V).

Fixpoint dict_get {V : Type} (d : dict V) (k : string) : option V :=
  match d with
  | [] => None
  | (k', v) :: rest => if String.eqb k' k then Some v else dict_get rest k
  end.

(** [d.get(k, dflt)] *)
Definition get_or {V : Type} (d : dict V) (k : string) (dflt : V) : V :=
  match dict_get d k with
  | Some v => v
  | None => dflt
  end.

(** [k in d] *)
Definition dict_mem {V : Type} (d : dict V) (k : string) : bool :=
  match dict_get d k with
  | Some _ => true
  | None => false
  end.

(** [d[k] = v]: an existing key keeps its place, a new one goes last. *)
Fixpoint dict_set {V : Type} (d : dict V) (k : string) (v : V) : dict V :=
  match d with
  | [] => [(k, v)]
  | (k', v') :: rest =>
      if String.eqb k' k then (k', v) :: rest else (k', v') :: dict_set rest k v
  end.

(** truth value of a flag read with [d.get(k, False)] *)
Definition flag (d : dict bool) (k : string) : bool := get_or d k false.

(* ================================================================== *)
(** ** Helper functions *)

(** [format_number(n)] *)
Definition format_number (n : num) : M string :=
  if num_is_zero n then ret "0"
  else
    r <- round_times_100 n ;;
    q <- int_truediv r 100 ;;
    let s := fmt_2f q in
    let s := rstrip_chars "." (rstrip_chars "0" s) in
    ret s.

(** A value of [start_time] or [end_time]: absent or [None], a string, a
    [datetime.time], or any other object, of which only the truth value and
    [str()] matter. *)
Inductive time_val : Type :=
| TNone
| TStr (s : string)
| TTime (hour minute : Z)
| TOther (truth : bool) (text : string).

(** The body of the [try] of [format_time_12hr] up to the hour and minute. *)
Definition parse_clock (t : string) : M (Z * Z) :=
  let parts := strip (remove_char ":" t) in
  if (String.length parts <=? 2)%nat then
    hour <- int_of_str parts ;;
    ret (hour, 0)
  else
    hour <- int_of_str (all_but_last2 parts) ;;
    minute <- int_of_str (last2 parts) ;;
    ret (hour, minute).

(** [format_time_12hr(time_val)] *)
Definition format_time_12hr (v : time_val) : string :=
  match v with
  | TNone => ""
  | TStr s =>
      if negb (truthy s) then ""
      else
        let t := lower (strip s) in
        if contains "am" t || contains "pm" t then t
        else
          match parse_clock t with
          | inr (hour, minute) =>
              if (hour =? 0) || (hour =? 24) then "12:" ++ fmt_02d minute ++ " am"
              else if hour <? 12 then str_of_Z hour ++ ":" ++ fmt_02d minute ++ " am"
              else if hour =? 12 then "12:" ++ fmt_02d minute ++ " pm"
              else str_of_Z (hour - 12) ++ ":" ++ fmt_02d minute ++ " pm"
          | inl _ => t
          end
  | TTime hour minute =>
      if hour =? 0 then "12:" ++ fmt_02d minute ++ " am"
      else if hour <? 12 then str_of_Z hour ++ ":" ++ fmt_02d minute ++ " am"
      else if hour =? 12 then "12:" ++ fmt_02d minute ++ " pm"
      else str_of_Z (hour - 12) ++ ":" ++ fmt_02d minute ++ " pm"
  | TOther truth text => if truth then text else ""
  end.

(** [oxford_join(items)] *)
Definition oxford_join (items : list string) : string :=
  match items with
  | [] => ""
  | [a] => a
  | [a; b] => a ++ " and " ++ b
  | _ => join ", " (removelast items) ++ ", and " ++ last items ""
  end.

Definition HEADER_WIDTH : nat := 18.

(** [while len(s) < HEADER_WIDTH: s += " "]; every turn adds one character,
    so [HEADER_WIDTH] turns are enough. *)
Fixpoint pad_loop (turns : nat) (s : string) : string :=
  match turns with
  | O => s
  | S k => if (String.length s <? HEADER_WIDTH)%nat then pad_loop k (s ++ " ") else s
  end.

(** [make_line(header, content)] *)
Definition make_line (header content : string) : string :=
  if negb (truthy content) then ""
  else
    let s := header ++ ":" in
    let s := pad_loop HEADER_WIDTH s in
    s ++ content.

(** [make_continuation_line(content)] *)
Definition make_continuation_line (content : string) : string :=
  if negb (truthy content) then ""
  else spaces HEADER_WIDTH ++ content.

(* ================================================================== *)
(** ** Technician *)

Module Technician.

(** A value of the [hours] dict: [None] or a number, an int or a float.
    Values of other types, such as a [str], which [> 0] rejects with the same
    [TypeError] as [None], are outside the model. *)
Definition hval : Type := option num.

Record t : Type := mk {
  name : option string;      (* [None]: the attribute is not set *)
  hours : dict hval
}.

Definition HOUR_TYPES : list string :=
  ["em"; "gpr"; "travel"; "survey"; "concrete_gpr"; "standby"].

Definition HOUR_LABELS : dict string :=
  [("em", "EM"); ("gpr", "GPR"); ("travel", "Travel"); ("survey", "Survey");
   ("concrete_gpr", "Conc. GPR"); ("standby", "Standby")].

(** [init]: every hour type missing from [hours] is set to 0. *)
Definition init (nm : option string) (given : dict hval) : t :=
  mk nm (fold_left
           (fun h ht => if dict_mem h ht then h else dict_set h ht (Some (PInt 0)))
           HOUR_TYPES given).

(** [self.hours.get(hour_type, 0)] *)
Definition hours_get (self : t) (ht : string) : hval :=
  get_or (hours self) ht (Some (PInt 0)).

Definition hval_truthy (v : hval) : bool :=
  match v with
  | None => false
  | Some n => num_truthy n
  end.

(** [v > 0]: [None] does not compare with an int. *)
Definition hval_gt_zero (v : hval) : M bool :=
  match v with
  | None => raise TypeError
  | Some n => ret (num_gt_zero n)
  end.

(** [float(v)] *)
Definition hval_float (v : hval) : M float :=
  match v with
  | None => raise TypeError
  | Some n => float_of_num n
  end.

(** [float(v or 0)] *)
Definition float_or_zero (v : hval) : M float :=
  hval_float (if hval_truthy v then v else Some (PInt 0)).

Fixpoint any_hours (self : t) (hts : list string) : M bool :=
  match hts with
  | [] => ret false
  | ht :: rest =>
      b <- hval_gt_zero (hours_get self ht) ;;
      if b then ret true else any_hours self rest
  end.

Definition has_any_hours (self : t) : M bool := any_hours self HOUR_TYPES.

(** The running [total] starts as the int 0 and is a float from the first
    addition on; [0 + x] on an int and a float is [0.0 + x]. *)
Definition get_total_hours (self : t) : M float :=
  foldM (fun total ht =>
           x <- float_or_zero (hours_get self ht) ;;
           ret (fadd total x))
        HOUR_TYPES fzero.

Definition format_hours_line (self : t) : M string :=
  parts <- foldM (fun parts ht =>
             let value := hours_get self ht in
             if hval_truthy value then
               x <- hval_float value ;;
               if num_gt_zero (PFloat x) then
                 let label := get_or HOUR_LABELS ht ht in
                 y <- hval_float value ;;
                 formatted <- format_number (PFloat y) ;;
                 ret (push parts (label ++ " = " ++ formatted))
               else ret parts
             else ret parts)
           HOUR_TYPES [] ;;
  ret (join "; " parts).

Definition format_tech_line (self : t) : M string :=
  let name := match name self with Some n => n | None => "Unknown" end in
  hours_str <- format_hours_line self ;;
  if truthy hours_str then ret (name ++ ": " ++ hours_str)
  else ret name.

End Technician.

(** A dict of totals by hour type, [{ht: 0 for ht in HOUR_TYPES}].  The
    entries are floats: an entry starts as the int 0, every addition to it
    adds a float, and an int 0 formats and compares as [0.0]. *)
Definition totals : Type := dict float.

Definition zero_totals : totals :=
  map (fun ht => (ht, fzero)) Technician.HOUR_TYPES.

(** [for hour_type in HOUR_TYPES: tot[hour_type] += float(tech.hours.get(hour_type, 0) or 0)] *)
Definition add_tech_hours (tot : totals) (tech : Technician.t) : M totals :=
  foldM (fun tot ht =>
           x <- Technician.float_or_zero (Technician.hours_get tech ht) ;;
           ret (dict_set tot ht (fadd (get_or tot ht fzero) x)))
        Technician.HOUR_TYPES tot.

(** [format_totals_line(totals)] *)
Definition format_totals_line (tot : totals) : M string :=
  let order := ["em"; "gpr"; "travel"; "survey"; "concrete_gpr"; "standby"] in
  let labels := Technician.HOUR_LABELS in
  parts <- foldM (fun parts key =>
             let value := get_or tot key fzero in
             if num_gt_zero (PFloat value) then
               let label := get_or labels key key in
               formatted <- format_number (PFloat value) ;;
               ret (push parts (label ++ " = " ++ formatted))
             else ret parts)
           order [] ;;
  ret (join "; " parts).

(** [[x for x in xs if p(x)]], where [p] may raise. *)
Fixpoint filterM {A : Type} (p : A -> M bool) (xs : list A) : M (list A) :=
  match xs with
  | [] => ret []
  | x :: xs' =>
      b <- p x ;;
      ys <- filterM p xs' ;;
      ret (if b then x :: ys else ys)
  end.

(* ================================================================== *)
(** ** WorkDay *)

Module WorkDay.
Section WithDate.

(** The type of the [date] attribute; docassemble's [format_date] is not
    part of this repository and is taken as a parameter where it is used. *)
Variable Date : Type.

Record t : Type := mk {
  start_time : time_val;
  end_time : time_val;
  date : option Date;          (* [None]: the attribute is not set *)
  technicians : list Technician.t
}.

Definition format_time_range (self : t) : string :=
  let start := format_time_12hr (start_time self) in
  let end_ := format_time_12hr (end_time self) in
  if truthy start && truthy end_ then start ++ " to " ++ end_
  else if truthy start then "from " ++ start
  else if truthy end_ then "to " ++ end_
  else "".

Definition get_all_hours_by_type (self : t) : M totals :=
  foldM add_tech_hours (technicians self) zero_totals.

End WithDate.
End WorkDay.

Arguments WorkDay.mk {Date} _ _ _ _.
Arguments WorkDay.start_time {Date} _.
Arguments WorkDay.end_time {Date} _.
Arguments WorkDay.date {Date} _.
Arguments WorkDay.technicians {Date} _.
Arguments WorkDay.format_time_range {Date} _.
Arguments WorkDay.get_all_hours_by_type {Date} _.

(* ================================================================== *)
(** ** MultiDayJob *)

Module MultiDayJob.
Section WithDate.

Variable Date : Type.
(** [format_date(d, format='short')] of docassemble. *)
Variable format_date_short : Date -> string.

Record t : Type := mk {
  work_days : list (WorkDay.t Date);
  is_multi_day : bool
}.

(** [init] *)
Definition init : t := mk [] false.

(** [getattr(tech, 'name', 'Unknown')] *)
Definition tech_name (tech : Technician.t) : string :=
  match Technician.name tech with
  | Some n => n
  | None => "Unknown"
  end.

(** The dict returned maps a name to the totals that the source keeps under
    the one key ['hours']. *)
Definition get_all_technicians (self : t) : M (dict totals) :=
  foldM (fun tech_dict day =>
           foldM (fun tech_dict tech =>
                    let name := tech_name tech in
                    let tech_dict :=
                      if negb (dict_mem tech_dict name)
                      then dict_set tech_dict name zero_totals
                      else tech_dict in
                    tot <- add_tech_hours (get_or tech_dict name zero_totals) tech ;;
                    ret (dict_set tech_dict name tot))
                 (WorkDay.technicians day) tech_dict)
        (work_days self) [].

Definition get_combined_totals (self : t) : M totals :=
  foldM (fun tot day =>
           day_totals <- WorkDay.get_all_hours_by_type day ;;
           ret (fold_left
                  (fun tot ht =>
                     dict_set tot ht (fadd (get_or tot ht fzero) (get_or day_totals ht fzero)))
                  Technician.HOUR_TYPES tot))
        (work_days self) zero_totals.

(** [format_date(day.date, format='short') if hasattr(day, 'date') else 'Unknown'] *)
Definition date_str (day : WorkDay.t Date) : string :=
  match WorkDay.date day with
  | Some d => format_date_short d
  | None => "Unknown"
  end.

Definition single_day (self : t) : bool :=
  negb (is_multi_day self) || (List.length (work_days self) <=? 1)%nat.

Definition format_time_on_site (self : t) : string :=
  if single_day self then
    match work_days self with
    | day :: _ => WorkDay.format_time_range day
    | [] => ""
    end
  else
    let lines :=
      fold_left (fun lines day =>
                   let time_range := WorkDay.format_time_range day in
                   push lines ("Day (" ++ date_str day ++ "): " ++ time_range))
                (work_days self) [] in
    join CR lines.

(** [for tech in techs: if tech.has_any_hours(): acc.append(tech.format_tech_line())] *)
Definition append_tech_lines (techs : list Technician.t) (acc : list string)
  : M (list string) :=
  foldM (fun acc tech =>
           b <- Technician.has_any_hours tech ;;
           if b then
             line <- Technician.format_tech_line tech ;;
             ret (push acc line)
           else ret acc)
        techs acc.

Definition format_type_time (self : t) : M string :=
  let lines : list string := [] in
  lines <-
    (if single_day self then
       match work_days self with
       | day0 :: _ =>
           lines <- append_tech_lines (WorkDay.technicians day0) lines ;;
           working <- filterM Technician.has_any_hours (WorkDay.technicians day0) ;;
           if (2 <=? List.length working)%nat then
             tot <- WorkDay.get_all_hours_by_type day0 ;;
             totals_line <- format_totals_line tot ;;
             if truthy totals_line then ret (push lines ("Total: " ++ totals_line))
             else ret lines
           else ret lines
       | [] => ret lines
       end
     else
       lines <- foldM (fun lines day =>
                  tech_parts <- append_tech_lines (WorkDay.technicians day) [] ;;
                  match tech_parts with
                  | _ :: _ =>
                      ret (push lines ("Day (" ++ date_str day ++ "): " ++ join " | " tech_parts))
                  | [] => ret lines
                  end)
                (work_days self) lines ;;
       all_techs <- get_all_technicians self ;;
       match all_techs with
       | _ :: _ =>
           let lines := push lines "" in
           let lines := push lines "TOTALS:" in
           lines <- foldM (fun lines entry =>
                      let '(name, data) := entry in
                      tech_total <- format_totals_line data ;;
                      if truthy tech_total
                      then ret (push lines ("  " ++ name ++ ": " ++ tech_total))
                      else ret lines)
                    all_techs lines ;;
           combined <- get_combined_totals self ;;
           combined_line <- format_totals_line combined ;;
           if truthy combined_line
           then ret (push lines ("  Combined: " ++ combined_line))
           else ret lines
       | [] => ret lines
       end) ;;
  ret (join CR lines).

End WithDate.
End MultiDayJob.

Arguments MultiDayJob.mk {Date} _ _.
Arguments MultiDayJob.work_days {Date} _.
Arguments MultiDayJob.is_multi_day {Date} _.
Arguments MultiDayJob.init {Date}.
Arguments MultiDayJob.get_all_technicians {Date} _.
Arguments MultiDayJob.get_combined_totals {Date} _.
Arguments MultiDayJob.date_str {Date} _ _.
Arguments MultiDayJob.single_day {Date} _.
Arguments MultiDayJob.format_time_on_site {Date} _ _.
Arguments MultiDayJob.format_type_time {Date} _ _.

(* ================================================================== *)
(** ** UtilityType and UtilityMatrix *)

Module UtilityType.

Record t : Type := mk {
  key : string;
  display_name : string;
  available_methods : list string;
  methods : dict bool;
  summary : option string      (* [None]: not set, or set to [None] *)
}.

Definition default_methods : list string :=
  ["em"; "gpr"; "visual"; "not_located"; "not_in_area"].

Fixpoint any_method (self : t) (ms : list string) : bool :=
  match ms with
  | [] => false
  | method :: rest => if flag (methods self) method then true else any_method self rest
  end.

Definition has_any_method (self : t) : bool :=
  any_method self (available_methods self).

Definition summary_truthy (self : t) : bool :=
  match summary self with
  | Some s => truthy s
  | None => false
  end.

Definition should_display (self : t) : bool :=
  has_any_method self || summary_truthy self.

Definition method_label_map : dict string :=
  [("em", "Located with EM"); ("gpr", "Located with GPR");
   ("visual", "Located visually"); ("not_located", "Not located");
   ("not_in_area", "Not in proposed work area")].

Definition get_method_labels (self : t) : list string :=
  fold_left (fun labels method =>
               if flag (methods self) method
               then push labels (get_or method_label_map method method)
               else labels)
            (available_methods self) [].

Definition format_header (self : t) : string :=
  let header := upper (display_name self) in
  let labels := get_method_labels self in
  match labels with
  | _ :: _ => header ++ " (" ++ join ", " labels ++ ")"
  | [] => header
  end.

Definition format_section (self : t) : string :=
  if negb (should_display self) then ""
  else
    let header := format_header self in
    let summary := match summary self with Some s => s | None => "" end in
    if truthy summary then header ++ ":" ++ CR ++ summary
    else header ++ ":".

End UtilityType.

Module UtilityMatrix.

Definition UTILITY_TYPES : list (string * string * list string) :=
  [("electrical", "Electrical", ["em"; "gpr"; "visual"; "not_located"; "not_in_area"]);
   ("communications", "Communications", ["em"; "gpr"; "visual"; "not_located"; "not_in_area"]);
   ("gas", "Gas / Pipeline", ["em"; "gpr"; "visual"; "not_located"; "not_in_area"]);
   ("water", "Water", ["em"; "gpr"; "visual"; "not_located"; "not_in_area"]);
   ("storm", "Storm", ["em"; "gpr"; "visual"; "not_located"; "not_in_area"]);
   ("sanitary", "Sanitary", ["em"; "gpr"; "visual"; "not_located"; "not_in_area"]);
   ("ditch", "Ditch", ["visual"; "not_located"]);
   ("unknown", "Unknown / Other", ["em"; "gpr"; "visual"; "not_located"; "not_in_area"])].

(** The attributes set by [init], one utility under each key. *)
Definition t : Type := dict UtilityType.t.

Definition init : t :=
  fold_left (fun self entry =>
               let '(key, display_name, methods) := entry in
               dict_set self key (UtilityType.mk key display_name methods [] None))
            UTILITY_TYPES [].

(** [getattr(self, key)] finds the utility that [init] has put there; a
    matrix that lost one is outside the model and contributes nothing. *)
Definition get_active_utilities (self : t) : list UtilityType.t :=
  fold_left (fun active entry =>
               let '(key, _, _) := entry in
               match dict_get self key with
               | Some utility =>
                   if UtilityType.should_display utility then push active utility
                   else active
               | None => active
               end)
            UTILITY_TYPES [].

End UtilityMatrix.

(* ================================================================== *)
(** ** HydrovacRecommendation *)

Module HydrovacRecommendation.

Definition STANDARD_REASONS : list (string * string) :=
  [("obstructions", "Obstructions in scan area");
   ("unlocated", "Unlocated utilities in area");
   ("deep_utilities", "Possible utilities in area deeper than the scan capabilities due to geophysical subsurface conditions");
   ("no_documentation", "No BC One Call/Site Plans/As-Builts for the area")].

Record t : Type := mk {
  reasons : dict bool;
  recommended : bool;
  custom_notes : string
}.

Definition init : t := mk [] false "".

Definition get_selected_reasons (self : t) : list string :=
  fold_left (fun selected entry =>
               let '(key, text) := entry in
               if flag (reasons self) key then push selected (lower text)
               else selected)
            STANDARD_REASONS [].

Definition format_section (self : t) : string :=
  if negb (recommended self) then ""
  else
    let selected := get_selected_reasons self in
    let output := "HYDROVAC RECOMMENDED:" ++ CR in
    let output :=
      match selected with
      | _ :: _ =>
          output ++ "Hydrovac exposure is recommended due to: " ++ oxford_join selected ++ "."
      | [] => output ++ "Hydrovac exposure is recommended."
      end in
    if truthy (custom_notes self) then output ++ CR ++ custom_notes self
    else output.

End HydrovacRecommendation.

(* ================================================================== *)
(** ** LocateReport *)

(** A value of a free attribute ([bc1_number], [supp_*], [mat_*]): text or
    a whole number, of no more digits than [str] accepts. *)
Inductive attr_val : Type :=
| AStr (s : string)
| AInt (z : Z).

Definition attr_truthy (v : option attr_val) : bool :=
  match v with
  | None => false
  | Some (AStr s) => truthy s
  | Some (AInt z) => negb (z =? 0)
  end.

(** [f"{v}"] *)
Definition attr_str (v : attr_val) : string :=
  match v with
  | AStr s => s
  | AInt z => str_of_Z z
  end.

Module LocateReport.
Section WithDate.

Variable Date : Type.
Variable format_date_short : Date -> string.

(** The photo pages, the drawings and the three counters of [init] are
    read by no formatting method and are left out.  A text attribute is
    [None] when it is not set or set to [None]; [supp] and [mat] hold the
    attributes [supp_<key>] and [mat_<key>] under their key. *)
Record t : Type := mk {
  utilities : UtilityMatrix.t;
  job : MultiDayJob.t Date;
  hydrovac : HydrovacRecommendation.t;
  missing_docs : dict bool;
  bc1_provider : option string;
  bc1_number : option attr_val;
  property_type : option string;
  recommendations : option string;
  travel_notes : option string;
  site_conditions : option string;
  supp : dict attr_val;
  mat : dict attr_val
}.

(** [init] *)
Definition init : t :=
  mk UtilityMatrix.init MultiDayJob.init HydrovacRecommendation.init []
     None None None None None None [] [].

Definition provider_is (self : t) (p : string) : bool :=
  match bc1_provider self with
  | Some q => String.eqb q p
  | None => false
  end.

Definition format_bc1_display (self : t) : string :=
  let number := bc1_number self in
  if provider_is self "None" then "No BC 1 Call completed"
  else
    let suffix :=
      if provider_is self "Client" then " (Provided by Client)"
      else if provider_is self "Quadra" then " (Provided by Quadra)"
      else "" in
    if negb (attr_truthy number) && negb (truthy suffix) then ""
    else if negb (attr_truthy number) then strip_chars " ()" suffix
    else match number with
         | Some v => attr_str v ++ suffix
         | None => suffix
         end.

Definition doc_labels : list (string * string) :=
  [("hydro", "BC Hydro"); ("comm", "Communications"); ("gas", "Fortis");
   ("municipal", "Municipal"); ("pipeline", "Pipeline"); ("asbuilts", "As-builts")].

Definition format_missing_docs_sentence (self : t) : string :=
  let missing :=
    fold_left (fun missing entry =>
                 let '(key, label) := entry in
                 if flag (missing_docs self) key then push missing label else missing)
              doc_labels [] in
  match missing with
  | [] => ""
  | _ :: _ =>
      let docs_list := oxford_join missing in
      docs_list ++ " documentation missing on site. It is the responsibility "
        ++ "of the Ground Disturber, prior to ground disturbance, to obtain and "
        ++ "review said documentation."
  end.

Definition text_or_empty (v : option string) : string :=
  match v with
  | Some s => s
  | None => ""
  end.

Definition format_recommendations (self : t) : string :=
  let reco := text_or_empty (recommendations self) in
  let missing_sentence := format_missing_docs_sentence self in
  let reco :=
    if truthy missing_sentence then
      if truthy reco then reco ++ CR ++ CR ++ missing_sentence
      else missing_sentence
    else reco in
  if truthy reco then "RECOMMENDATIONS:" ++ CR ++ reco
  else "".

Definition supp_fields : list (string * string) :=
  [("parking", "Parking"); ("traffic_control", "Traffic control");
   ("permits", "Permitting"); ("desktop", "Desktop review"); ("cad", "AutoCAD");
   ("coring", "Coring"); ("vapour_probes", "Vapour probes");
   ("camera", "Camera inspection"); ("data_processing", "Data processing");
   ("orientation", "Orientation Time"); ("sketch", "Report Drafting");
   ("kms", "Kilometres"); ("loa", "LOA")].

Definition format_supplemental (self : t) : string :=
  let items :=
    fold_left (fun items entry =>
                 let '(key, label) := entry in
                 let value := dict_get (supp self) key in
                 match value with
                 | Some v =>
                     if attr_truthy value then push items (label ++ " = " ++ attr_str v)
                     else items
                 | None => items
                 end)
              supp_fields [] in
  join "; " items.

Definition mat_fields : list (string * string) :=
  [("pin_flags", "Pin flags");
   ("lathe_24", String.append "Lathe 24" (String (ascii_of_nat 34) ""));
   ("lathe_48", String.append "Lathe 48" (String (ascii_of_nat 34) ""))].

Definition format_materials (self : t) : string :=
  let items :=
    fold_left (fun items entry =>
                 let '(key, label) := entry in
                 let value := dict_get (mat self) key in
                 match value with
                 | Some v =>
                     if attr_truthy value then push items (label ++ " x" ++ attr_str v)
                     else items
                 | None => items
                 end)
              mat_fields [] in
  join "; " items.

Definition format_property_type (self : t) : string :=
  match property_type self with
  | Some prop =>
      if String.eqb prop "Private" then "Private property"
      else if String.eqb prop "Public" then "Public property"
      else if String.eqb prop "Both" then "Public and private property"
      else ""
  | None => ""
  end.

Definition format_billing_details (self : t) : M string :=
  let lines : list string := [] in
  let time_on_site := MultiDayJob.format_time_on_site format_date_short (job self) in
  let lines :=
    if truthy time_on_site then push lines (make_line "TIME ON SITE" time_on_site)
    else lines in
  type_time <- MultiDayJob.format_type_time format_date_short (job self) ;;
  let lines :=
    if truthy type_time then
      let type_time_lines := split (ascii_of_nat 13) type_time in
      let lines := push lines (make_line "TYPE/TIME" (hd "" type_time_lines)) in
      fold_left (fun lines extra_line => push lines (make_continuation_line extra_line))
                (tl type_time_lines) lines
    else lines in
  let supp_items := format_supplemental self in
  let lines :=
    if truthy supp_items then push lines (make_line "SUPPLEMENTAL" supp_items)
    else lines in
  let mat_items := format_materials self in
  let lines :=
    if truthy mat_items then push lines (make_line "MATERIALS" mat_items)
    else lines in
  let prop_type := format_property_type self in
  let lines :=
    if truthy prop_type then push lines (make_line "PROPERTY TYPE" prop_type)
    else lines in
  ret (join CR lines).

Definition format_combined_report (self : t) : string :=
  let sections : list string := [] in
  let travel := text_or_empty (travel_notes self) in
  let sections :=
    if truthy travel then push sections ("TRAVEL NOTES:" ++ CR ++ travel)
    else sections in
  let site_cond := text_or_empty (site_conditions self) in
  let sections :=
    if truthy site_cond
    then push sections
           ("SITE CONDITIONS (Obstructions, inaccessible areas, changes to scope etc.):"
              ++ CR ++ site_cond)
    else sections in
  let sections :=
    fold_left (fun sections utility =>
                 let section := UtilityType.format_section utility in
                 if truthy section then push sections section else sections)
              (UtilityMatrix.get_active_utilities (utilities self)) sections in
  let hydrovac_section := HydrovacRecommendation.format_section (hydrovac self) in
  let sections :=
    if truthy hydrovac_section then push sections hydrovac_section else sections in
  let reco_section := format_recommendations self in
  let sections :=
    if truthy reco_section then push sections reco_section else sections in
  join (CR ++ CR) sections.

End WithDate.
End LocateReport.

Arguments LocateReport.mk {Date} _ _ _ _ _ _ _ _ _ _ _ _.
Arguments LocateReport.utilities {Date} _.
Arguments LocateReport.job {Date} _.
Arguments LocateReport.hydrovac {Date} _.
Arguments LocateReport.missing_docs {Date} _.
Arguments LocateReport.bc1_provider {Date} _.
Arguments LocateReport.bc1_number {Date} _.
Arguments LocateReport.property_type {Date} _.
Arguments LocateReport.recommendations {Date} _.
Arguments LocateReport.travel_notes {Date} _.
Arguments LocateReport.site_conditions {Date} _.
Arguments LocateReport.supp {Date} _.
Arguments LocateReport.mat {Date} _.
Arguments LocateReport.init {Date}.
Arguments LocateReport.format_bc1_display {Date} _.
Arguments LocateReport.format_missing_docs_sentence {Date} _.
Arguments LocateReport.format_recommendations {Date} _.
Arguments LocateReport.format_supplemental {Date} _.
Arguments LocateReport.format_materials {Date} _.
Arguments LocateReport.format_property_type {Date} _.
Arguments LocateReport.format_billing_details {Date} _ _.
Arguments LocateReport.format_combined_report {Date} _.

(* ================================================================== *)
(** ** Notions used in the statements *)

Fixpoint all_chars (p : ascii -> bool) (s : string) : bool :=
  match s with
  | EmptyString => true
  | String c r => p c && all_chars p r
  end.

Definition is_digit (c : ascii) : bool :=
  match digit_val c with
  | Some _ => true
  | None => false
  end.

Definition digit_or_colon (c : ascii) : bool := is_digit c || Ascii.eqb c ":".

(** The number written by a string of decimal digits. *)
Fixpoint decimal_from (acc : Z) (s : string) : Z :=
  match s with
  | EmptyString => acc
  | String c r => decimal_from (10 * acc + Z.of_nat (nat_of_ascii c - 48)) r
  end.

Definition decimal_value (s : string) : Z := decimal_from 0 s.

(** Digits with single underscores between them. *)
Inductive digit_groups : string -> Prop :=
| groups_digit (c : ascii) :
    is_digit c = true -> digit_groups (String c "")
| groups_next (c : ascii) (r : string) :
    is_digit c = true -> digit_groups r -> digit_groups (String c r)
| groups_underscore (c : ascii) (r : string) :
    is_digit c = true -> digit_groups r -> digit_groups (String c (String "_" r)).

(** The texts that [int] reads in base ten: blanks, one optional sign,
    digits with single underscores between them, blanks; no more than
    [MAX_STR_DIGITS] digits. *)
Definition int_literal (x : string) : Prop :=
  exists pre sign body post : string,
    x = pre ++ sign ++ body ++ post
    /\ all_chars int_blank pre = true
    /\ all_chars int_blank post = true
    /\ (sign = "" \/ sign = "+" \/ sign = "-")
    /\ digit_groups body
    /\ (count_digits body <= MAX_STR_DIGITS)%nat.

(** The texts that the digit rule reads: with the colons and the blanks
    around removed, a text of at most two characters is a literal of [int],
    a longer one is a literal before its last two characters and a literal
    in these two. *)
Definition reads_as_clock (t : string) : Prop :=
  let parts := strip (remove_char ":" t) in
  if (String.length parts <=? 2)%nat then int_literal parts
  else int_literal (all_but_last2 parts) /\ int_literal (last2 parts).

(** A string of [n] zeros, and a digit string beyond the limit of [int]. *)
Fixpoint zeros (n : nat) : string :=
  match n with
  | O => EmptyString
  | S n' => String "0" (zeros n')
  end.

Definition long_digits : string := zeros 4400 ++ "930".

(** The four cases of the 12-hour rule, as the specification words them. *)
Definition rule_12hr (hour minute : Z) : string :=
  if (hour =? 0) || (hour =? 24) then "12:" ++ fmt_02d minute ++ " am"
  else if hour <? 12 then str_of_Z hour ++ ":" ++ fmt_02d minute ++ " am"
  else if hour =? 12 then "12:" ++ fmt_02d minute ++ " pm"
  else str_of_Z (hour - 12) ++ ":" ++ fmt_02d minute ++ " pm".

(** The hour and the minute that the digit rule reads off a digit string. *)
Definition digit_rule_hour (d : string) : Z :=
  if (String.length d <=? 2)%nat then decimal_value d
  else decimal_value (all_but_last2 d).

Definition digit_rule_minute (d : string) : Z :=
  if (String.length d <=? 2)%nat then 0
  else decimal_value (last2 d).








(** A technician whose only entry besides the defaults is [ht]. *)
Definition technician_with (nm : option string) (ht : string) (v : Technician.hval)
  : Technician.t :=
  Technician.init nm [(ht, v)].

(** The header with its colon, filled with blanks up to [HEADER_WIDTH]. *)
Definition header_cell (header : string) : string :=
  header ++ ":" ++ spaces (HEADER_WIDTH - S (String.length header)).

(** The line of a section of the billing details: none for empty content. *)
Definition section_lines (header content : string) : list string :=
  if truthy content then [header_cell header ++ content] else [].

(** The TYPE/TIME lines as the code lays them out: an empty line of the
    content stays an empty line, without header or indentation. *)
Definition type_time_block (type_time : string) : list string :=
  if truthy type_time then
    match split (ascii_of_nat 13) type_time with
    | first :: rest =>
        (if truthy first then header_cell "TYPE/TIME" ++ first else "")
          :: map (fun l => if truthy l then spaces HEADER_WIDTH ++ l else "") rest
    | [] => []
    end
  else [].

(** The TYPE/TIME lines as the specification words them: the first line on
    the header line, every further line indented to the content column. *)
Definition claimed_type_time_block (type_time : string) : list string :=
  if truthy type_time then
    match split (ascii_of_nat 13) type_time with
    | first :: rest =>
        (header_cell "TYPE/TIME" ++ first) :: map (fun l => spaces HEADER_WIDTH ++ l) rest
    | [] => []
    end
  else [].

Section BillingLayout.

Variable Date : Type.
Variable format_date_short : Date -> string.

Definition billing_layout (block : string -> list string) (r : LocateReport.t Date)
  : M string :=
  type_time <- MultiDayJob.format_type_time format_date_short (LocateReport.job r) ;;
  ret (join CR
         (section_lines "TIME ON SITE"
            (MultiDayJob.format_time_on_site format_date_short (LocateReport.job r))
          ++ block type_time
          ++ section_lines "SUPPLEMENTAL" (LocateReport.format_supplemental r)
          ++ section_lines "MATERIALS" (LocateReport.format_materials r)
          ++ section_lines "PROPERTY TYPE" (LocateReport.format_property_type r))%list).

End BillingLayout.

Arguments billing_layout {Date} _ _ _.

(** *** The multi-day TYPE/TIME text, declaratively *)

(** The hours of a technician as six floats, in the order of [HOUR_TYPES]. *)
Definition hours_as_floats (tech : Technician.t) : M (list float) :=
  mapM (fun ht => Technician.float_or_zero (Technician.hours_get tech ht))
       Technician.HOUR_TYPES.

(** Entry-wise sum of totals and six floats. *)
Definition add_floats (tot : totals) (v : list float) : totals :=
  fold_left (fun tot e => dict_set tot (fst e) (fadd (get_or tot (fst e) fzero) (snd e)))
            (combine Technician.HOUR_TYPES v) tot.

(** Names in the order of their first occurrence. *)
Fixpoint first_occurrences (names : list string) : list string :=
  match names with
  | [] => []
  | n :: rest => n :: filter (fun m => negb (String.eqb m n)) (first_occurrences rest)
  end.

(** The hours recorded under the name [n], summed in the order recorded. *)
Definition name_totals (n : string) (entries : list (string * list float)) : totals :=
  fold_left add_floats
            (map snd (filter (fun e => String.eqb (fst e) n) entries))
            zero_totals.

(** A row of hours has one entry for every hour type. *)
Definition full_row (row : list float) : Prop :=
  List.length row = List.length Technician.HOUR_TYPES.

(** Entry-wise sum of two rows of hours. *)
Definition add_rows (xs ys : list float) : list float :=
  map (fun p => fadd (fst p) (snd p)) (combine xs ys).

(** A row of zeros, one for every hour type. *)
Definition zero_row : list float := map (fun _ => fzero) Technician.HOUR_TYPES.

(** The rows summed from the first to the last, starting from zeros. *)
Definition sum_rows (rows : list (list float)) : list float :=
  fold_left add_rows rows zero_row.

(** A row as totals: the hour types in order, each with its entry. *)
Definition by_type (row : list float) : totals :=
  combine Technician.HOUR_TYPES row.

(** The combined totals: the rows of the technicians of a day summed to the
    total of the day, and the totals of the days summed in turn. *)
Definition combined_hours (per_day : list (list (list float))) : totals :=
  by_type (sum_rows (map sum_rows per_day)).

Section MultiDayText.

Variable Date : Type.
Variable format_date_short : Date -> string.

Definition all_technicians (j : MultiDayJob.t Date) : list Technician.t :=
  flat_map WorkDay.technicians (MultiDayJob.work_days j).

(** The hours of every technician of every day, as rows of floats. *)
Definition hours_by_day (j : MultiDayJob.t Date) : M (list (list (list float))) :=
  mapM (fun day => mapM hours_as_floats (WorkDay.technicians day))
       (MultiDayJob.work_days j).

Definition tech_entry (tech : Technician.t) : M (string * list float) :=
  v <- hours_as_floats tech ;;
  ret (MultiDayJob.tech_name tech, v).

(** The part of a technician in the line of a day: none without hours. *)
Definition tech_part (tech : Technician.t) : M (list string) :=
  b <- Technician.has_any_hours tech ;;
  if b then line <- Technician.format_tech_line tech ;; ret [line]
  else ret [].

(** The line of a day: none when no technician has hours that day. *)
Definition day_lines (day : WorkDay.t Date) : M (list string) :=
  parts <- mapM tech_part (WorkDay.technicians day) ;;
  match List.concat parts with
  | [] => ret []
  | ps => ret ["Day (" ++ MultiDayJob.date_str format_date_short day ++ "): "
                 ++ join " | " ps]
  end.

(** The text that the code produces on the multi-day path. *)
Definition multi_day_text (j : MultiDayJob.t Date) : M string :=
  days <- mapM day_lines (MultiDayJob.work_days j) ;;
  entries <- mapM tech_entry (all_technicians j) ;;
  match entries with
  | [] => ret (join CR (List.concat days))
  | _ :: _ =>
      per_name <- mapM (fun n =>
                    line <- format_totals_line (name_totals n entries) ;;
                    ret (if truthy line then ["  " ++ n ++ ": " ++ line] else []))
                  (first_occurrences (map fst entries)) ;;
      per_day <- hours_by_day j ;;
      combined_line <- format_totals_line (combined_hours per_day) ;;
      let last_line : list string :=
        if truthy combined_line then ["  Combined: " ++ combined_line] else [] in
      ret (join CR
             (List.concat days ++ [""; "TOTALS:"] ++ List.concat per_name ++ last_line)%list)
  end.

(** The text that the specification describes: the TOTALS header, a line
    for every distinct name and the Combined line are always there. *)
Definition claimed_multi_day_text (j : MultiDayJob.t Date) : M string :=
  days <- mapM day_lines (MultiDayJob.work_days j) ;;
  entries <- mapM tech_entry (all_technicians j) ;;
  per_name <- mapM (fun n =>
                line <- format_totals_line (name_totals n entries) ;;
                ret ("  " ++ n ++ ": " ++ line))
              (first_occurrences (map fst entries)) ;;
  per_day <- hours_by_day j ;;
  combined_line <- format_totals_line (combined_hours per_day) ;;
  let last_line : list string := ["  Combined: " ++ combined_line] in
  ret (join CR (List.concat days ++ [""; "TOTALS:"] ++ per_name ++ last_line)%list).

End MultiDayText.

Arguments all_technicians {Date} _.
Arguments hours_by_day {Date} _.
Arguments day_lines {Date} _ _.
Arguments multi_day_text {Date} _ _.
Arguments claimed_multi_day_text {Date} _ _.

(** *** Updates of a report and sample inputs *)

Definition with_travel_notes {Date : Type} (r : LocateReport.t Date) (text : string)
  : LocateReport.t Date :=
  LocateReport.mk (LocateReport.utilities r) (LocateReport.job r)
    (LocateReport.hydrovac r) (LocateReport.missing_docs r)
    (LocateReport.bc1_provider r) (LocateReport.bc1_number r)
    (LocateReport.property_type r) (LocateReport.recommendations r)
    (Some text) (LocateReport.site_conditions r)
    (LocateReport.supp r) (LocateReport.mat r).

Definition with_job {Date : Type} (r : LocateReport.t Date) (j : MultiDayJob.t Date)
  : LocateReport.t Date :=
  LocateReport.mk (LocateReport.utilities r) j
    (LocateReport.hydrovac r) (LocateReport.missing_docs r)
    (LocateReport.bc1_provider r) (LocateReport.bc1_number r)
    (LocateReport.property_type r) (LocateReport.recommendations r)
    (LocateReport.travel_notes r) (LocateReport.site_conditions r)
    (LocateReport.supp r) (LocateReport.mat r).

Definition with_bc1 {Date : Type} (r : LocateReport.t Date)
           (provider : option string) (number : option attr_val)
  : LocateReport.t Date :=
  LocateReport.mk (LocateReport.utilities r) (LocateReport.job r)
    (LocateReport.hydrovac r) (LocateReport.missing_docs r)
    provider number
    (LocateReport.property_type r) (LocateReport.recommendations r)
    (LocateReport.travel_notes r) (LocateReport.site_conditions r)
    (LocateReport.supp r) (LocateReport.mat r).

(** An instance of the date parameters: dates kept as their short text. *)
Definition short_text (d : string) : string := d.

(** Two hours of EM under the name A; B without hours; N whose EM entry
    is [None]. *)
Definition tech_a : Technician.t :=
  technician_with (Some "A") "em" (Some (PFloat (literal 20 1))).
Definition tech_b : Technician.t := Technician.init (Some "B") [].
Definition tech_none : Technician.t := technician_with (Some "N") "em" None.

Definition day_a : WorkDay.t string := WorkDay.mk (TStr "0900") (TStr "1430") None [tech_a].
Definition day_b : WorkDay.t string := WorkDay.mk (TStr "0800") TNone None [tech_b].
Definition day_none : WorkDay.t string := WorkDay.mk TNone TNone None [tech_none].

Definition job_two_days : MultiDayJob.t string := MultiDayJob.mk [day_a; day_b] true.
Definition job_one_day : MultiDayJob.t string := MultiDayJob.mk [day_a] false.
Definition job_flag_off : MultiDayJob.t string := MultiDayJob.mk [day_a; day_b] false.
Definition job_none : MultiDayJob.t string := MultiDayJob.mk [day_none] false.

(** *** The dict of [get_all_technicians] *)

(** One turn of the loop of [get_all_technicians], after the conversions. *)
Definition record_entry (tech_dict : dict totals) (e : string * list float)
  : dict totals :=
  let name := fst e in
  let tech_dict :=
    if negb (dict_mem tech_dict name) then dict_set tech_dict name zero_totals
    else tech_dict in
  dict_set tech_dict name (add_floats (get_or tech_dict name zero_totals) (snd e)).

(** The dict of [get_all_technicians]: the names in the order of their
    first occurrence, each with its totals. *)
Definition totals_by_name (entries : list (string * list float)) : dict totals :=
  map (fun n => (n, name_totals n entries)) (first_occurrences (map fst entries)).

Definition mem_str (n : string) (names : list string) : bool :=
  existsb (fun m => String.eqb m n) names.

(** *** Notions used in the further properties *)

(** A character of a rendered number or clock text. *)
Definition clock_char (c : ascii) : bool :=
  is_digit c || Ascii.eqb c "-" || Ascii.eqb c ":".

(** The test and the text of one entry of a line of totals. *)
Definition positive_total (tot : totals) (key : string) : bool :=
  num_gt_zero (PFloat (get_or tot key fzero)).

Definition total_part (tot : totals) (key : string) : M string :=
  formatted <- format_number (PFloat (get_or tot key fzero)) ;;
  ret (get_or Technician.HOUR_LABELS key key ++ " = " ++ formatted).

(** Hours as the interview leaves them: a float, [None], or the int 0 that
    [init] has put. *)
Definition plain_hours (tech : Technician.t) : Prop :=
  forall ht, In ht Technician.HOUR_TYPES ->
    match Technician.hours_get tech ht with
    | Some (PInt z) => z = 0
    | _ => True
    end.

Definition logged (tech : Technician.t) (ht : string) : bool :=
  match Technician.hours_get tech ht with
  | Some (PFloat f) => num_gt_zero (PFloat f)
  | _ => false
  end.

Definition logged_part (tech : Technician.t) (ht : string) : M string :=
  match Technician.hours_get tech ht with
  | Some (PFloat f) =>
      formatted <- format_number (PFloat f) ;;
      ret (get_or Technician.HOUR_LABELS ht ht ++ " = " ++ formatted)
  | _ => ret ""
  end.

(** [tech.hours[k] = v] *)
Definition set_hours (tech : Technician.t) (k : string) (v : Technician.hval)
  : Technician.t :=
  Technician.mk (Technician.name tech) (dict_set (Technician.hours tech) k v).

(** The utilities that a matrix holds, in the order of [UTILITY_TYPES]. *)
Definition held_utilities (m : UtilityMatrix.t) : list UtilityType.t :=
  flat_map (fun entry : string * string * list string =>
              match dict_get m (fst (fst entry)) with
              | Some utility => [utility]
              | None => []
              end)
           UtilityMatrix.UTILITY_TYPES.

(** A titled block of free text, and a block that is there when not empty. *)
Definition titled (title text : string) : list string :=
  if truthy text then [title ++ CR ++ text] else [].

Definition when_nonempty (s : string) : list string :=
  if truthy s then [s] else [].

Definition combined_sections {Date : Type} (r : LocateReport.t Date) : list string :=
  (titled "TRAVEL NOTES:" (LocateReport.text_or_empty (LocateReport.travel_notes r))
   ++ titled "SITE CONDITIONS (Obstructions, inaccessible areas, changes to scope etc.):"
        (LocateReport.text_or_empty (LocateReport.site_conditions r))
   ++ map UtilityType.format_section
        (filter UtilityType.should_display (held_utilities (LocateReport.utilities r)))
   ++ when_nonempty (HydrovacRecommendation.format_section (LocateReport.hydrovac r))
   ++ when_nonempty (LocateReport.format_recommendations r))%list.

(** The single-day TYPE/TIME text, declaratively: the lines of the
    technicians with hours, and a line of totals when there are two or more
    of them. *)
Definition single_day_text {Date : Type} (day : WorkDay.t Date) : M string :=
  parts <- mapM tech_part (WorkDay.technicians day) ;;
  let lines := List.concat parts in
  if (2 <=? List.length lines)%nat then
    tot <- WorkDay.get_all_hours_by_type day ;;
    totals_line <- format_totals_line tot ;;
    let last_line : list string :=
      if truthy totals_line then ["Total: " ++ totals_line] else [] in
    ret (join CR (lines ++ last_line)%list)
  else ret (join CR lines).

(** The items of SUPPLEMENTAL and of MATERIALS: a label, a separator and
    the value of the field. *)
Definition field_items (fields : list (string * string)) (sep : string)
           (values : dict attr_val) : list string :=
  map (fun e : string * string =>
         snd e ++ sep ++ match dict_get values (fst e) with
                         | Some v => attr_str v
                         | None => ""
                         end)
      (filter (fun e : string * string => attr_truthy (dict_get values (fst e))) fields).

(* ================================================================== *)
(** * Properties *)

(** ** The error monad *)

Lemma bind_ret_l {A B : Type} (a : A) (k : A -> M B) : bind (ret a) k = k a.
Proof. reflexivity. Qed.

Lemma bind_ret_r {A : Type} (c : M A) : bind c ret = c.
Proof. destruct c; reflexivity. Qed.

Lemma bind_assoc {A B C : Type} (c : M A) (k : A -> M B) (h : B -> M C) :
  bind (bind c k) h = bind c (fun a => bind (k a) h).
Proof. destruct c; reflexivity. Qed.

Lemma bind_ext {A B : Type} (c : M A) (k k' : A -> M B) :
  (forall a, k a = k' a) -> bind c k = bind c k'.
Proof. intros H; destruct c; simpl; auto. Qed.

(** ** Whole reports *)

(** C7: a report that only has its travel notes set to "Rain delay", every
    other field as [init] leaves it, is rendered by [format_combined_report]
    as exactly "TRAVEL NOTES:", a carriage return and "Rain delay". *)
Theorem combined_report_travel_notes_only :
  forall Date : Type,
    LocateReport.format_combined_report
      (with_travel_notes (@LocateReport.init Date) "Rain delay")
    = "TRAVEL NOTES:" ++ CR ++ "Rain delay".
Proof. intros Date. vm_compute. reflexivity. Qed.

(** C9: with [bc1_number] absent or empty, [format_bc1_display] gives the
    bare attribution "Provided by Client" or "Provided by Quadra" for these
    two providers, without parentheses or number, and the empty string when
    the provider is absent too. *)
Theorem bc1_display_without_number :
  forall (Date : Type) (r : LocateReport.t Date),
    LocateReport.bc1_number r = None \/ LocateReport.bc1_number r = Some (AStr "") ->
    (LocateReport.bc1_provider r = Some "Client" ->
     LocateReport.format_bc1_display r = "Provided by Client")
    /\ (LocateReport.bc1_provider r = Some "Quadra" ->
        LocateReport.format_bc1_display r = "Provided by Quadra")
    /\ (LocateReport.bc1_provider r = None ->
        LocateReport.format_bc1_display r = "").
Proof.
  intros Date r Hnum.
  assert (Hfalsy : attr_truthy (LocateReport.bc1_number r) = false)
    by (destruct Hnum as [-> | ->]; reflexivity).
  unfold LocateReport.format_bc1_display, LocateReport.provider_is.
  rewrite Hfalsy.
  repeat split; intros ->; reflexivity.
Qed.

Lemma bc1_display_without_number_witness :
  LocateReport.format_bc1_display
    (with_bc1 (@LocateReport.init string) (Some "Client") (Some (AStr "")))
  = "Provided by Client".
Proof.
  apply (bc1_display_without_number string
           (with_bc1 LocateReport.init (Some "Client") (Some (AStr "")))).
  - right; reflexivity.
  - reflexivity.
Defined.

(** ** [format_number] *)

Lemma gt_zero_not_zero (f : float) :
  num_gt_zero (PFloat f) = true -> num_is_zero (PFloat f) = false.
Proof.
  destruct f as [s | s | | s m e]; try destruct s; simpl; try discriminate; reflexivity.
Qed.

(** C10, counterexample: 0.004 is positive and [round(100 * 0.004)] is 0,
    yet [format_number] gives "0", not the empty string, and the line of
    hours reads "EM = 0". *)
Lemma format_number_tiny_is_not_empty :
  num_gt_zero (PFloat (literal 4 3)) = true
  /\ round_times_100 (PFloat (literal 4 3)) = inr 0
  /\ format_number (PFloat (literal 4 3)) <> inr ""
  /\ Technician.format_hours_line
       (technician_with None "em" (Some (PFloat (literal 4 3)))) = inr "EM = 0".
Proof.
  repeat split; try (vm_compute; reflexivity).
  vm_compute. discriminate.
Qed.

Lemma format_number_rounds_to_zero (f : float) :
  num_gt_zero (PFloat f) = true ->
  round_times_100 (PFloat f) = inr 0 ->
  format_number (PFloat f) = inr "0".
Proof.
  intros Hpos Hround.
  unfold format_number.
  rewrite (gt_zero_not_zero f Hpos), Hround.
  reflexivity.
Qed.

(** The line of hours of a technician with a single entry: the label of
    the entry, " = " and the formatted number. *)
Lemma hours_line_single (nm : option string) (ht : string) (v : Technician.hval)
      (f : float) (s : string) :
  In ht Technician.HOUR_TYPES ->
  Technician.hval_truthy v = true ->
  Technician.hval_float v = inr f ->
  num_gt_zero (PFloat f) = true ->
  format_number (PFloat f) = inr s ->
  Technician.format_hours_line (technician_with nm ht v)
  = inr (get_or Technician.HOUR_LABELS ht ht ++ " = " ++ s).
Proof.
  intros Hin Htruthy Hfloat Hpos Hfmt.
  unfold Technician.format_hours_line.
  simpl in Hin.
  repeat (destruct Hin as [<- | Hin]); try contradiction.
  all: unfold technician_with, Technician.init, Technician.hours_get;
    cbn [fold_left Technician.HOUR_TYPES dict_mem dict_get dict_set String.eqb
         Ascii.eqb Bool.eqb get_or foldM Technician.hours].
  all: rewrite Htruthy, Hfloat; cbn [bind]; rewrite Hpos; cbn [bind]; rewrite Hfmt.
  all: reflexivity.
Qed.

(** C10, as the code has it: for a positive float [f] with
    [round(100 * f) = 0], [format_number] returns "0", and the line of hours
    of a technician whose only hours are [f] reads "Label = 0". *)
Theorem format_number_below_rounding_threshold :
  forall f : float,
    num_gt_zero (PFloat f) = true ->
    round_times_100 (PFloat f) = inr 0 ->
    format_number (PFloat f) = inr "0"
    /\ (forall (nm : option string) (ht : string),
         In ht Technician.HOUR_TYPES ->
         Technician.format_hours_line (technician_with nm ht (Some (PFloat f)))
         = inr (get_or Technician.HOUR_LABELS ht ht ++ " = 0")).
Proof.
  intros f Hpos Hround.
  pose proof (format_number_rounds_to_zero f Hpos Hround) as Hzero.
  split; [exact Hzero |].
  intros nm ht Hin.
  apply (hours_line_single nm ht (Some (PFloat f)) f "0"); auto.
  simpl. unfold num_truthy. rewrite (gt_zero_not_zero f Hpos). reflexivity.
Qed.

Lemma format_number_below_rounding_threshold_witness :
  format_number (PFloat (literal 4 3)) = inr "0"
  /\ Technician.format_hours_line
       (technician_with (Some "A") "travel" (Some (PFloat (literal 4 3))))
     = inr "Travel = 0".
Proof.
  destruct (format_number_below_rounding_threshold (literal 4 3)) as [Hnum Hline].
  - vm_compute; reflexivity.
  - vm_compute; reflexivity.
  - split; [exact Hnum |].
    apply (Hline (Some "A") "travel").
    simpl; auto.
Defined.

(** ** Hours that are [None] *)

(** C5, at the failing input: a technician whose EM entry is [None].
    [get_total_hours] and [format_hours_line] read the entry as nothing,
    but [has_any_hours] raises [TypeError], and with it [format_type_time]
    and [format_billing_details] of a report that holds this technician. *)
Theorem none_hours_raise_type_error :
  Technician.get_total_hours tech_none = inr fzero
  /\ Technician.format_hours_line tech_none = inr ""
  /\ Technician.has_any_hours tech_none = inl TypeError
  /\ MultiDayJob.format_type_time short_text job_none = inl TypeError
  /\ LocateReport.format_billing_details short_text
       (with_job LocateReport.init job_none) = inl TypeError.
Proof. repeat split; vm_compute; reflexivity. Qed.

(** ** [format_time_12hr] *)

(** *** Strings *)

Ltac ascii_cases c := destruct c as [[] [] [] [] [] [] [] []].

Lemma all_chars_impl (p q : ascii -> bool) (s : string) :
  (forall c, p c = true -> q c = true) ->
  all_chars p s = true -> all_chars q s = true.
Proof.
  intros Hpq. induction s as [| c r IH]; simpl; [reflexivity |].
  intros H. apply andb_true_iff in H as [Hc Hr].
  rewrite (Hpq c Hc), (IH Hr). reflexivity.
Qed.

Lemma lstrip_by_none (q : ascii -> bool) (s : string) :
  all_chars (fun c => negb (q c)) s = true -> lstrip_by q s = s.
Proof.
  destruct s as [| c r]; simpl; [reflexivity |].
  intros H. apply andb_true_iff in H as [Hc _].
  apply negb_true_iff in Hc. rewrite Hc. reflexivity.
Qed.

Lemma rstrip_by_none (q : ascii -> bool) (s : string) :
  all_chars (fun c => negb (q c)) s = true -> rstrip_by q s = s.
Proof.
  induction s as [| c r IH]; simpl; [reflexivity |].
  intros H. apply andb_true_iff in H as [Hc Hr].
  apply negb_true_iff in Hc. rewrite (IH Hr), Hc.
  destruct r; reflexivity.
Qed.

Lemma strip_by_none (q : ascii -> bool) (s : string) :
  all_chars (fun c => negb (q c)) s = true -> strip_by q s = s.
Proof.
  intros H. unfold strip_by. rewrite (lstrip_by_none q s H). apply rstrip_by_none, H.
Qed.

Lemma lower_none (s : string) :
  all_chars (fun c => negb (isupper c)) s = true -> lower s = s.
Proof.
  unfold lower.
  induction s as [| c r IH]; simpl; [reflexivity |].
  intros H. apply andb_true_iff in H as [Hc Hr].
  apply negb_true_iff in Hc. unfold lower_char at 1. rewrite Hc, (IH Hr). reflexivity.
Qed.

Lemma contains_absent_head (a : ascii) (p s : string) :
  all_chars (fun c => negb (Ascii.eqb a c)) s = true ->
  contains (String a p) s = false.
Proof.
  induction s as [| c r IH]; simpl; [reflexivity |].
  intros H. apply andb_true_iff in H as [Hc Hr].
  apply negb_true_iff in Hc. rewrite Hc, (IH Hr). reflexivity.
Qed.

Lemma digit_or_colon_plain (c : ascii) :
  digit_or_colon c = true ->
  isspace c = false /\ isupper c = false
  /\ Ascii.eqb "a" c = false /\ Ascii.eqb "p" c = false.
Proof.
  ascii_cases c; vm_compute; intros H; try discriminate H; repeat split.
Qed.

Lemma is_digit_plain (c : ascii) :
  is_digit c = true ->
  int_blank c = false /\ Ascii.eqb "+" c = false /\ Ascii.eqb "-" c = false
  /\ digit_val c = Some (Z.of_nat (nat_of_ascii c - 48)).
Proof.
  ascii_cases c; vm_compute; intros H; try discriminate H; repeat split.
Qed.

Lemma remove_colon_digits (s : string) :
  all_chars digit_or_colon s = true ->
  all_chars is_digit (remove_char ":" s) = true.
Proof.
  induction s as [| c r IH]; simpl; [reflexivity |].
  intros H. apply andb_true_iff in H as [Hc Hr].
  destruct (Ascii.eqb c ":") eqn:E; [apply IH, Hr |].
  simpl. rewrite (IH Hr). unfold digit_or_colon in Hc. rewrite E in Hc.
  rewrite orb_false_r in Hc. rewrite Hc. reflexivity.
Qed.

Lemma int_digits_decimal (r : string) :
  all_chars is_digit r = true ->
  forall acc, int_digits acc r = Some (decimal_from acc r).
Proof.
  induction r as [| c r IH]; simpl; [reflexivity |].
  intros H acc. apply andb_true_iff in H as [Hc Hr].
  destruct (is_digit_plain c Hc) as (_ & _ & _ & Hval).
  rewrite Hval. apply IH, Hr.
Qed.

Lemma all_chars_append (p : ascii -> bool) (a b : string) :
  all_chars p (a ++ b) = all_chars p a && all_chars p b.
Proof.
  induction a as [| c r IH]; simpl; [reflexivity |].
  rewrite IH, andb_assoc. reflexivity.
Qed.

Lemma contains_append_r (sub a b : string) :
  contains sub b = true -> contains sub (a ++ b) = true.
Proof.
  intros Hb. induction a as [| c r IH]; simpl; [exact Hb |].
  rewrite IH. apply orb_true_r.
Qed.

Lemma rstrip_by_all (p : ascii -> bool) (s : string) :
  all_chars p s = true -> rstrip_by p s = "".
Proof.
  induction s as [| c r IH]; simpl; [reflexivity |].
  intros H. apply andb_true_iff in H as [Hc Hr].
  rewrite (IH Hr), Hc. reflexivity.
Qed.

Lemma lstrip_by_all_append (p : ascii -> bool) (pre y : string) :
  all_chars p pre = true -> lstrip_by p (pre ++ y) = lstrip_by p y.
Proof.
  induction pre as [| c r IH]; simpl; [reflexivity |].
  intros H. apply andb_true_iff in H as [Hc Hr].
  rewrite Hc. apply IH, Hr.
Qed.

(** What [strip] removes: characters of the kind stripped, before and
    after. *)
Lemma lstrip_by_split (p : ascii -> bool) (x : string) :
  exists pre, x = pre ++ lstrip_by p x /\ all_chars p pre = true.
Proof.
  induction x as [| c r IH]; simpl.
  - exists "". split; reflexivity.
  - destruct (p c) eqn:Hc.
    + destruct IH as (pre & Hx & Hpre). exists (String c pre). split.
      * simpl. rewrite <- Hx. reflexivity.
      * simpl. rewrite Hc, Hpre. reflexivity.
    + exists "". split; reflexivity.
Qed.

Lemma rstrip_by_split (p : ascii -> bool) (y : string) :
  exists post, y = rstrip_by p y ++ post /\ all_chars p post = true.
Proof.
  induction y as [| c r IH]; simpl.
  - exists "". split; reflexivity.
  - destruct IH as (post & Hy & Hpost).
    destruct (rstrip_by p r) as [| d r'] eqn:Hr.
    + destruct (p c) eqn:Hc.
      * exists (String c post). split.
        -- simpl. simpl in Hy. rewrite <- Hy. reflexivity.
        -- simpl. rewrite Hc, Hpost. reflexivity.
      * exists post. split; [| exact Hpost].
        simpl. simpl in Hy. rewrite <- Hy. reflexivity.
    + exists post. split; [| exact Hpost].
      simpl. simpl in Hy. rewrite <- Hy. reflexivity.
Qed.

Lemma strip_by_split (p : ascii -> bool) (x : string) :
  exists pre post,
    x = pre ++ strip_by p x ++ post
    /\ all_chars p pre = true /\ all_chars p post = true.
Proof.
  destruct (lstrip_by_split p x) as (pre & Hx & Hpre).
  destruct (rstrip_by_split p (lstrip_by p x)) as (post & Hy & Hpost).
  exists pre, post. unfold strip_by. rewrite <- Hy. auto.
Qed.

Lemma string_of_uint_digits (d : Decimal.uint) :
  all_chars is_digit (NilEmpty.string_of_uint d) = true.
Proof. induction d; simpl; try rewrite IHd; reflexivity. Qed.

Lemma str_of_Z_chars (z : Z) :
  all_chars clock_char (str_of_Z z) = true /\ str_of_Z z <> "".
Proof.
  assert (Hu : forall d, all_chars clock_char (NilZero.string_of_uint d) = true
                         /\ NilZero.string_of_uint d <> "").
  { intros d. split.
    - apply (all_chars_impl is_digit).
      + intros c Hc. unfold clock_char. rewrite Hc. reflexivity.
      + destruct d; try reflexivity; apply (string_of_uint_digits (_ d)).
    - destruct d; discriminate. }
  unfold str_of_Z. destruct (Z.to_int z) as [d | d]; simpl.
  - apply Hu.
  - split; [apply Hu | discriminate].
Qed.

Lemma rstrip_by_append (p : ascii -> bool) (a b : string) :
  rstrip_by p b <> "" -> rstrip_by p (a ++ b) = a ++ rstrip_by p b.
Proof.
  intros Hb. induction a as [| c r IH]; simpl; [reflexivity |].
  rewrite IH. destruct (r ++ rstrip_by p b) eqn:E; [| reflexivity].
  exfalso. destruct r; simpl in E; [apply Hb; exact E | discriminate E].
Qed.

(** *** The literals of [int] *)

Lemma is_digit_val (c : ascii) :
  is_digit c = true <-> exists d, digit_val c = Some d.
Proof.
  unfold is_digit. destruct (digit_val c); split; intros H; eauto; try discriminate.
  destruct H as (d & H). discriminate H.
Qed.

Lemma sign_plain (c : ascii) :
  Ascii.eqb c "+" || Ascii.eqb c "-" || Ascii.eqb c "_" = true ->
  int_blank c = false /\ digit_val c = None.
Proof. ascii_cases c; vm_compute; intros H; try discriminate H; split; reflexivity. Qed.

Lemma digit_not_sign (c : ascii) :
  is_digit c = true ->
  Ascii.eqb c "+" = false /\ Ascii.eqb c "-" = false /\ int_blank c = false.
Proof. ascii_cases c; vm_compute; intros H; try discriminate H; repeat split. Qed.

Lemma count_digits_all (d : string) :
  all_chars is_digit d = true -> count_digits d = String.length d.
Proof.
  induction d as [| c r IH]; simpl; [reflexivity |].
  intros H. apply andb_true_iff in H as [Hc Hr].
  apply is_digit_val in Hc as (v & ->). rewrite (IH Hr). reflexivity.
Qed.

Lemma groups_head (b : string) :
  digit_groups b -> exists c r, b = String c r /\ is_digit c = true.
Proof. intros H. destruct H; eauto. Qed.

(** What may follow a digit: nothing, more groups, or an underscore and
    more groups. *)
Lemma groups_cons (c : ascii) (r : string) :
  is_digit c = true ->
  (r = "" \/ digit_groups r \/ exists r', r = String "_" r' /\ digit_groups r') ->
  digit_groups (String c r).
Proof.
  intros Hc [-> | [Hr | (r' & -> & Hr')]].
  - apply groups_digit, Hc.
  - apply groups_next; assumption.
  - apply groups_underscore; assumption.
Qed.

Lemma int_digits_groups (n : nat) :
  forall (r : string) (acc z : Z),
    (String.length r <= n)%nat ->
    int_digits acc r = Some z ->
    r = "" \/ digit_groups r \/ exists r', r = String "_" r' /\ digit_groups r'.
Proof.
  induction n as [| n IH]; intros r acc z Hlen Hparse.
  - destruct r; [left; reflexivity | simpl in Hlen; lia].
  - destruct r as [| c r1]; [left; reflexivity |].
    simpl in Hlen. simpl in Hparse.
    destruct (digit_val c) as [d |] eqn:Hc.
    + right. left. apply groups_cons.
      * apply is_digit_val. eauto.
      * eapply (IH r1); [lia | exact Hparse].
    + destruct (Ascii.eqb c "_") eqn:Hu; [| discriminate Hparse].
      apply Ascii.eqb_eq in Hu. subst c.
      destruct r1 as [| c' r2]; [discriminate Hparse |].
      destruct (digit_val c') as [d' |] eqn:Hc'; [| discriminate Hparse].
      right. right. exists (String c' r2). split; [reflexivity |].
      apply groups_cons.
      * apply is_digit_val. eauto.
      * simpl in Hlen. eapply (IH r2); [lia | exact Hparse].
Qed.

Lemma int_unsigned_groups (b : string) (z : Z) :
  int_unsigned b = Some z -> digit_groups b.
Proof.
  unfold int_unsigned. destruct b as [| c r]; [discriminate |].
  destruct (digit_val c) as [d |] eqn:Hc; [| discriminate].
  intros Hparse. apply groups_cons.
  - apply is_digit_val. eauto.
  - apply (int_digits_groups (String.length r) r d z); [lia | exact Hparse].
Qed.

Lemma groups_int_digits (b : string) :
  digit_groups b -> forall acc, exists z, int_digits acc b = Some z.
Proof.
  induction 1 as [c Hc | c r Hc Hr IH | c r Hc Hr IH]; intros acc;
    apply is_digit_val in Hc as (d & Hd); simpl; rewrite Hd.
  - eauto.
  - apply IH.
  - destruct (groups_head r Hr) as (c' & r' & -> & Hc').
    apply is_digit_val in Hc' as (d' & Hd').
    simpl. rewrite Hd'.
    destruct (IH (10 * acc + d)) as (z & Hz). simpl in Hz. rewrite Hd' in Hz. eauto.
Qed.

Lemma groups_int_unsigned (b : string) :
  digit_groups b -> exists z, int_unsigned b = Some z.
Proof.
  intros Hb. destruct (groups_head b Hb) as (c & r & -> & Hc).
  destruct (groups_int_digits _ Hb 0) as (z & Hz).
  apply is_digit_val in Hc as (d & Hd).
  simpl in Hz. rewrite Hd in Hz. unfold int_unsigned. rewrite Hd. eauto.
Qed.

Lemma groups_rstrip (b : string) :
  digit_groups b ->
  forall post, all_chars int_blank post = true ->
               rstrip_by int_blank (b ++ post) = b.
Proof.
  induction 1 as [c Hc | c r Hc Hr IH | c r Hc Hr IH]; intros post Hpost;
    destruct (digit_not_sign c Hc) as (_ & _ & Hblank).
  - simpl. rewrite (rstrip_by_all _ _ Hpost), Hblank. reflexivity.
  - simpl. rewrite (IH post Hpost).
    destruct (groups_head r Hr) as (c' & r' & -> & _). reflexivity.
  - simpl. rewrite (IH post Hpost).
    destruct (groups_head r Hr) as (c' & r' & -> & _). reflexivity.
Qed.

(** [int] reads exactly the literals. *)
Lemma int_of_str_literal (x : string) :
  (exists z, int_of_str x = inr z) <-> int_literal x.
Proof.
  split.
  - intros (z & Hparse). unfold int_of_str in Hparse.
    destruct (strip_by_split int_blank x) as (pre & post & Hx & Hpre & Hpost).
    destruct (strip_by int_blank x) as [| c r]; [discriminate Hparse |].
    destruct (Ascii.eqb c "+") eqn:Hplus; [| destruct (Ascii.eqb c "-") eqn:Hminus].
    + apply Ascii.eqb_eq in Hplus. subst c.
      destruct (int_unsigned r) as [z' |] eqn:Hr; [| discriminate Hparse].
      change (count_digits (String "+" r)) with (count_digits r) in Hparse.
      destruct (count_digits r <=? MAX_STR_DIGITS)%nat eqn:Hcount; [| discriminate Hparse].
      exists pre, "+", r, post.
      repeat split; auto; [apply (int_unsigned_groups r z' Hr) | apply Nat.leb_le, Hcount].
    + apply Ascii.eqb_eq in Hminus. subst c.
      destruct (int_unsigned r) as [z' |] eqn:Hr; [| discriminate Hparse].
      change (count_digits (String "-" r)) with (count_digits r) in Hparse.
      simpl option_map in Hparse.
      destruct (count_digits r <=? MAX_STR_DIGITS)%nat eqn:Hcount; [| discriminate Hparse].
      exists pre, "-", r, post.
      repeat split; auto; [apply (int_unsigned_groups r z' Hr) | apply Nat.leb_le, Hcount].
    + destruct (int_unsigned (String c r)) as [z' |] eqn:Hr; [| discriminate Hparse].
      destruct (count_digits (String c r) <=? MAX_STR_DIGITS)%nat eqn:Hcount;
        [| discriminate Hparse].
      exists pre, "", (String c r), post.
      repeat split; auto; [apply (int_unsigned_groups _ z' Hr) | apply Nat.leb_le, Hcount].
  - intros (pre & sign & body & post & -> & Hpre & Hpost & Hsign & Hbody & Hcount).
    destruct (groups_int_unsigned body Hbody) as (z & Hz).
    pose proof (groups_rstrip body Hbody post Hpost) as Hright.
    destruct (groups_head body Hbody) as (c & r & -> & Hc).
    destruct (digit_not_sign c Hc) as (Hplus & Hminus & Hblank).
    apply Nat.leb_le in Hcount.
    unfold int_of_str, strip_by. rewrite (lstrip_by_all_append _ _ _ Hpre).
    destruct Hsign as [-> | [-> | ->]].
    + change ("" ++ String c r ++ post) with (String c (r ++ post)).
      cbn [lstrip_by]. rewrite Hblank.
      change (String c (r ++ post)) with (String c r ++ post).
      rewrite Hright, Hplus, Hminus, Hz, Hcount. eauto.
    + change ("+" ++ String c r ++ post) with (String "+" (String c r ++ post)).
      change (lstrip_by int_blank (String "+" (String c r ++ post)))
        with (String "+" (String c r ++ post)).
      change (rstrip_by int_blank (String "+" (String c r ++ post)))
        with (match rstrip_by int_blank (String c r ++ post) with
              | "" => String "+" ""
              | String a b => String "+" (String a b)
              end).
      rewrite Hright.
      change (Ascii.eqb "+" "+") with true. cbv iota. rewrite Hz.
      change (count_digits (String "+" (String c r))) with (count_digits (String c r)).
      rewrite Hcount. eauto.
    + change ("-" ++ String c r ++ post) with (String "-" (String c r ++ post)).
      change (lstrip_by int_blank (String "-" (String c r ++ post)))
        with (String "-" (String c r ++ post)).
      change (rstrip_by int_blank (String "-" (String c r ++ post)))
        with (match rstrip_by int_blank (String c r ++ post) with
              | "" => String "-" ""
              | String a b => String "-" (String a b)
              end).
      rewrite Hright.
      change (Ascii.eqb "-" "+") with false. change (Ascii.eqb "-" "-") with true.
      cbv iota. rewrite Hz.
      change (count_digits (String "-" (String c r))) with (count_digits (String c r)).
      rewrite Hcount. cbn [option_map]. eauto.
Qed.

(** *** The text that [format_time_12hr] parses *)

Lemma isspace_lower (c : ascii) : isspace (lower_char c) = isspace c.
Proof. ascii_cases c; reflexivity. Qed.


Lemma lower_lstrip (s : string) :
  lstrip_by isspace (lower s) = lower (lstrip_by isspace s).
Proof.
  induction s as [| c r IH]; simpl; [reflexivity |].
  rewrite isspace_lower. destruct (isspace c); [exact IH | reflexivity].
Qed.

Lemma lower_rstrip (s : string) :
  rstrip_by isspace (lower s) = lower (rstrip_by isspace s).
Proof.
  induction s as [| c r IH]; simpl; [reflexivity |].
  fold (lower r). rewrite IH, isspace_lower.
  destruct (rstrip_by isspace r); simpl; [destruct (isspace c) |]; reflexivity.
Qed.






















(** The parse of the hour and the minute succeeds exactly on the texts that
    read as a clock time. *)
Lemma parse_clock_reads (t : string) :
  (exists hm, parse_clock t = inr hm) <-> reads_as_clock t.
Proof.
  unfold parse_clock, reads_as_clock. cbv zeta.
  set (parts := strip (remove_char ":" t)).
  destruct (String.length parts <=? 2)%nat.
  - rewrite <- int_of_str_literal. split.
    + intros (hm & H). destruct (int_of_str parts) as [e | z]; [discriminate H | eauto].
    + intros (z & ->). simpl. eauto.
  - rewrite <- !int_of_str_literal. split.
    + intros (hm & H).
      destruct (int_of_str (all_but_last2 parts)) as [e | z]; [discriminate H |].
      destruct (int_of_str (last2 parts)) as [e | z']; [discriminate H | eauto].
    + intros ((z & ->) & (z' & ->)). simpl. eauto.
Qed.













(** Texts that are no digit strings and still read as clock times: a signed
    minute, an underscore between digits, a blank before the minute. *)
Lemma clock_times_beyond_digits :
  format_time_12hr (TStr "5-3") = "5:-3 am"
  /\ format_time_12hr (TStr "1_000") = "10:00 am"
  /\ format_time_12hr (TStr "12 30") = "12:30 pm"
  /\ reads_as_clock "5-3" /\ reads_as_clock "1_000" /\ reads_as_clock "12 30".
Proof.
  split; [reflexivity |]. split; [reflexivity |]. split; [reflexivity |].
  split; [| split]; apply parse_clock_reads; vm_compute; eauto.
Qed.

(** *** The digit rule *)

Lemma int_of_str_digits (d : string) :
  all_chars is_digit d = true -> d <> "" ->
  (String.length d <= MAX_STR_DIGITS)%nat ->
  int_of_str d = inr (decimal_value d).
Proof.
  intros Hd Hne Hlen. unfold int_of_str.
  rewrite strip_by_none.
  2:{ apply (all_chars_impl is_digit); [| exact Hd].
      intros c Hc. destruct (is_digit_plain c Hc) as (-> & _). reflexivity. }
  rewrite (count_digits_all d Hd).
  apply Nat.leb_le in Hlen. rewrite Hlen.
  destruct d as [| c r]; [contradiction |].
  simpl in Hd. apply andb_true_iff in Hd as [Hc Hr].
  destruct (digit_not_sign c Hc) as (-> & -> & _).
  unfold int_unsigned, decimal_value. simpl.
  destruct (is_digit_plain c Hc) as (_ & _ & _ & ->).
  rewrite (int_digits_decimal r Hr). reflexivity.
Qed.

Lemma int_of_str_too_long (d : string) :
  all_chars is_digit d = true ->
  (MAX_STR_DIGITS < String.length d)%nat ->
  int_of_str d = inl ValueError.
Proof.
  intros Hd Hlen. unfold int_of_str.
  rewrite strip_by_none.
  2:{ apply (all_chars_impl is_digit); [| exact Hd].
      intros c Hc. destruct (is_digit_plain c Hc) as (-> & _). reflexivity. }
  rewrite (count_digits_all d Hd).
  apply Nat.leb_gt in Hlen. rewrite Hlen.
  destruct d as [| c r]; [reflexivity |].
  destruct (Ascii.eqb c "+"); [destruct (int_unsigned r); reflexivity |].
  destruct (Ascii.eqb c "-"); [destruct (int_unsigned r); reflexivity |].
  destruct (int_unsigned (String c r)); reflexivity.
Qed.

Lemma all_chars_take (p : ascii -> bool) (s : string) :
  all_chars p s = true -> forall n, all_chars p (take n s) = true.
Proof.
  induction s as [| c r IH]; intros H n; destruct n; simpl; try reflexivity.
  simpl in H. apply andb_true_iff in H as [Hc Hr].
  rewrite Hc, (IH Hr). reflexivity.
Qed.

Lemma all_chars_drop (p : ascii -> bool) (s : string) :
  all_chars p s = true -> forall n, all_chars p (drop n s) = true.
Proof.
  induction s as [| c r IH]; intros H n; destruct n; simpl; try reflexivity.
  - exact H.
  - simpl in H. apply andb_true_iff in H as [_ Hr]. apply IH, Hr.
Qed.

Lemma length_take (s : string) :
  forall n, (n <= String.length s)%nat -> String.length (take n s) = n.
Proof.
  induction s as [| c r IH]; intros n Hn; destruct n; simpl in *; try reflexivity; try lia.
  rewrite IH; lia.
Qed.

Lemma length_drop (s : string) :
  forall n, String.length (drop n s) = (String.length s - n)%nat.
Proof.
  induction s as [| c r IH]; intros n; destruct n; simpl; try reflexivity.
  apply IH.
Qed.

Lemma length_pos_nonempty (s : string) : (0 < String.length s)%nat -> s <> "".
Proof. destruct s; simpl; [lia | discriminate]. Qed.

Lemma digits_parsed_as_given (d : string) :
  all_chars is_digit d = true -> strip (remove_char ":" d) = d.
Proof.
  intros Hd.
  assert (Hrm : remove_char ":" d = d).
  { induction d as [| c r IH]; simpl; [reflexivity |].
    simpl in Hd. apply andb_true_iff in Hd as [Hc Hr].
    rewrite (IH Hr).
    replace (Ascii.eqb c ":") with false; [reflexivity |].
    revert Hc. clear. ascii_cases c; vm_compute; intros H; try discriminate H; reflexivity. }
  rewrite Hrm.
  apply strip_by_none. apply (all_chars_impl is_digit); [| exact Hd].
  intros c Hc. revert Hc. clear.
  ascii_cases c; vm_compute; intros H; try discriminate H; reflexivity.
Qed.

Lemma parse_clock_digits (d : string) :
  all_chars is_digit d = true -> d <> "" ->
  (String.length d <= MAX_STR_DIGITS + 2)%nat ->
  parse_clock d = inr (digit_rule_hour d, digit_rule_minute d).
Proof.
  intros Hd Hne Hbound.
  unfold parse_clock, digit_rule_hour, digit_rule_minute.
  rewrite (digits_parsed_as_given d Hd).
  destruct (String.length d <=? 2)%nat eqn:Hlen.
  - apply Nat.leb_le in Hlen.
    rewrite (int_of_str_digits d Hd Hne); [reflexivity |].
    unfold MAX_STR_DIGITS. lia.
  - apply Nat.leb_gt in Hlen.
    rewrite (int_of_str_digits (all_but_last2 d)).
    + rewrite (int_of_str_digits (last2 d)); [reflexivity | | |].
      * apply all_chars_drop, Hd.
      * apply length_pos_nonempty. unfold last2. rewrite length_drop. lia.
      * unfold last2. rewrite length_drop. unfold MAX_STR_DIGITS. lia.
    + apply all_chars_take, Hd.
    + apply length_pos_nonempty. unfold all_but_last2. rewrite length_take; lia.
    + unfold all_but_last2. rewrite length_take; lia.
Qed.

Lemma parse_clock_too_long (d : string) :
  all_chars is_digit d = true ->
  (MAX_STR_DIGITS + 2 < String.length d)%nat ->
  parse_clock d = inl ValueError.
Proof.
  intros Hd Hbound.
  unfold parse_clock.
  rewrite (digits_parsed_as_given d Hd).
  destruct (String.length d <=? 2)%nat eqn:Hlen.
  - apply Nat.leb_le in Hlen. lia.
  - rewrite (int_of_str_too_long (all_but_last2 d)); [reflexivity | |].
    + apply all_chars_take, Hd.
    + unfold all_but_last2. rewrite length_take; lia.
Qed.

Lemma remove_char_twice (c : ascii) (s : string) :
  remove_char c (remove_char c s) = remove_char c s.
Proof.
  induction s as [| a r IH]; simpl; [reflexivity |].
  destruct (Ascii.eqb a c) eqn:E; [exact IH |].
  simpl. rewrite E, IH. reflexivity.
Qed.

(** On digits and colons the code parses the string as it is given. *)
Lemma format_time_12hr_digits (s : string) :
  all_chars digit_or_colon s = true ->
  remove_char ":" s <> "" ->
  format_time_12hr (TStr s)
  = match parse_clock (remove_char ":" s) with
    | inr (hour, minute) => rule_12hr hour minute
    | inl _ => s
    end.
Proof.
  intros Hs Hne.
  assert (Hplain : forall c, digit_or_colon c = true ->
                     negb (isspace c) = true /\ negb (isupper c) = true
                     /\ negb (Ascii.eqb "a" c) = true /\ negb (Ascii.eqb "p" c) = true).
  { intros c Hc. destruct (digit_or_colon_plain c Hc) as (-> & -> & -> & ->).
    repeat split. }
  assert (Hstrip : strip s = s).
  { apply strip_by_none, (all_chars_impl digit_or_colon); [| exact Hs].
    intros c Hc. apply (Hplain c Hc). }
  assert (Hlower : lower s = s).
  { apply lower_none, (all_chars_impl digit_or_colon); [| exact Hs].
    intros c Hc. apply (Hplain c Hc). }
  assert (Ham : contains "am" s = false).
  { apply contains_absent_head, (all_chars_impl digit_or_colon); [| exact Hs].
    intros c Hc. apply (Hplain c Hc). }
  assert (Hpm : contains "pm" s = false).
  { apply contains_absent_head, (all_chars_impl digit_or_colon); [| exact Hs].
    intros c Hc. apply (Hplain c Hc). }
  assert (Htruthy : truthy s = true).
  { destruct s; [exfalso; apply Hne; reflexivity | reflexivity]. }
  unfold format_time_12hr.
  rewrite Htruthy, Hstrip, Hlower, Ham, Hpm.
  cbn [negb orb].
  replace (parse_clock (remove_char ":" s)) with (parse_clock s); [reflexivity |].
  unfold parse_clock. rewrite remove_char_twice. reflexivity.
Qed.

(** C6, counterexample: 4400 zeros followed by "930" is a string of digits
    on which the rule of the claim gives hour 9 and minute 30, yet the
    string comes back as it is: [int] refuses the 4401 digits of the hour
    and the [except] branch returns the text. *)
Lemma long_digit_string_is_returned_unchanged :
  all_chars digit_or_colon long_digits = true
  /\ digit_rule_hour (remove_char ":" long_digits) = 9
  /\ digit_rule_minute (remove_char ":" long_digits) = 30
  /\ rule_12hr 9 30 = "9:30 am"
  /\ format_time_12hr (TStr long_digits) = long_digits
  /\ format_time_12hr (TStr long_digits) <> "9:30 am".
Proof.
  assert (Hsame : format_time_12hr (TStr long_digits) = long_digits)
    by (vm_compute; reflexivity).
  split; [vm_compute; reflexivity |].
  split; [vm_compute; reflexivity |].
  split; [vm_compute; reflexivity |].
  split; [reflexivity |].
  split; [exact Hsame |].
  rewrite Hsame. unfold long_digits. discriminate.
Qed.

(** C6, as the code has it: on a string of digits that may contain colons,
    with at most 4302 digits, [format_time_12hr] removes the colons, reads up
    to two digits as the hour with minute 0 and otherwise the last two digits
    as the minute and the rest as the hour, and renders hour 0 or 24 as
    "12:MM am", an hour below 12 as "H:MM am", hour 12 as "12:MM pm" and a
    later hour as "(H-12):MM pm"; with more than 4302 digits the string is
    returned as it is; "0900", "1430", "1200" and "0" give "9:00 am",
    "2:30 pm", "12:00 pm" and "12:00 am", and an empty or absent value gives
    "". *)
Theorem format_time_12hr_digit_rule :
  (forall s : string,
      all_chars digit_or_colon s = true ->
      remove_char ":" s <> "" ->
      (String.length (remove_char ":" s) <= 4302)%nat ->
      format_time_12hr (TStr s)
      = rule_12hr (digit_rule_hour (remove_char ":" s))
                  (digit_rule_minute (remove_char ":" s)))
  /\ (forall s : string,
         all_chars digit_or_colon s = true ->
         (4302 < String.length (remove_char ":" s))%nat ->
         format_time_12hr (TStr s) = s)
  /\ format_time_12hr (TStr "0900") = "9:00 am"
  /\ format_time_12hr (TStr "1430") = "2:30 pm"
  /\ format_time_12hr (TStr "1200") = "12:00 pm"
  /\ format_time_12hr (TStr "0") = "12:00 am"
  /\ format_time_12hr (TStr "") = ""
  /\ format_time_12hr TNone = "".
Proof.
  split; [| split; [| repeat split; vm_compute; reflexivity]].
  - intros s Hs Hne Hbound.
    rewrite (format_time_12hr_digits s Hs Hne).
    rewrite (parse_clock_digits (remove_char ":" s) (remove_colon_digits s Hs) Hne Hbound).
    reflexivity.
  - intros s Hs Hbound.
    rewrite (format_time_12hr_digits s Hs).
    + rewrite (parse_clock_too_long (remove_char ":" s) (remove_colon_digits s Hs) Hbound).
      reflexivity.
    + apply length_pos_nonempty. lia.
Qed.

Lemma format_time_12hr_digit_rule_witness :
  format_time_12hr (TStr "09:15") = "9:15 am".
Proof.
  apply (proj1 format_time_12hr_digit_rule "09:15").
  - vm_compute; reflexivity.
  - vm_compute; discriminate.
  - vm_compute; lia.
Defined.

(** ** Rounding to two decimals *)





(** *** The sign of a quotient *)



(** *** The text of a number of hundredths *)




(** *** Rounding to the nearest integer *)




Lemma pow2_pos (e : Z) : 0 < 2 ^ e \/ e < 0.
Proof. destruct (Z.lt_ge_cases e 0); [right; lia | left; apply Z.pow_pos_nonneg; lia]. Qed.


(** *** The text of a rounded number *)






(** ** The single-day path *)

Lemma single_day_true {Date : Type} (j : MultiDayJob.t Date) :
  MultiDayJob.is_multi_day j = false
  \/ (List.length (MultiDayJob.work_days j) <= 1)%nat ->
  MultiDayJob.single_day j = true.
Proof.
  unfold MultiDayJob.single_day.
  intros [-> | Hlen]; [reflexivity |].
  apply Nat.leb_le in Hlen. rewrite Hlen. apply orb_true_r.
Qed.

(** The single-day texts, read off the first work day alone. *)
Lemma single_day_texts {Date : Type} (fd : Date -> string)
      (j : MultiDayJob.t Date) (d : WorkDay.t Date) :
  MultiDayJob.single_day j = true ->
  hd_error (MultiDayJob.work_days j) = Some d ->
  MultiDayJob.format_time_on_site fd j
  = (let start := format_time_12hr (WorkDay.start_time d) in
     let end_ := format_time_12hr (WorkDay.end_time d) in
     if truthy start && truthy end_ then start ++ " to " ++ end_
     else if truthy start then "from " ++ start
     else if truthy end_ then "to " ++ end_
     else "")
  /\ MultiDayJob.format_type_time fd j
     = (lines <-
          (lines <- MultiDayJob.append_tech_lines (WorkDay.technicians d) [] ;;
           working <- filterM Technician.has_any_hours (WorkDay.technicians d) ;;
           if (2 <=? List.length working)%nat then
             tot <- foldM add_tech_hours (WorkDay.technicians d) zero_totals ;;
             totals_line <- format_totals_line tot ;;
             if truthy totals_line then ret (push lines ("Total: " ++ totals_line))
             else ret lines
           else ret lines) ;;
        ret (join CR lines)).
Proof.
  intros Hsingle Hhd.
  unfold MultiDayJob.format_time_on_site, MultiDayJob.format_type_time.
  rewrite Hsingle.
  destruct (MultiDayJob.work_days j) as [| d0 rest]; [discriminate Hhd |].
  injection Hhd as ->.
  split; reflexivity.
Qed.

(** C1: a job with [is_multi_day] false, or with at most one work day, is
    formatted on the single-day path, which reads the first work day only:
    two such jobs whose first work days have the same times and technicians
    get the same [format_time_on_site] and the same [format_type_time],
    whatever further work days either list holds. *)
Theorem single_day_path_reads_first_day :
  forall (Date : Type) (fd : Date -> string)
         (j1 j2 : MultiDayJob.t Date) (d1 d2 : WorkDay.t Date),
    (MultiDayJob.is_multi_day j1 = false
     \/ (List.length (MultiDayJob.work_days j1) <= 1)%nat) ->
    (MultiDayJob.is_multi_day j2 = false
     \/ (List.length (MultiDayJob.work_days j2) <= 1)%nat) ->
    hd_error (MultiDayJob.work_days j1) = Some d1 ->
    hd_error (MultiDayJob.work_days j2) = Some d2 ->
    WorkDay.start_time d1 = WorkDay.start_time d2 ->
    WorkDay.end_time d1 = WorkDay.end_time d2 ->
    WorkDay.technicians d1 = WorkDay.technicians d2 ->
    MultiDayJob.format_time_on_site fd j1 = WorkDay.format_time_range d1
    /\ MultiDayJob.format_time_on_site fd j1 = MultiDayJob.format_time_on_site fd j2
    /\ MultiDayJob.format_type_time fd j1 = MultiDayJob.format_type_time fd j2.
Proof.
  intros Date fd j1 j2 d1 d2 H1 H2 Hd1 Hd2 Hstart Hend Htechs.
  destruct (single_day_texts fd j1 d1 (single_day_true j1 H1) Hd1) as [Ht1 Hy1].
  destruct (single_day_texts fd j2 d2 (single_day_true j2 H2) Hd2) as [Ht2 Hy2].
  split; [exact Ht1 |].
  split.
  - rewrite Ht1, Ht2, Hstart, Hend. reflexivity.
  - rewrite Hy1, Hy2, Htechs. reflexivity.
Qed.

Lemma single_day_path_reads_first_day_witness :
  MultiDayJob.format_time_on_site short_text job_one_day
  = MultiDayJob.format_time_on_site short_text job_flag_off
  /\ MultiDayJob.format_type_time short_text job_one_day
     = MultiDayJob.format_type_time short_text job_flag_off.
Proof.
  apply (single_day_path_reads_first_day string short_text
           job_one_day job_flag_off day_a day_a).
  - right. simpl. lia.
  - left. reflexivity.
  - reflexivity.
  - reflexivity.
  - reflexivity.
  - reflexivity.
  - reflexivity.
Defined.

(** ** The billing details *)

Lemma append_empty_r (s : string) : s ++ "" = s.
Proof. induction s as [| c r IH]; simpl; [reflexivity | rewrite IH; reflexivity]. Qed.

Lemma append_assoc_str (a b c : string) : (a ++ b) ++ c = a ++ (b ++ c).
Proof. induction a as [| x r IH]; simpl; [reflexivity | rewrite IH; reflexivity]. Qed.

Lemma length_append_str (a b : string) :
  String.length (a ++ b) = (String.length a + String.length b)%nat.
Proof. induction a as [| x r IH]; simpl; [reflexivity | rewrite IH; reflexivity]. Qed.

Lemma length_spaces (n : nat) : String.length (spaces n) = n.
Proof. induction n as [| n IH]; simpl; [reflexivity | rewrite IH; reflexivity]. Qed.

(** The loop of [make_line] adds the blanks that are missing up to
    [HEADER_WIDTH], and none to a longer string. *)
Lemma pad_loop_spaces (turns : nat) :
  forall s : string,
    pad_loop turns s = s ++ spaces (Nat.min turns (HEADER_WIDTH - String.length s)).
Proof.
  induction turns as [| k IH]; intros s.
  - simpl. symmetry. apply append_empty_r.
  - cbn [pad_loop].
    destruct (String.length s <? HEADER_WIDTH)%nat eqn:Hlt.
    + apply Nat.ltb_lt in Hlt.
      rewrite IH, length_append_str. simpl String.length.
      replace (HEADER_WIDTH - String.length s)%nat
        with (S (HEADER_WIDTH - (String.length s + 1)))%nat by lia.
      rewrite <- Nat.succ_min_distr. cbn [spaces].
      rewrite append_assoc_str. reflexivity.
    + apply Nat.ltb_ge in Hlt.
      replace (HEADER_WIDTH - String.length s)%nat with 0%nat by lia.
      rewrite Nat.min_0_r. symmetry. apply append_empty_r.
Qed.

Lemma make_line_cell (header content : string) :
  make_line header content
  = if truthy content then header_cell header ++ content else "".
Proof.
  unfold make_line, header_cell.
  destruct (truthy content); [| reflexivity].
  cbn [negb]. rewrite pad_loop_spaces, length_append_str.
  simpl String.length.
  replace (Nat.min HEADER_WIDTH (HEADER_WIDTH - (String.length header + 1)))
    with (HEADER_WIDTH - S (String.length header))%nat by lia.
  rewrite !append_assoc_str. reflexivity.
Qed.

Lemma push_section (lines : list string) (header content : string) :
  (if truthy content then push lines (make_line header content) else lines)
  = (lines ++ section_lines header content)%list.
Proof.
  unfold section_lines, push. rewrite make_line_cell.
  destruct (truthy content); [reflexivity | symmetry; apply app_nil_r].
Qed.

Lemma fold_push_map {A B : Type} (f : A -> B) (xs : list A) :
  forall acc : list B,
    fold_left (fun acc x => push acc (f x)) xs acc = (acc ++ map f xs)%list.
Proof.
  induction xs as [| x xs IH]; intros acc; simpl.
  - symmetry; apply app_nil_r.
  - rewrite IH. unfold push. rewrite <- app_assoc. reflexivity.
Qed.

Lemma split_nonempty (c : ascii) (s : string) : split c s <> [].
Proof.
  destruct s as [| a r]; simpl; [discriminate |].
  destruct (Ascii.eqb a c); [discriminate |].
  destruct (split c r); discriminate.
Qed.

Lemma push_type_time (lines : list string) (type_time : string) :
  (if truthy type_time then
     let type_time_lines := split (ascii_of_nat 13) type_time in
     let lines := push lines (make_line "TYPE/TIME" (hd "" type_time_lines)) in
     fold_left (fun lines extra_line => push lines (make_continuation_line extra_line))
               (tl type_time_lines) lines
   else lines)
  = (lines ++ type_time_block type_time)%list.
Proof.
  unfold type_time_block.
  destruct (truthy type_time); [| symmetry; apply app_nil_r].
  cbv zeta.
  destruct (split (ascii_of_nat 13) type_time) as [| first rest] eqn:Hsplit.
  - exfalso. apply (split_nonempty _ _ Hsplit).
  - cbn [hd tl]. rewrite fold_push_map, make_line_cell. unfold push.
    rewrite <- app_assoc. cbn [app].
    do 2 f_equal.
    apply map_ext. intros l. unfold make_continuation_line.
    destruct (truthy l); reflexivity.
Qed.

(** C4, as the code has it: [format_billing_details] emits at most the five
    sections TIME ON SITE, TYPE/TIME, SUPPLEMENTAL, MATERIALS and PROPERTY
    TYPE, in this order; a header line is the header and its colon filled
    with blanks to the width of 18 and then the content; a section with empty
    content is left out, so no header stands without content; a further line
    of TYPE/TIME is indented by 18 blanks when it is not empty, and an empty
    line of TYPE/TIME stays an empty line, without header or indentation. *)
Theorem billing_details_layout :
  forall (Date : Type) (fd : Date -> string) (r : LocateReport.t Date),
    LocateReport.format_billing_details fd r = billing_layout fd type_time_block r
    /\ Forall (fun header => String.length (header_cell header) = HEADER_WIDTH)
              ["TIME ON SITE"; "TYPE/TIME"; "SUPPLEMENTAL"; "MATERIALS"; "PROPERTY TYPE"].
Proof.
  intros Date fd r. split.
  - unfold LocateReport.format_billing_details, billing_layout.
    apply bind_ext. intros type_time.
    rewrite !push_section, push_type_time.
    rewrite <- !app_assoc, app_nil_l. reflexivity.
  - repeat constructor.
Qed.

(** C4, counterexample: on a two-day job the TYPE/TIME text has a blank
    line before "TOTALS:"; the code emits it as an empty line, where the
    layout with every further line indented to the content column has 18
    blanks. *)
Lemma billing_blank_line_is_not_indented :
  LocateReport.format_billing_details short_text
    (with_job LocateReport.init job_two_days)
  = inr (join CR
           ["TIME ON SITE:     Day (Unknown): 9:00 am to 2:30 pm";
            "Day (Unknown): from 8:00 am";
            "TYPE/TIME:        Day (Unknown): A: EM = 2";
            "";
            "                  TOTALS:";
            "                    A: EM = 2";
            "                    Combined: EM = 2"])
  /\ billing_layout short_text claimed_type_time_block
       (with_job LocateReport.init job_two_days)
     = inr (join CR
           ["TIME ON SITE:     Day (Unknown): 9:00 am to 2:30 pm";
            "Day (Unknown): from 8:00 am";
            "TYPE/TIME:        Day (Unknown): A: EM = 2";
            "                  ";
            "                  TOTALS:";
            "                    A: EM = 2";
            "                    Combined: EM = 2"])
  /\ LocateReport.format_billing_details short_text
       (with_job LocateReport.init job_two_days)
     <> billing_layout short_text claimed_type_time_block
          (with_job LocateReport.init job_two_days).
Proof.
  split; [vm_compute; reflexivity |].
  split; [vm_compute; reflexivity |].
  vm_compute. discriminate.
Qed.

(** ** The multi-day path *)

(** *** Loops that may raise *)

Lemma foldM_app {A B : Type} (body : B -> A -> M B) (xs ys : list A) :
  forall acc : B,
    foldM body (xs ++ ys) acc = (acc' <- foldM body xs acc ;; foldM body ys acc').
Proof.
  induction xs as [| x xs IH]; intros acc; simpl; [reflexivity |].
  destruct (body acc x) as [e | acc']; simpl; [reflexivity | apply IH].
Qed.

(** A loop over the days with a loop over the technicians of each day is
    one loop over the technicians of all days. *)
Lemma foldM_flat_map {A B C : Type} (body : B -> A -> M B) (inner : C -> list A)
      (ys : list C) :
  forall acc : B,
    foldM (fun acc y => foldM body (inner y) acc) ys acc
    = foldM body (flat_map inner ys) acc.
Proof.
  induction ys as [| y ys IH]; intros acc; simpl; [reflexivity |].
  rewrite foldM_app. apply bind_ext. intros acc'. apply IH.
Qed.

(** A loop whose turn first computes something that may raise and then
    updates the accumulator: all the computations, then the updates. *)
Lemma foldM_fold_left {A B E : Type} (body : B -> A -> M B)
      (g : A -> M E) (h : B -> E -> B) :
  (forall acc x, body acc x = (e <- g x ;; ret (h acc e))) ->
  forall (xs : list A) (acc : B),
    foldM body xs acc = (es <- mapM g xs ;; ret (fold_left h es acc)).
Proof.
  intros Hbody. induction xs as [| x xs IH]; intros acc; simpl; [reflexivity |].
  rewrite Hbody. destruct (g x) as [err | e]; simpl; [reflexivity |].
  rewrite IH. destruct (mapM g xs); reflexivity.
Qed.

Lemma fold_left_app_concat {B : Type} (ps : list (list B)) :
  forall acc : list B, fold_left (@app B) ps acc = (acc ++ List.concat ps)%list.
Proof.
  induction ps as [| p ps IH]; intros acc; simpl.
  - symmetry; apply app_nil_r.
  - rewrite IH, app_assoc. reflexivity.
Qed.

Lemma foldM_append_parts {A B : Type} (body : list B -> A -> M (list B))
      (g : A -> M (list B)) :
  (forall acc x, body acc x = (p <- g x ;; ret (acc ++ p)%list)) ->
  forall (xs : list A) (acc : list B),
    foldM body xs acc = (ps <- mapM g xs ;; ret (acc ++ List.concat ps)%list).
Proof.
  intros Hbody xs acc.
  rewrite (foldM_fold_left body g (@app B) Hbody).
  apply bind_ext. intros ps. rewrite fold_left_app_concat. reflexivity.
Qed.

Lemma mapM_map {A B C : Type} (f : B -> M C) (h : A -> B) (xs : list A) :
  mapM f (map h xs) = mapM (fun x => f (h x)) xs.
Proof.
  induction xs as [| x xs IH]; simpl; [reflexivity |].
  rewrite IH. reflexivity.
Qed.

Lemma mapM_ext {A B : Type} (f g : A -> M B) (xs : list A) :
  (forall x, f x = g x) -> mapM f xs = mapM g xs.
Proof.
  intros Hfg. induction xs as [| x xs IH]; simpl; [reflexivity |].
  rewrite Hfg, IH. reflexivity.
Qed.

(** *** The lines of the days *)

Lemma append_tech_lines_parts (techs : list Technician.t) (acc : list string) :
  MultiDayJob.append_tech_lines techs acc
  = (parts <- mapM tech_part techs ;; ret (acc ++ List.concat parts)%list).
Proof.
  unfold MultiDayJob.append_tech_lines.
  apply foldM_append_parts.
  intros lines tech. unfold tech_part.
  destruct (Technician.has_any_hours tech) as [e | b]; simpl; [reflexivity |].
  destruct b; simpl.
  - destruct (Technician.format_tech_line tech); reflexivity.
  - rewrite app_nil_r. reflexivity.
Qed.

Lemma day_loop_lines {Date : Type} (fd : Date -> string)
      (days : list (WorkDay.t Date)) (acc : list string) :
  foldM (fun lines day =>
           tech_parts <- MultiDayJob.append_tech_lines (WorkDay.technicians day) [] ;;
           match tech_parts with
           | _ :: _ =>
               ret (push lines ("Day (" ++ MultiDayJob.date_str fd day ++ "): "
                                  ++ join " | " tech_parts))
           | [] => ret lines
           end)
        days acc
  = (ds <- mapM (day_lines fd) days ;; ret (acc ++ List.concat ds)%list).
Proof.
  apply foldM_append_parts.
  intros lines day. unfold day_lines.
  rewrite append_tech_lines_parts.
  destruct (mapM tech_part (WorkDay.technicians day)) as [e | parts]; simpl;
    [reflexivity |].
  destruct (List.concat parts); simpl; [rewrite app_nil_r |]; reflexivity.
Qed.

(** *** The totals by name *)

Lemma foldM_combine {K E B : Type} (conv : K -> M E) (h : B -> K -> E -> B)
      (ks : list K) :
  forall acc : B,
    foldM (fun acc k => x <- conv k ;; ret (h acc k x)) ks acc
    = (v <- mapM conv ks ;;
       ret (fold_left (fun acc e => h acc (fst e) (snd e)) (combine ks v) acc)).
Proof.
  induction ks as [| k ks IH]; intros acc; simpl; [reflexivity |].
  destruct (conv k) as [err | x]; simpl; [reflexivity |].
  rewrite IH. destruct (mapM conv ks); reflexivity.
Qed.

(** Adding the hours of a technician: the six conversions to [float], which
    may raise, then six additions, which do not. *)
Lemma add_tech_hours_floats (tot : totals) (tech : Technician.t) :
  add_tech_hours tot tech = (v <- hours_as_floats tech ;; ret (add_floats tot v)).
Proof.
  unfold add_tech_hours, hours_as_floats, add_floats.
  apply (foldM_combine
           (fun ht => Technician.float_or_zero (Technician.hours_get tech ht))
           (fun tot ht x => dict_set tot ht (fadd (get_or tot ht fzero) x))).
Qed.

Lemma mem_str_filter (n k : string) (names : list string) :
  mem_str n (filter (fun m => negb (String.eqb m k)) names)
  = negb (String.eqb n k) && mem_str n names.
Proof.
  unfold mem_str. induction names as [| m names IH]; simpl.
  - rewrite andb_false_r. reflexivity.
  - destruct (String.eqb m k) eqn:Emk; simpl.
    + rewrite IH. destruct (String.eqb m n) eqn:Emn; simpl; [| reflexivity].
      apply String.eqb_eq in Emk, Emn. subst. rewrite String.eqb_refl. reflexivity.
    + rewrite IH. destruct (String.eqb m n) eqn:Emn; simpl.
      * apply String.eqb_eq in Emn. subst. rewrite Emk. reflexivity.
      * reflexivity.
Qed.

Lemma mem_str_first_occurrences (n : string) (names : list string) :
  mem_str n (first_occurrences names) = mem_str n names.
Proof.
  induction names as [| m names IH]; simpl; [reflexivity |].
  fold (mem_str n (filter (fun k => negb (String.eqb k m)) (first_occurrences names))).
  fold (mem_str n names).
  rewrite mem_str_filter, IH.
  destruct (String.eqb m n) eqn:Emn; simpl; [reflexivity |].
  rewrite String.eqb_sym, Emn. reflexivity.
Qed.

Lemma mem_str_In (n : string) (names : list string) :
  mem_str n names = true <-> In n names.
Proof.
  unfold mem_str. rewrite existsb_exists. split.
  - intros (m & Hin & Heq). apply String.eqb_eq in Heq. subst. exact Hin.
  - intros Hin. exists n. split; [exact Hin | apply String.eqb_refl].
Qed.

Lemma first_occurrences_NoDup (names : list string) : NoDup (first_occurrences names).
Proof.
  induction names as [| m names IH]; simpl; constructor.
  - intros Hin. apply filter_In in Hin as [_ Hneq].
    rewrite String.eqb_refl in Hneq. discriminate Hneq.
  - apply NoDup_filter, IH.
Qed.

Lemma first_occurrences_snoc (names : list string) (n : string) :
  first_occurrences (names ++ [n])
  = if mem_str n names then first_occurrences names
    else (first_occurrences names ++ [n])%list.
Proof.
  induction names as [| m names IH]; simpl; [reflexivity |].
  fold (mem_str n names). rewrite IH.
  destruct (String.eqb m n) eqn:Emn; simpl.
  - apply String.eqb_eq in Emn. subst m.
    destruct (mem_str n names); [reflexivity |].
    rewrite filter_app. simpl. rewrite String.eqb_refl. simpl.
    rewrite app_nil_r. reflexivity.
  - destruct (mem_str n names); [reflexivity |].
    rewrite filter_app. simpl. rewrite String.eqb_sym, Emn. reflexivity.
Qed.

Lemma name_totals_snoc (k n : string) (v : list float)
      (entries : list (string * list float)) :
  name_totals k (entries ++ [(n, v)])
  = if String.eqb n k then add_floats (name_totals k entries) v
    else name_totals k entries.
Proof.
  unfold name_totals. rewrite filter_app. simpl.
  destruct (String.eqb n k); simpl.
  - rewrite map_app, fold_left_app. reflexivity.
  - rewrite app_nil_r. reflexivity.
Qed.

Lemma name_totals_absent (n : string) (entries : list (string * list float)) :
  mem_str n (map fst entries) = false -> name_totals n entries = zero_totals.
Proof.
  unfold name_totals, mem_str.
  induction entries as [| e entries IH]; simpl; [reflexivity |].
  intros H. apply orb_false_iff in H as [He Hrest].
  rewrite He. apply IH, Hrest.
Qed.

(** *** Dictionaries built by [map] *)

Lemma dict_get_map {V : Type} (F : string -> V) (n : string) (names : list string) :
  dict_get (map (fun k => (k, F k)) names) n
  = if mem_str n names then Some (F n) else None.
Proof.
  unfold mem_str. induction names as [| m names IH]; simpl; [reflexivity |].
  destruct (String.eqb m n) eqn:Emn; simpl; [| exact IH].
  apply String.eqb_eq in Emn. subst. reflexivity.
Qed.

Lemma dict_set_fresh {V : Type} (d : dict V) (n : string) (x : V) :
  dict_mem d n = false -> dict_set d n x = (d ++ [(n, x)])%list.
Proof.
  unfold dict_mem. induction d as [| [k y] d IH]; simpl; [reflexivity |].
  destruct (String.eqb k n); [discriminate |].
  intros H. rewrite (IH H). reflexivity.
Qed.

Lemma dict_set_last {V : Type} (d : dict V) (n : string) (z x : V) :
  dict_mem d n = false -> dict_set (d ++ [(n, z)])%list n x = (d ++ [(n, x)])%list.
Proof.
  unfold dict_mem. induction d as [| [k y] d IH]; simpl.
  - rewrite String.eqb_refl. reflexivity.
  - destruct (String.eqb k n); [discriminate |].
    intros H. rewrite (IH H). reflexivity.
Qed.

Lemma get_or_last {V : Type} (d : dict V) (n : string) (z dflt : V) :
  dict_mem d n = false -> get_or (d ++ [(n, z)])%list n dflt = z.
Proof.
  unfold dict_mem, get_or. induction d as [| [k y] d IH]; simpl.
  - rewrite String.eqb_refl. reflexivity.
  - destruct (String.eqb k n); [discriminate |]. exact IH.
Qed.

Lemma dict_set_map_present {V : Type} (F : string -> V) (n : string) (x : V)
      (names : list string) :
  NoDup names ->
  mem_str n names = true ->
  dict_set (map (fun k => (k, F k)) names) n x
  = map (fun k => (k, if String.eqb k n then x else F k)) names.
Proof.
  unfold mem_str.
  induction names as [| m names IH]; simpl; [discriminate |].
  intros Hnd Hmem. inversion Hnd as [| ? ? Hnotin Hnd']; subst.
  destruct (String.eqb m n) eqn:Emn; simpl.
  - apply String.eqb_eq in Emn. subst m. f_equal.
    apply map_ext_in. intros k Hk.
    destruct (String.eqb k n) eqn:Ekn; [| reflexivity].
    apply String.eqb_eq in Ekn. subst. contradiction.
  - f_equal. apply IH; assumption.
Qed.

(** The loop of [get_all_technicians] builds [totals_by_name]. *)
Lemma record_entries (entries : list (string * list float)) :
  fold_left record_entry entries [] = totals_by_name entries.
Proof.
  induction entries as [| [n v] entries IH] using rev_ind; [reflexivity |].
  rewrite fold_left_app, IH. cbn [fold_left].
  unfold record_entry, totals_by_name. cbn [fst snd].
  rewrite map_app. cbn [map fst]. rewrite first_occurrences_snoc.
  set (names := first_occurrences (map fst entries)).
  assert (Hmem : dict_mem (map (fun k => (k, name_totals k entries)) names) n
                 = mem_str n (map fst entries)).
  { unfold dict_mem. rewrite dict_get_map. unfold names.
    rewrite mem_str_first_occurrences. destruct (mem_str n (map fst entries)); reflexivity. }
  rewrite Hmem.
  destruct (mem_str n (map fst entries)) eqn:Hin; cbn [negb].
  - assert (Hin' : mem_str n names = true)
      by (unfold names; rewrite mem_str_first_occurrences; exact Hin).
    unfold get_or. rewrite dict_get_map, Hin'.
    rewrite (dict_set_map_present _ n _ names (first_occurrences_NoDup _) Hin').
    apply map_ext. intros k. rewrite name_totals_snoc, (String.eqb_sym n k).
    destruct (String.eqb k n) eqn:Ekn; [| reflexivity].
    apply String.eqb_eq in Ekn. subst. reflexivity.
  - assert (Hfresh : dict_mem (map (fun k => (k, name_totals k entries)) names) n = false)
      by (rewrite Hmem; reflexivity).
    rewrite (dict_set_fresh _ n _ Hfresh), (get_or_last _ n _ _ Hfresh),
      (dict_set_last _ n _ _ Hfresh).
    rewrite map_app. cbn [map].
    rewrite name_totals_snoc, String.eqb_refl, (name_totals_absent n entries Hin).
    f_equal.
    apply map_ext_in. intros k Hk. rewrite name_totals_snoc.
    destruct (String.eqb n k) eqn:Enk; [| reflexivity].
    apply String.eqb_eq in Enk. subst k.
    apply mem_str_In in Hk. unfold names in Hk.
    rewrite mem_str_first_occurrences, Hin in Hk. discriminate Hk.
Qed.

Lemma get_all_technicians_by_name {Date : Type} (j : MultiDayJob.t Date) :
  MultiDayJob.get_all_technicians j
  = (entries <- mapM tech_entry (all_technicians j) ;;
     ret (totals_by_name entries)).
Proof.
  unfold MultiDayJob.get_all_technicians, all_technicians.
  rewrite (foldM_flat_map _ WorkDay.technicians).
  rewrite (foldM_fold_left _ tech_entry record_entry).
  - apply bind_ext. intros entries. rewrite record_entries. reflexivity.
  - intros tech_dict tech. unfold tech_entry, record_entry.
    rewrite add_tech_hours_floats.
    destruct (hours_as_floats tech); reflexivity.
Qed.

Lemma name_loop_lines (all_techs : dict totals) (acc : list string) :
  foldM (fun lines entry =>
           let '(name, data) := entry in
           tech_total <- format_totals_line data ;;
           if truthy tech_total
           then ret (push lines ("  " ++ name ++ ": " ++ tech_total))
           else ret lines)
        all_techs acc
  = (ps <- mapM (fun entry : string * totals =>
                   line <- format_totals_line (snd entry) ;;
                   ret (if truthy line then ["  " ++ fst entry ++ ": " ++ line] else []))
                all_techs ;;
     ret (acc ++ List.concat ps)%list).
Proof.
  apply foldM_append_parts.
  intros lines [name data]. cbn [fst snd].
  destruct (format_totals_line data) as [e | line]; simpl; [reflexivity |].
  destruct (truthy line); simpl; [| rewrite app_nil_r]; reflexivity.
Qed.

(** *** The combined totals *)

Lemma mapM_length {A B : Type} (f : A -> M B) (xs : list A) :
  forall ys, mapM f xs = inr ys -> List.length ys = List.length xs.
Proof.
  induction xs as [| x xs IH]; simpl; intros ys H.
  - injection H as <-. reflexivity.
  - destruct (f x) as [e | y]; [discriminate H |]. simpl in H.
    destruct (mapM f xs) as [e | ys']; [discriminate H |]. simpl in H.
    injection H as <-. simpl. rewrite (IH ys' eq_refl). reflexivity.
Qed.

Lemma mapM_each {A B : Type} (f : A -> M B) (P : B -> Prop) (xs : list A) :
  (forall x y, f x = inr y -> P y) ->
  forall ys, mapM f xs = inr ys -> Forall P ys.
Proof.
  intros Hf. induction xs as [| x xs IH]; simpl; intros ys H.
  - injection H as <-. constructor.
  - destruct (f x) as [e | y] eqn:Hx; [discriminate H |]. simpl in H.
    destruct (mapM f xs) as [e | ys']; [discriminate H |]. simpl in H.
    injection H as <-. constructor; [apply (Hf x y Hx) | apply IH; reflexivity].
Qed.

Lemma mapM_bind_ret {A B C : Type} (g : A -> M B) (h : B -> C) (xs : list A) :
  mapM (fun x => y <- g x ;; ret (h y)) xs = (ys <- mapM g xs ;; ret (map h ys)).
Proof.
  induction xs as [| x xs IH]; simpl; [reflexivity |].
  destruct (g x) as [e | y]; simpl; [reflexivity |].
  rewrite IH. destruct (mapM g xs); reflexivity.
Qed.

Lemma hours_as_floats_full (tech : Technician.t) (row : list float) :
  hours_as_floats tech = inr row -> full_row row.
Proof. apply mapM_length. Qed.

Lemma zero_totals_by_type : zero_totals = by_type zero_row.
Proof. reflexivity. Qed.

Lemma zero_row_full : full_row zero_row.
Proof. reflexivity. Qed.

Ltac six_entries row H :=
  destruct row as [| ? [| ? [| ? [| ? [| ? [| ? [| ? ?]]]]]]]; try discriminate H.

Lemma add_rows_full (xs ys : list float) :
  full_row xs -> full_row ys -> full_row (add_rows xs ys).
Proof.
  unfold full_row. intros Hx Hy. unfold add_rows.
  rewrite length_map, length_combine, Hx, Hy. apply Nat.min_id.
Qed.

Lemma add_floats_by_type (xs ys : list float) :
  full_row xs -> full_row ys ->
  add_floats (by_type xs) ys = by_type (add_rows xs ys).
Proof.
  intros Hx Hy. six_entries xs Hx. six_entries ys Hy. reflexivity.
Qed.

Lemma sum_from_full (rows : list (list float)) :
  Forall full_row rows ->
  forall acc, full_row acc ->
    full_row (fold_left add_rows rows acc)
    /\ fold_left add_floats rows (by_type acc) = by_type (fold_left add_rows rows acc).
Proof.
  induction 1 as [| row rows Hrow Hrows IH]; intros acc Hacc; simpl; [auto |].
  rewrite (add_floats_by_type acc row Hacc Hrow).
  apply IH, add_rows_full; assumption.
Qed.

Lemma sum_rows_full (rows : list (list float)) :
  Forall full_row rows -> full_row (sum_rows rows).
Proof. intros H. apply (sum_from_full rows H zero_row zero_row_full). Qed.

(** The totals of a day: the rows of its technicians summed. *)
Lemma day_totals_by_type {Date : Type} (day : WorkDay.t Date) :
  WorkDay.get_all_hours_by_type day
  = (rows <- mapM hours_as_floats (WorkDay.technicians day) ;;
     ret (by_type (sum_rows rows))).
Proof.
  unfold WorkDay.get_all_hours_by_type.
  rewrite (foldM_fold_left add_tech_hours hours_as_floats add_floats add_tech_hours_floats).
  destruct (mapM hours_as_floats (WorkDay.technicians day)) as [e | rows] eqn:Hrows;
    [reflexivity |].
  simpl. f_equal. rewrite zero_totals_by_type.
  apply (sum_from_full rows); [| exact zero_row_full].
  apply (mapM_each hours_as_floats full_row _ hours_as_floats_full _ Hrows).
Qed.

(** [totals[hour_type] += day_totals[hour_type]] for the six hour types. *)
Lemma add_day_totals (xs ys : list float) :
  full_row xs -> full_row ys ->
  fold_left (fun tot ht =>
               dict_set tot ht (fadd (get_or tot ht fzero) (get_or (by_type ys) ht fzero)))
            Technician.HOUR_TYPES (by_type xs)
  = by_type (add_rows xs ys).
Proof.
  intros Hx Hy. six_entries xs Hx. six_entries ys Hy. reflexivity.
Qed.

Lemma add_days_from (merge : totals -> totals -> totals) (rows : list (list float)) :
  (forall xs ys, full_row xs -> full_row ys ->
                 merge (by_type xs) (by_type ys) = by_type (add_rows xs ys)) ->
  Forall full_row rows ->
  forall acc, full_row acc ->
    fold_left merge (map by_type rows) (by_type acc)
    = by_type (fold_left add_rows rows acc).
Proof.
  intros Hmerge.
  induction 1 as [| row rows Hrow Hrows IH]; intros acc Hacc; simpl; [reflexivity |].
  rewrite (Hmerge acc row Hacc Hrow).
  apply IH, add_rows_full; assumption.
Qed.

(** What [get_combined_totals] returns: for every hour type, the totals of
    the days summed in the order of the days, the total of a day being the
    hours of its technicians summed in their order. *)
Lemma get_combined_totals_by_day {Date : Type} (j : MultiDayJob.t Date) :
  MultiDayJob.get_combined_totals j
  = (per_day <- hours_by_day j ;; ret (combined_hours per_day)).
Proof.
  unfold MultiDayJob.get_combined_totals, hours_by_day, combined_hours.
  rewrite (foldM_fold_left _ (@WorkDay.get_all_hours_by_type Date)
             (fun tot day_totals =>
                fold_left (fun tot ht =>
                             dict_set tot ht (fadd (get_or tot ht fzero)
                                                   (get_or day_totals ht fzero)))
                          Technician.HOUR_TYPES tot));
    [| reflexivity].
  rewrite (mapM_ext _ _ _ day_totals_by_type).
  rewrite (mapM_bind_ret (fun day : WorkDay.t Date =>
                            mapM hours_as_floats (WorkDay.technicians day))
                         (fun rows => by_type (sum_rows rows))).
  destruct (mapM _ (MultiDayJob.work_days j)) as [e | per_day] eqn:Hdays; [reflexivity |].
  simpl. f_equal.
  rewrite zero_totals_by_type, <- (map_map sum_rows by_type).
  apply add_days_from; [exact add_day_totals | | exact zero_row_full].
  apply Forall_map.
  assert (Hfull : Forall (Forall full_row) per_day).
  { apply (mapM_each _ _ _ (fun day rows Hrows =>
             mapM_each hours_as_floats full_row _ hours_as_floats_full rows Hrows)
             _ Hdays). }
  revert Hfull. apply Forall_impl. intros rows. apply sum_rows_full.
Qed.

Lemma multi_day_not_single {Date : Type} (j : MultiDayJob.t Date) :
  MultiDayJob.is_multi_day j = true ->
  (2 <= List.length (MultiDayJob.work_days j))%nat ->
  MultiDayJob.single_day j = false.
Proof.
  intros Hflag Hlen. unfold MultiDayJob.single_day. rewrite Hflag.
  apply Nat.leb_gt. lia.
Qed.

(** C3, as the code has it: on the multi-day path [format_type_time] gives
    one line per day, "Day (date): " and the [format_tech_line] of the
    technicians that have hours that day joined by " | ", no line for a day
    on which nobody has hours; then, when some day has a technician at all,
    a blank line and "TOTALS:", one indented line for every distinct name
    whose hours summed over the days have a positive entry, and the
    "Combined:" line when a combined total is positive, the combined totals
    being, for every hour type, the totals of the days summed in the order
    of the days, and the total of a day the hours of its technicians summed
    in their order. *)
Theorem multi_day_type_time :
  forall (Date : Type) (fd : Date -> string) (j : MultiDayJob.t Date),
    MultiDayJob.is_multi_day j = true ->
    (2 <= List.length (MultiDayJob.work_days j))%nat ->
    MultiDayJob.format_type_time fd j = multi_day_text fd j.
Proof.
  intros Date fd j Hflag Hlen.
  unfold MultiDayJob.format_type_time, multi_day_text.
  rewrite (multi_day_not_single j Hflag Hlen).
  cbv zeta.
  rewrite day_loop_lines, get_all_technicians_by_name, get_combined_totals_by_day.
  destruct (mapM (day_lines fd) (MultiDayJob.work_days j)) as [e | days];
    [reflexivity |].
  cbn [bind ret app].
  destruct (mapM tech_entry (all_technicians j)) as [e | entries];
    [reflexivity |].
  cbn [bind ret].
  destruct entries as [| entry entries]; [reflexivity |].
  set (es := entry :: entries).
  assert (Hcons : exists p rest, totals_by_name es = p :: rest).
  { unfold totals_by_name, es. simpl. eauto. }
  destruct Hcons as (p & rest & Hcons).
  rewrite Hcons, <- Hcons.
  rewrite name_loop_lines.
  unfold totals_by_name at 1. rewrite mapM_map. cbn [fst snd].
  unfold bind at 1.
  destruct (mapM _ (first_occurrences (map fst es))) as [e | per_name];
    [reflexivity |].
  cbn [bind ret].
  destruct (hours_by_day j) as [e | per_day]; [reflexivity |].
  cbn [bind ret].
  destruct (format_totals_line (combined_hours per_day)) as [e | combined_line];
    [reflexivity |].
  cbn [bind ret]. unfold push.
  destruct (truthy combined_line); cbn [bind ret].
  - rewrite <- !app_assoc. reflexivity.
  - rewrite <- !app_assoc, app_nil_r. reflexivity.
Qed.

Lemma multi_day_type_time_witness :
  MultiDayJob.format_type_time short_text job_two_days
  = multi_day_text short_text job_two_days.
Proof.
  apply (multi_day_type_time string short_text job_two_days).
  - reflexivity.
  - simpl. lia.
Defined.

(** C3, counterexample: A has two hours of EM on the first day and B has no
    hours on the second.  The names are A and B, but the totals have a line
    for A only, where the description has one line for every distinct name. *)
Lemma multi_day_totals_skip_idle_technician :
  MultiDayJob.is_multi_day job_two_days = true
  /\ List.length (MultiDayJob.work_days job_two_days) = 2%nat
  /\ first_occurrences (map MultiDayJob.tech_name (all_technicians job_two_days))
     = ["A"; "B"]
  /\ MultiDayJob.format_type_time short_text job_two_days
     = inr (join CR ["Day (Unknown): A: EM = 2"; ""; "TOTALS:";
                     "  A: EM = 2"; "  Combined: EM = 2"])
  /\ claimed_multi_day_text short_text job_two_days
     = inr (join CR ["Day (Unknown): A: EM = 2"; ""; "TOTALS:";
                     "  A: EM = 2"; "  B: "; "  Combined: EM = 2"])
  /\ MultiDayJob.format_type_time short_text job_two_days
     <> claimed_multi_day_text short_text job_two_days.
Proof.
  split; [reflexivity |].
  split; [reflexivity |].
  split; [reflexivity |].
  split; [vm_compute; reflexivity |].
  split; [vm_compute; reflexivity |].
  vm_compute. discriminate.
Qed.

(* ================================================================== *)
(** * Further properties of the code *)

(** ** Strings *)

Lemma truthy_append (a b : string) : truthy (a ++ b) = truthy a || truthy b.
Proof. destruct a; reflexivity. Qed.

Lemma truthy_false_empty (s : string) : truthy s = false <-> s = "".
Proof. destruct s; simpl; split; intros H; try reflexivity; discriminate H. Qed.

Lemma truthy_true_nonempty (s : string) : truthy s = true <-> s <> "".
Proof.
  destruct s; simpl; split; intros H; try reflexivity; try discriminate H.
  - exfalso; apply H; reflexivity.
  - discriminate.
Qed.

(** A loop that appends [f x] for the [x] that pass a test. *)
Lemma fold_push_filter {A B : Type} (body : list B -> A -> list B)
      (p : A -> bool) (f : A -> B) :
  (forall acc x, body acc x = if p x then push acc (f x) else acc) ->
  forall (xs : list A) (acc : list B),
    fold_left body xs acc = (acc ++ map f (filter p xs))%list.
Proof.
  intros Hbody. induction xs as [| x xs IH]; intros acc; simpl.
  - symmetry; apply app_nil_r.
  - rewrite IH, Hbody. destruct (p x); [| reflexivity].
    unfold push. rewrite <- app_assoc. reflexivity.
Qed.

(** ** [oxford_join] *)

(** X1: [oxford_join] gives "" for no item, the item itself for one,
    "a and b" for two, and for three or more the items but the last joined
    by ", ", then ", and " and the last item. *)
Theorem oxford_join_shape :
  oxford_join [] = ""
  /\ (forall a, oxford_join [a] = a)
  /\ (forall a b, oxford_join [a; b] = a ++ " and " ++ b)
  /\ (forall (items : list string) (y : string),
        (2 <= List.length items)%nat ->
        oxford_join (items ++ [y]) = join ", " items ++ ", and " ++ y).
Proof.
  repeat split.
  intros items y Hlen.
  destruct items as [| a [| b rest]]; simpl in Hlen; try lia.
  assert (Hshape : oxford_join ((a :: b :: rest) ++ [y])
                   = join ", " (removelast ((a :: b :: rest) ++ [y]))
                     ++ ", and " ++ last ((a :: b :: rest) ++ [y]) "").
  { destruct rest; reflexivity. }
  rewrite Hshape, removelast_last, last_last. reflexivity.
Qed.

Lemma oxford_join_shape_witness :
  oxford_join (["BC Hydro"; "Fortis"] ++ ["As-builts"]) = "BC Hydro, Fortis, and As-builts".
Proof.
  apply (proj2 (proj2 (proj2 oxford_join_shape)) ["BC Hydro"; "Fortis"] "As-builts").
  simpl. lia.
Defined.

(** ** [make_line] and [make_continuation_line] *)

(** X2: for non-empty content [make_line] is the header, a colon, the
    blanks that are missing up to column 18 and the content, so the content
    starts at column 18 or, after a header of 18 characters or more, right
    after the colon; [make_continuation_line] puts 18 blanks before the
    content; both give "" for empty content. *)
Theorem make_line_alignment :
  forall header content : string,
    content <> "" ->
    make_line header content
    = header ++ ":" ++ spaces (HEADER_WIDTH - S (String.length header)) ++ content
    /\ String.length (make_line header content)
       = (Nat.max HEADER_WIDTH (S (String.length header)) + String.length content)%nat
    /\ make_continuation_line content = spaces HEADER_WIDTH ++ content
    /\ make_line header "" = ""
    /\ make_continuation_line "" = "".
Proof.
  intros header content Hne.
  apply truthy_true_nonempty in Hne.
  assert (Hline : make_line header content
                  = header ++ ":" ++ spaces (HEADER_WIDTH - S (String.length header))
                      ++ content).
  { rewrite make_line_cell, Hne. unfold header_cell.
    rewrite !append_assoc_str. reflexivity. }
  split; [exact Hline |].
  split.
  - rewrite Hline, !length_append_str, length_spaces. simpl String.length. lia.
  - unfold make_continuation_line. rewrite Hne. repeat split.
Qed.

Lemma make_line_alignment_witness :
  make_line "MATERIALS" "Pin flags x4" = "MATERIALS:        Pin flags x4"
  /\ String.length (make_line "A HEADER OF TWENTY CH" "x") = 23%nat.
Proof.
  split.
  - apply (make_line_alignment "MATERIALS" "Pin flags x4"). discriminate.
  - apply (make_line_alignment "A HEADER OF TWENTY CH" "x"). discriminate.
Defined.

(** ** Times of day *)

(** X3: a [datetime.time] with hour 0 to 23 is rendered on the 12-hour
    clock: hour [(hour + 11) mod 12 + 1], the minute on two digits, " am"
    before noon and " pm" from noon on. *)
Theorem format_time_12hr_clock :
  forall hour minute : Z,
    0 <= hour < 24 ->
    format_time_12hr (TTime hour minute)
    = str_of_Z ((hour + 11) mod 12 + 1) ++ ":" ++ fmt_02d minute
        ++ (if hour <? 12 then " am" else " pm").
Proof.
  intros hour minute Hrange.
  unfold format_time_12hr.
  destruct (hour =? 0) eqn:H0.
  - apply Z.eqb_eq in H0. subst hour. reflexivity.
  - apply Z.eqb_neq in H0.
    destruct (hour <? 12) eqn:Hlt.
    + apply Z.ltb_lt in Hlt.
      replace ((hour + 11) mod 12 + 1) with hour; [reflexivity |].
      assert (Hm : (hour + 11) mod 12 = hour - 1)
        by (symmetry; apply (Z.mod_unique _ _ 1); lia).
      lia.
    + apply Z.ltb_ge in Hlt.
      destruct (hour =? 12) eqn:H12.
      * apply Z.eqb_eq in H12. subst hour. reflexivity.
      * apply Z.eqb_neq in H12.
        replace ((hour + 11) mod 12 + 1) with (hour - 12); [reflexivity |].
        assert (Hm : (hour + 11) mod 12 = hour - 13)
          by (symmetry; apply (Z.mod_unique _ _ 2); lia).
        lia.
Qed.

Lemma format_time_12hr_clock_witness :
  format_time_12hr (TTime 16 5) = "4:05 pm".
Proof.
  apply (format_time_12hr_clock 16 5). lia.
Defined.

(** *** Stripping and lowering twice *)

Lemma rstrip_by_head (p : ascii -> bool) (c : ascii) (r : string) :
  p c = false -> exists r', rstrip_by p (String c r) = String c r'.
Proof.
  intros Hc. simpl. rewrite Hc. destruct (rstrip_by p r); eauto.
Qed.

Lemma rstrip_by_twice (p : ascii -> bool) (s : string) :
  rstrip_by p (rstrip_by p s) = rstrip_by p s.
Proof.
  induction s as [| c r IH]; simpl; [reflexivity |].
  destruct (rstrip_by p r) as [| d r'] eqn:Hr.
  - destruct (p c) eqn:Hc; simpl; [reflexivity |]. rewrite Hc. reflexivity.
  - cbn [rstrip_by]. cbn [rstrip_by] in IH. rewrite IH. reflexivity.
Qed.

Lemma lstrip_by_head (p : ascii -> bool) (s : string) :
  lstrip_by p s = "" \/ exists c r, lstrip_by p s = String c r /\ p c = false.
Proof.
  induction s as [| c r IH]; simpl; [left; reflexivity |].
  destruct (p c) eqn:Hc; [exact IH |].
  right. exists c, r. split; [reflexivity | exact Hc].
Qed.

Lemma strip_by_twice (p : ascii -> bool) (s : string) :
  strip_by p (strip_by p s) = strip_by p s.
Proof.
  unfold strip_by.
  destruct (lstrip_by_head p s) as [-> | (c & r & -> & Hc)]; [reflexivity |].
  destruct (rstrip_by_head p c r Hc) as (r' & Hr).
  rewrite Hr. cbn [lstrip_by]. rewrite Hc, <- Hr. apply rstrip_by_twice.
Qed.

Lemma lower_char_plain (c : ascii) :
  isspace (lower_char c) = isspace c /\ lower_char (lower_char c) = lower_char c.
Proof. ascii_cases c; vm_compute; split; reflexivity. Qed.

Lemma lower_twice (s : string) : lower (lower s) = lower s.
Proof.
  unfold lower. induction s as [| c r IH]; simpl; [reflexivity |].
  rewrite IH, (proj2 (lower_char_plain c)). reflexivity.
Qed.

(** What [format_time_12hr] makes of a string before it looks for "am",
    "pm" or digits is left as it is by a second pass. *)
Lemma normalised_twice (s : string) :
  lower (strip (lower (strip s))) = lower (strip s).
Proof.
  unfold strip, strip_by.
  rewrite lower_lstrip, lower_rstrip, lower_twice.
  fold (strip_by isspace (rstrip_by isspace (lstrip_by isspace s))).
  fold (strip_by isspace s).
  rewrite strip_by_twice. reflexivity.
Qed.

(** *** The rendered clock text *)

Lemma fmt_02d_chars (z : Z) : all_chars clock_char (fmt_02d z) = true.
Proof.
  unfold fmt_02d.
  destruct (z <? 0); [apply str_of_Z_chars |].
  destruct (z <? 10); [| apply str_of_Z_chars].
  simpl. apply str_of_Z_chars.
Qed.

Lemma clock_char_plain (c : ascii) :
  clock_char c = true -> isspace c = false /\ isupper c = false.
Proof. ascii_cases c; vm_compute; intros H; try discriminate H; split; reflexivity. Qed.

Lemma lower_append (a b : string) : lower (a ++ b) = lower a ++ lower b.
Proof.
  unfold lower. induction a as [| c r IH]; simpl; [reflexivity | rewrite IH; reflexivity].
Qed.

(** A text of clock characters followed by " am" or " pm" is returned as it
    is. *)
Lemma clock_text_fixed (a suffix : string) :
  all_chars clock_char a = true -> a <> "" ->
  suffix = " am" \/ suffix = " pm" ->
  format_time_12hr (TStr (a ++ suffix)) = a ++ suffix.
Proof.
  intros Ha Hne Hsuffix.
  assert (Hstrip : strip (a ++ suffix) = a ++ suffix).
  { unfold strip, strip_by.
    destruct a as [| c r]; [contradiction |].
    simpl in Ha. apply andb_true_iff in Ha as [Hc Hr].
    destruct (clock_char_plain c Hc) as [Hsp _].
    cbn [append lstrip_by]. rewrite Hsp.
    change (String c (r ++ suffix)) with (String c r ++ suffix).
    rewrite rstrip_by_append; destruct Hsuffix as [-> | ->]; try reflexivity;
      vm_compute; discriminate. }
  assert (Hlower : lower (a ++ suffix) = a ++ suffix).
  { rewrite lower_append. f_equal.
    - apply lower_none. apply (all_chars_impl clock_char); [| exact Ha].
      intros c Hc. destruct (clock_char_plain c Hc) as [_ ->]. reflexivity.
    - destruct Hsuffix as [-> | ->]; reflexivity. }
  assert (Hmark : contains "am" (a ++ suffix) || contains "pm" (a ++ suffix) = true).
  { destruct Hsuffix as [-> | ->].
    - rewrite (contains_append_r "am" a " am"); reflexivity.
    - rewrite (contains_append_r "pm" a " pm"); [apply orb_true_r | reflexivity]. }
  unfold format_time_12hr.
  replace (truthy (a ++ suffix)) with true
    by (destruct a; [contradiction | reflexivity]).
  cbn [negb]. rewrite Hstrip, Hlower, Hmark. reflexivity.
Qed.

Lemma clock_text_parts (h : string) (minute : Z) (suffix : string) :
  all_chars clock_char h = true -> h <> "" ->
  suffix = " am" \/ suffix = " pm" ->
  format_time_12hr (TStr (h ++ ":" ++ fmt_02d minute ++ suffix))
  = h ++ ":" ++ fmt_02d minute ++ suffix.
Proof.
  intros Hh Hne Hsuffix.
  rewrite <- !append_assoc_str.
  rewrite (append_assoc_str h ":").
  apply clock_text_fixed; [| | exact Hsuffix].
  - rewrite !all_chars_append, Hh, fmt_02d_chars. reflexivity.
  - destruct h; [contradiction | discriminate].
Qed.

(** A normalised string that has "am" or "pm", or that fails the digit
    rule, is returned as it is. *)
Lemma normalised_text_fixed (t : string) :
  lower (strip t) = t ->
  (contains "am" t || contains "pm" t = true \/ exists e, parse_clock t = inl e) ->
  format_time_12hr (TStr t) = t.
Proof.
  intros Hnorm Hcase. unfold format_time_12hr.
  destruct (truthy t) eqn:Ht; cbn [negb].
  - rewrite Hnorm.
    destruct (contains "am" t || contains "pm" t) eqn:Hmark; [reflexivity |].
    destruct Hcase as [Hc | (e & He)]; [discriminate Hc |].
    rewrite He. reflexivity.
  - symmetry. apply truthy_false_empty, Ht.
Qed.

(** X4: formatting the text that [format_time_12hr] made of a string
    gives the same text again. *)
Theorem format_time_12hr_idempotent :
  forall s : string,
    format_time_12hr (TStr (format_time_12hr (TStr s))) = format_time_12hr (TStr s).
Proof.
  intros s.
  destruct s as [| c s']; [reflexivity |].
  set (s := String c s').
  set (t := lower (strip s)).
  assert (Hnorm : lower (strip t) = t) by apply normalised_twice.
  assert (Hunf : format_time_12hr (TStr s)
                 = if contains "am" t || contains "pm" t then t
                   else match parse_clock t with
                        | inr (hour, minute) => rule_12hr hour minute
                        | inl _ => t
                        end) by reflexivity.
  rewrite Hunf. clear Hunf.
  destruct (contains "am" t || contains "pm" t) eqn:Hmark.
  - apply normalised_text_fixed; [exact Hnorm | left; exact Hmark].
  - destruct (parse_clock t) as [e | [hour minute]] eqn:Hparse.
    + apply normalised_text_fixed; [exact Hnorm | right; exists e; exact Hparse].
    + unfold rule_12hr.
      destruct ((hour =? 0) || (hour =? 24)).
      * apply (clock_text_parts "12" minute " am"); auto. discriminate.
      * destruct (hour <? 12).
        -- apply (clock_text_parts (str_of_Z hour) minute " am"); auto;
             apply str_of_Z_chars.
        -- destruct (hour =? 12).
           ++ apply (clock_text_parts "12" minute " pm"); auto. discriminate.
           ++ apply (clock_text_parts (str_of_Z (hour - 12)) minute " pm"); auto;
                apply str_of_Z_chars.
Qed.

(** ** [format_number] is never empty *)

Lemma rstrip_by_empty (p : ascii -> bool) (s : string) :
  rstrip_by p s = "" -> all_chars p s = true.
Proof.
  induction s as [| c r IH]; simpl; [reflexivity |].
  destruct (rstrip_by p r); [| discriminate].
  destruct (p c); [| discriminate].
  intros _. apply IH. reflexivity.
Qed.

Lemma rstrip_by_cons (p : ascii -> bool) (c : ascii) (r : string) :
  rstrip_by p (String c r) = "" \/ exists r', rstrip_by p (String c r) = String c r'.
Proof.
  simpl. destruct (rstrip_by p r); [destruct (p c) |]; eauto.
Qed.

Lemma fixed2_shape (neg : bool) (h : Z) :
  exists c r, fixed2 neg h = String c r
              /\ clock_char c = true
              /\ all_chars (fun d => mem_char d "0") (fixed2 neg h) = false.
Proof.
  unfold fixed2.
  destruct (str_of_Z_chars (h / 100)) as [Hchars Hne].
  assert (Hdot : forall a b, all_chars (fun d => mem_char d "0") (a ++ "." ++ b) = false).
  { intros a b. rewrite all_chars_append. simpl. apply andb_false_r. }
  destruct neg.
  - exists "-"%char. eexists. split; [reflexivity |]. split; [reflexivity |].
    apply (Hdot (String "-" (str_of_Z (h / 100)))).
  - destruct (str_of_Z (h / 100)) as [| c r] eqn:E; [contradiction |].
    exists c. eexists. split; [reflexivity |].
    simpl in Hchars. apply andb_true_iff in Hchars as [Hc _].
    split; [exact Hc |].
    apply (Hdot (String c r)).
Qed.

Lemma trimmed_nonempty (q : float) :
  rstrip_chars "." (rstrip_chars "0" (fmt_2f q)) <> "".
Proof.
  assert (Hfixed : forall neg h,
             rstrip_chars "." (rstrip_chars "0" (fixed2 neg h)) <> "").
  { intros neg h.
    destruct (fixed2_shape neg h) as (c & r & Heq & Hc & Hzeros).
    rewrite Heq in *. unfold rstrip_chars.
    destruct (rstrip_by_cons (fun d => mem_char d "0") c r) as [Hempty | (r' & Hr')].
    - apply rstrip_by_empty in Hempty. rewrite Hempty in Hzeros. discriminate Hzeros.
    - rewrite Hr'.
      destruct (rstrip_by_head (fun d => mem_char d ".") c r') as (r'' & Hr'').
      + revert Hc. clear. ascii_cases c; vm_compute; intros H; try discriminate H; reflexivity.
      + rewrite Hr''. discriminate. }
  destruct q as [s | s | | s m e]; simpl.
  - apply Hfixed.
  - destruct s; vm_compute; discriminate.
  - vm_compute; discriminate.
  - apply Hfixed.
Qed.

(** X5: when [format_number] returns, the text is not empty. *)
Theorem format_number_never_empty :
  forall (n : num) (s : string), format_number n = inr s -> s <> "".
Proof.
  intros n s. unfold format_number.
  destruct (num_is_zero n).
  - intros [= <-]. discriminate.
  - destruct (round_times_100 n) as [e | r]; [discriminate |].
    cbn [bind]. destruct (int_truediv r 100) as [e | q]; [discriminate |].
    cbn [bind ret]. intros [= <-]. apply trimmed_nonempty.
Qed.

Lemma format_number_never_empty_witness :
  format_number (PFloat (literal 4 3)) = inr "0" /\ "0" <> "".
Proof.
  split; [vm_compute; reflexivity |].
  apply (format_number_never_empty (PFloat (literal 4 3)) "0").
  vm_compute. reflexivity.
Defined.

(** ** Lines of hours *)

Lemma foldM_push_filter {K : Type} (body : list string -> K -> M (list string))
      (cond : K -> bool) (part : K -> M string) (ks : list K) :
  (forall parts k, In k ks ->
     body parts k = if cond k then x <- part k ;; ret (push parts x) else ret parts) ->
  forall acc : list string,
    foldM body ks acc = (xs <- mapM part (filter cond ks) ;; ret (acc ++ xs)%list).
Proof.
  induction ks as [| k ks IH]; intros Hbody acc; simpl.
  - rewrite app_nil_r. reflexivity.
  - rewrite (Hbody acc k (or_introl eq_refl)).
    assert (IH' := IH (fun parts k' Hin => Hbody parts k' (or_intror Hin))).
    destruct (cond k); simpl.
    + destruct (part k) as [e | x]; simpl; [reflexivity |].
      rewrite IH'. destruct (mapM part (filter cond ks)) as [e | xs]; simpl;
        [reflexivity |].
      unfold push. rewrite <- app_assoc. reflexivity.
    + apply IH'.
Qed.

Lemma mapM_Forall {A B : Type} (f : A -> M B) (P : B -> Prop) (xs : list A) :
  (forall x y, In x xs -> f x = inr y -> P y) ->
  forall ys, mapM f xs = inr ys -> Forall P ys /\ List.length ys = List.length xs.
Proof.
  induction xs as [| x xs IH]; simpl; intros Hf ys.
  - intros [= <-]. split; [constructor | reflexivity].
  - destruct (f x) as [e | y] eqn:Hx; [discriminate |]. simpl.
    destruct (mapM f xs) as [e | ys']; [discriminate |]. simpl.
    intros [= <-].
    destruct (IH (fun x' y' Hin => Hf x' y' (or_intror Hin)) ys' eq_refl) as [Hall Hlen].
    split; [constructor; [apply (Hf x y (or_introl eq_refl) Hx) | exact Hall] |].
    simpl. rewrite Hlen. reflexivity.
Qed.

Lemma join_empty (sep : string) (xs : list string) :
  Forall (fun x => x <> "") xs -> (join sep xs = "" <-> xs = []).
Proof.
  intros Hall. split; [| intros ->; reflexivity].
  destruct xs as [| x rest]; [reflexivity |].
  inversion Hall as [| ? ? Hx _]; subst.
  intros Hjoin. exfalso. apply Hx.
  destruct rest; simpl in Hjoin; [exact Hjoin |].
  destruct x; [reflexivity | discriminate Hjoin].
Qed.

Lemma filter_nil_iff {A : Type} (p : A -> bool) (xs : list A) :
  filter p xs = [] <-> forall x, In x xs -> p x = false.
Proof.
  induction xs as [| x xs IH]; simpl.
  - split; [intros _ y [] | reflexivity].
  - destruct (p x) eqn:Hx.
    + split; [discriminate |]. intros H. rewrite (H x (or_introl eq_refl)) in Hx.
      discriminate Hx.
    + rewrite IH. split.
      * intros H y [<- | Hin]; auto.
      * intros H y Hin. apply H. right. exact Hin.
Qed.

Lemma labelled_nonempty (label formatted : string) : label ++ " = " ++ formatted <> "".
Proof. destruct label; discriminate. Qed.

(** The text of a loop of labelled parts is empty exactly when no key
    passes the test. *)
Lemma parts_text_empty {K : Type} (cond : K -> bool) (part : K -> M string)
      (ks : list K) (xs : list string) :
  (forall k x, part k = inr x -> cond k = true -> x <> "") ->
  mapM part (filter cond ks) = inr xs ->
  (join "; " xs = "" <-> forall k, In k ks -> cond k = false).
Proof.
  intros Hpart Hxs.
  rewrite <- filter_nil_iff.
  destruct (mapM_Forall part (fun x => x <> "") (filter cond ks)) with (ys := xs)
    as [Hall Hlen]; [| exact Hxs |].
  - intros k x Hin Hk. apply filter_In in Hin as [_ Hcond]. apply (Hpart k x Hk Hcond).
  - rewrite (join_empty "; " xs Hall).
    split; intros H.
    + subst xs. destruct (filter cond ks); [reflexivity | discriminate Hlen].
    + rewrite H in Hlen. destruct xs; [reflexivity | discriminate Hlen].
Qed.

(** *** [format_totals_line] *)

Lemma format_totals_line_parts (tot : totals) :
  format_totals_line tot
  = (xs <- mapM (total_part tot) (filter (positive_total tot) Technician.HOUR_TYPES) ;;
     ret (join "; " xs)).
Proof.
  unfold format_totals_line.
  rewrite (foldM_push_filter _ (positive_total tot) (total_part tot)).
  - rewrite bind_assoc. apply bind_ext. intros xs. reflexivity.
  - intros parts key _. unfold positive_total, total_part.
    destruct (num_gt_zero (PFloat (get_or tot key fzero))); [| reflexivity].
    destruct (format_number (PFloat (get_or tot key fzero))); reflexivity.
Qed.

(** X6: when [format_totals_line] returns, its text is empty exactly when
    none of the six totals is above zero. *)
Theorem format_totals_line_empty :
  forall (tot : totals) (s : string),
    format_totals_line tot = inr s ->
    (s = "" <-> forall key, In key Technician.HOUR_TYPES ->
                  num_gt_zero (PFloat (get_or tot key fzero)) = false).
Proof.
  intros tot s. rewrite format_totals_line_parts.
  destruct (mapM (total_part tot) (filter (positive_total tot) Technician.HOUR_TYPES))
    as [e | xs] eqn:Hxs; [discriminate |].
  cbn [bind ret]. intros [= <-].
  apply (parts_text_empty (positive_total tot) (total_part tot) _ xs); [| exact Hxs].
  intros k x Hk _. unfold total_part in Hk.
  destruct (format_number (PFloat (get_or tot k fzero))) as [e | formatted];
    [discriminate |].
  injection Hk as <-. apply labelled_nonempty.
Qed.

Lemma format_totals_line_empty_witness :
  format_totals_line zero_totals = inr ""
  /\ ("" = "" <-> forall key, In key Technician.HOUR_TYPES ->
                    num_gt_zero (PFloat (get_or zero_totals key fzero)) = false).
Proof.
  split; [vm_compute; reflexivity |].
  apply (format_totals_line_empty zero_totals "").
  vm_compute. reflexivity.
Defined.

(** *** [has_any_hours] and [format_hours_line] *)

Lemma zero_not_gt_zero (f : float) :
  num_truthy (PFloat f) = false -> num_gt_zero (PFloat f) = false.
Proof.
  destruct f as [s | s | | s m e]; try destruct s; simpl; try discriminate; reflexivity.
Qed.

Lemma format_hours_line_parts (tech : Technician.t) :
  plain_hours tech ->
  Technician.format_hours_line tech
  = (xs <- mapM (logged_part tech) (filter (logged tech) Technician.HOUR_TYPES) ;;
     ret (join "; " xs)).
Proof.
  intros Hplain. unfold Technician.format_hours_line.
  rewrite (foldM_push_filter _ (logged tech) (logged_part tech)).
  - rewrite bind_assoc. apply bind_ext. intros xs. reflexivity.
  - intros parts ht Hin. specialize (Hplain ht Hin).
    unfold logged, logged_part.
    destruct (Technician.hours_get tech ht) as [[z | f] |];
      cbn [Technician.hval_truthy Technician.hval_float float_of_num bind ret].
    + subst z. reflexivity.
    + destruct (num_truthy (PFloat f)) eqn:Ht.
      * destruct (num_gt_zero (PFloat f)); [| reflexivity].
        destruct (format_number (PFloat f)); reflexivity.
      * rewrite (zero_not_gt_zero f Ht). reflexivity.
    + reflexivity.
Qed.

Lemma any_hours_result (tech : Technician.t) (hts : list string) (b : bool) :
  Technician.any_hours tech hts = inr b ->
  if b
  then exists ht, In ht hts
                  /\ Technician.hval_gt_zero (Technician.hours_get tech ht) = inr true
  else forall ht, In ht hts ->
                  Technician.hval_gt_zero (Technician.hours_get tech ht) = inr false.
Proof.
  induction hts as [| ht hts IH]; simpl.
  - intros [= <-]. intros ht [].
  - destruct (Technician.hval_gt_zero (Technician.hours_get tech ht)) as [e | c] eqn:Hc;
      [discriminate |].
    cbn [bind]. destruct c.
    + intros [= <-]. exists ht. split; [left; reflexivity | exact Hc].
    + intros Hrest. specialize (IH Hrest). destruct b.
      * destruct IH as (ht' & Hin & Hgt). exists ht'. split; [right; exact Hin | exact Hgt].
      * intros ht' [<- | Hin]; [exact Hc | apply IH, Hin].
Qed.

(** X7: for hours that are floats, [None] or the int 0, [has_any_hours]
    answers [True] exactly when [format_hours_line] is not empty, so a
    technician listed in TYPE/TIME always shows at least one entry. *)
Theorem hours_line_agrees_with_has_any_hours :
  forall (tech : Technician.t) (b : bool) (s : string),
    plain_hours tech ->
    Technician.has_any_hours tech = inr b ->
    Technician.format_hours_line tech = inr s ->
    (b = true <-> s <> "").
Proof.
  intros tech b s Hplain Hany Hline.
  rewrite (format_hours_line_parts tech Hplain) in Hline.
  destruct (mapM (logged_part tech) (filter (logged tech) Technician.HOUR_TYPES))
    as [e | xs] eqn:Hxs; [discriminate |].
  cbn [bind ret] in Hline. injection Hline as <-.
  assert (Hempty : join "; " xs = "" <->
                   forall ht, In ht Technician.HOUR_TYPES -> logged tech ht = false).
  { apply (parts_text_empty (logged tech) (logged_part tech) _ xs); [| exact Hxs].
    intros k x Hk Hlogged. unfold logged, logged_part in *.
    destruct (Technician.hours_get tech k) as [[z | f] |]; try discriminate Hlogged.
    destruct (format_number (PFloat f)); [discriminate |].
    injection Hk as <-. apply labelled_nonempty. }
  apply any_hours_result in Hany.
  destruct b.
  - split; [intros _ | reflexivity].
    destruct Hany as (ht & Hin & Hgt). intros Hjoin.
    pose proof (proj1 Hempty Hjoin ht Hin) as Hnot. clear Hjoin. rename Hnot into Hjoin.
    specialize (Hplain ht Hin).
    unfold logged in Hjoin.
    destruct (Technician.hours_get tech ht) as [[z | f] |]; simpl in Hgt.
    + subst z. discriminate Hgt.
    + injection Hgt as Hgt. unfold num_gt_zero in Hjoin. congruence.
    + discriminate Hgt.
  - split; [discriminate |]. intros Hne. exfalso. apply Hne, Hempty.
    intros ht Hin. specialize (Hany ht Hin). specialize (Hplain ht Hin).
    unfold logged.
    destruct (Technician.hours_get tech ht) as [[z | f] |]; simpl in Hany;
      try reflexivity.
    injection Hany as Hany. exact Hany.
Qed.

Lemma hours_line_agrees_with_has_any_hours_witness :
  Technician.has_any_hours tech_a = inr true
  /\ Technician.format_hours_line tech_a = inr "EM = 2"
  /\ (true = true <-> "EM = 2" <> "").
Proof.
  split; [vm_compute; reflexivity |].
  split; [vm_compute; reflexivity |].
  apply (hours_line_agrees_with_has_any_hours tech_a true "EM = 2").
  - intros ht Hin. simpl in Hin.
    repeat (destruct Hin as [<- | Hin]); try contradiction; vm_compute; auto.
  - vm_compute. reflexivity.
  - vm_compute. reflexivity.
Defined.

(** ** The [hours] dict *)

Lemma dict_get_set_same {V : Type} (d : dict V) (k : string) (v : V) :
  dict_get (dict_set d k v) k = Some v.
Proof.
  induction d as [| [k' v'] d IH]; simpl.
  - rewrite String.eqb_refl. reflexivity.
  - destruct (String.eqb k' k) eqn:E; simpl; rewrite E; [reflexivity | exact IH].
Qed.

Lemma dict_get_set_other {V : Type} (d : dict V) (k k' : string) (v : V) :
  k' <> k -> dict_get (dict_set d k v) k' = dict_get d k'.
Proof.
  intros Hne. induction d as [| [k0 v0] d IH]; simpl.
  - apply String.eqb_neq in Hne. rewrite String.eqb_sym, Hne. reflexivity.
  - destruct (String.eqb k0 k) eqn:E; simpl.
    + apply String.eqb_eq in E. subst k0.
      apply String.eqb_neq in Hne. rewrite String.eqb_sym, Hne. reflexivity.
    + rewrite IH. reflexivity.
Qed.

(** One turn of the loop of [init]. *)
Lemma init_turn_keeps (h : dict (option num)) (ht k : string) :
  dict_mem h k = true ->
  dict_get (if dict_mem h ht then h else dict_set h ht (Some (PInt 0))) k = dict_get h k.
Proof.
  intros Hk. destruct (dict_mem h ht) eqn:Hht; [reflexivity |].
  apply dict_get_set_other. intros ->. rewrite Hk in Hht. discriminate Hht.
Qed.

Lemma init_loop_keeps (hts : list string) :
  forall (h : dict (option num)) (k : string),
    dict_mem h k = true ->
    dict_get (fold_left
                (fun h ht => if dict_mem h ht then h else dict_set h ht (Some (PInt 0)))
                hts h) k
    = dict_get h k.
Proof.
  induction hts as [| ht hts IH]; intros h k Hk; simpl; [reflexivity |].
  rewrite IH.
  - apply init_turn_keeps, Hk.
  - unfold dict_mem at 1. rewrite init_turn_keeps by exact Hk. exact Hk.
Qed.

Lemma init_loop_adds (hts : list string) :
  forall (h : dict (option num)) (ht : string),
    In ht hts -> dict_mem h ht = false ->
    dict_get (fold_left
                (fun h ht => if dict_mem h ht then h else dict_set h ht (Some (PInt 0)))
                hts h) ht
    = Some (Some (PInt 0)).
Proof.
  induction hts as [| ht0 hts IH]; intros h ht Hin Hfresh; simpl; [destruct Hin |].
  destruct (String.eqb ht0 ht) eqn:E.
  - apply String.eqb_eq in E. subst ht0. rewrite Hfresh.
    rewrite init_loop_keeps.
    + apply dict_get_set_same.
    + unfold dict_mem. rewrite dict_get_set_same. reflexivity.
  - apply String.eqb_neq in E.
    destruct Hin as [Heq | Hin]; [contradiction |].
    apply IH; [exact Hin |].
    destruct (dict_mem h ht0); [exact Hfresh |].
    unfold dict_mem in *. rewrite dict_get_set_other by (intros ->; apply E; reflexivity).
    exact Hfresh.
Qed.

(** X8: [Technician.init] keeps the name and every entry given, sets the
    hour types that are missing to 0, and so leaves all six hour types
    present. *)
Theorem technician_init_hours :
  forall (nm : option string) (given : dict Technician.hval),
    Technician.name (Technician.init nm given) = nm
    /\ (forall k, dict_mem given k = true ->
          dict_get (Technician.hours (Technician.init nm given)) k = dict_get given k)
    /\ (forall ht, In ht Technician.HOUR_TYPES -> dict_mem given ht = false ->
          dict_get (Technician.hours (Technician.init nm given)) ht
          = Some (Some (PInt 0)))
    /\ (forall ht, In ht Technician.HOUR_TYPES ->
          dict_mem (Technician.hours (Technician.init nm given)) ht = true).
Proof.
  intros nm given. unfold Technician.init. cbn [Technician.name Technician.hours].
  split; [reflexivity |].
  split; [intros k Hk; apply init_loop_keeps, Hk |].
  split; [intros ht Hin Hfresh; apply init_loop_adds; assumption |].
  intros ht Hin. unfold dict_mem at 1.
  destruct (dict_mem given ht) eqn:Hg.
  - rewrite init_loop_keeps by exact Hg. exact Hg.
  - rewrite init_loop_adds by assumption. reflexivity.
Qed.

Lemma technician_init_hours_witness :
  dict_get (Technician.hours tech_none) "em" = Some None
  /\ dict_get (Technician.hours tech_none) "gpr" = Some (Some (PInt 0)).
Proof.
  destruct (technician_init_hours (Some "N") [("em", None)]) as (_ & Hkeep & Hadd & _).
  split.
  - apply (Hkeep "em"). reflexivity.
  - apply (Hadd "gpr"); [simpl; auto | reflexivity].
Defined.

(** *** Keys that are not hour types *)

Lemma foldM_ext_in {A B : Type} (f g : B -> A -> M B) (xs : list A) :
  (forall acc x, In x xs -> f acc x = g acc x) ->
  forall acc, foldM f xs acc = foldM g xs acc.
Proof.
  induction xs as [| x xs IH]; intros Hfg acc; simpl; [reflexivity |].
  rewrite (Hfg acc x (or_introl eq_refl)).
  apply bind_ext. intros acc'. apply IH.
  intros acc0 x0 Hin. apply Hfg. right. exact Hin.
Qed.

Lemma hours_get_set_other (tech : Technician.t) (k ht : string) (v : Technician.hval) :
  ht <> k -> Technician.hours_get (set_hours tech k v) ht = Technician.hours_get tech ht.
Proof.
  intros Hne. unfold Technician.hours_get, set_hours, get_or.
  cbn [Technician.hours]. rewrite dict_get_set_other by exact Hne. reflexivity.
Qed.

(** X9: an entry of [hours] under a key that is not an hour type changes
    none of [has_any_hours], [get_total_hours], [format_hours_line] and
    [format_tech_line]. *)
Theorem unknown_hour_key_is_ignored :
  forall (tech : Technician.t) (k : string) (v : Technician.hval),
    ~ In k Technician.HOUR_TYPES ->
    Technician.has_any_hours (set_hours tech k v) = Technician.has_any_hours tech
    /\ Technician.get_total_hours (set_hours tech k v) = Technician.get_total_hours tech
    /\ Technician.format_hours_line (set_hours tech k v)
       = Technician.format_hours_line tech
    /\ Technician.format_tech_line (set_hours tech k v)
       = Technician.format_tech_line tech.
Proof.
  intros tech k v Hk.
  assert (Hget : forall ht, In ht Technician.HOUR_TYPES ->
                   Technician.hours_get (set_hours tech k v) ht
                   = Technician.hours_get tech ht).
  { intros ht Hin. apply hours_get_set_other. intros ->. contradiction. }
  assert (Hline : Technician.format_hours_line (set_hours tech k v)
                  = Technician.format_hours_line tech).
  { unfold Technician.format_hours_line. f_equal.
    apply foldM_ext_in. intros parts ht Hin. rewrite (Hget ht Hin). reflexivity. }
  split; [| split; [| split]].
  - unfold Technician.has_any_hours.
    revert Hget. generalize Technician.HOUR_TYPES.
    induction l as [| ht hts IH]; intros Hget; simpl; [reflexivity |].
    rewrite (Hget ht (or_introl eq_refl)).
    apply bind_ext. intros b. destruct b; [reflexivity |].
    apply IH. intros ht' Hin. apply Hget. right. exact Hin.
  - unfold Technician.get_total_hours.
    apply foldM_ext_in. intros total ht Hin. rewrite (Hget ht Hin). reflexivity.
  - exact Hline.
  - unfold Technician.format_tech_line. rewrite Hline. reflexivity.
Qed.

Lemma unknown_hour_key_is_ignored_witness :
  Technician.format_tech_line (set_hours tech_a "overtime" (Some (PInt 3)))
  = Technician.format_tech_line tech_a.
Proof.
  apply (unknown_hour_key_is_ignored tech_a "overtime" (Some (PInt 3))).
  simpl. intros H.
  repeat (destruct H as [H | H]; [discriminate H |]). exact H.
Defined.

(** ** Utilities *)

Lemma get_method_labels_selected (u : UtilityType.t) :
  UtilityType.get_method_labels u
  = map (fun m => get_or UtilityType.method_label_map m m)
        (filter (flag (UtilityType.methods u)) (UtilityType.available_methods u)).
Proof.
  unfold UtilityType.get_method_labels.
  rewrite (fold_push_filter _ (flag (UtilityType.methods u))
             (fun m => get_or UtilityType.method_label_map m m)).
  - reflexivity.
  - intros acc m. reflexivity.
Qed.

Lemma any_method_existsb (u : UtilityType.t) (ms : list string) :
  UtilityType.any_method u ms = existsb (flag (UtilityType.methods u)) ms.
Proof.
  induction ms as [| m ms IH]; simpl; [reflexivity |].
  rewrite IH. destruct (flag (UtilityType.methods u) m); reflexivity.
Qed.

Lemma existsb_filter_map {A B : Type} (p : A -> bool) (f : A -> B) (xs : list A) :
  existsb p xs = negb (match map f (filter p xs) with [] => true | _ => false end).
Proof.
  induction xs as [| x xs IH]; simpl; [reflexivity |].
  destruct (p x); simpl; [reflexivity | exact IH].
Qed.

(** X10: the labels of a utility are those of its available methods that
    are selected, in the order of [available_methods]; the header has its
    parenthesis exactly when [has_any_method] holds. *)
Theorem utility_header_selected_methods :
  forall u : UtilityType.t,
    let labels :=
      map (fun m => get_or UtilityType.method_label_map m m)
          (filter (flag (UtilityType.methods u)) (UtilityType.available_methods u)) in
    UtilityType.get_method_labels u = labels
    /\ (UtilityType.has_any_method u = true <-> labels <> [])
    /\ UtilityType.format_header u
       = upper (UtilityType.display_name u)
           ++ (if UtilityType.has_any_method u
               then " (" ++ join ", " labels ++ ")" else "").
Proof.
  intros u labels.
  assert (Hlabels : UtilityType.get_method_labels u = labels)
    by apply get_method_labels_selected.
  assert (Hany : UtilityType.has_any_method u = negb (match labels with [] => true | _ => false end)).
  { unfold UtilityType.has_any_method, labels. rewrite any_method_existsb.
    apply existsb_filter_map. }
  split; [exact Hlabels |]. split.
  - rewrite Hany. destruct labels; simpl; split; intros H; try reflexivity;
      try discriminate; try (exfalso; apply H; reflexivity).
  - unfold UtilityType.format_header. rewrite Hlabels, Hany.
    destruct labels; simpl; [rewrite append_empty_r |]; reflexivity.
Qed.

Lemma append_cons_nonempty (a : string) (c : ascii) (b : string) :
  a ++ String c b <> "".
Proof. destruct a; discriminate. Qed.

(** X11: the section of a utility is empty exactly when none of its
    available methods is selected and it has no summary; a method selected
    outside [available_methods] does not count. *)
Theorem utility_section_empty :
  forall u : UtilityType.t,
    UtilityType.format_section u = ""
    <-> (forall m, In m (UtilityType.available_methods u) ->
           flag (UtilityType.methods u) m = false)
        /\ (UtilityType.summary u = None \/ UtilityType.summary u = Some "").
Proof.
  intros u.
  assert (Hdisplay : UtilityType.should_display u = false
                     <-> (forall m, In m (UtilityType.available_methods u) ->
                            flag (UtilityType.methods u) m = false)
                         /\ (UtilityType.summary u = None \/ UtilityType.summary u = Some "")).
  { unfold UtilityType.should_display, UtilityType.has_any_method,
      UtilityType.summary_truthy.
    rewrite any_method_existsb, orb_false_iff.
    split; intros [Hm Hs]; split.
    - intros m Hin. destruct (flag (UtilityType.methods u) m) eqn:E; [| reflexivity].
      assert (Hex : existsb (flag (UtilityType.methods u)) (UtilityType.available_methods u) = true)
        by (apply existsb_exists; exists m; split; assumption).
      rewrite Hex in Hm. discriminate Hm.
    - destruct (UtilityType.summary u) as [[| c s] |]; auto. discriminate Hs.
    - destruct (existsb _ _) eqn:E; [| reflexivity].
      apply existsb_exists in E as (m & Hin & Hflag). rewrite (Hm m Hin) in Hflag.
      discriminate Hflag.
    - destruct Hs as [-> | ->]; reflexivity. }
  rewrite <- Hdisplay. unfold UtilityType.format_section.
  destruct (UtilityType.should_display u); cbn [negb].
  - split; [| discriminate]. intros H. exfalso.
    destruct (truthy _) in H; apply (append_cons_nonempty _ _ _ H).
  - split; reflexivity.
Qed.

Lemma fold_left_invariant {A B : Type} (P : B -> Prop) (body : B -> A -> B)
      (xs : list A) :
  (forall acc x, P acc -> P (body acc x)) -> forall acc, P acc -> P (fold_left body xs acc).
Proof.
  intros Hbody. induction xs as [| x xs IH]; intros acc Hacc; simpl; [exact Hacc |].
  apply IH, Hbody, Hacc.
Qed.

Lemma get_active_utilities_filter (m : UtilityMatrix.t) :
  UtilityMatrix.get_active_utilities m
  = filter UtilityType.should_display (held_utilities m).
Proof.
  unfold UtilityMatrix.get_active_utilities, held_utilities.
  generalize UtilityMatrix.UTILITY_TYPES. intros entries.
  assert (Hgen : forall acc,
             fold_left
               (fun active (entry : string * string * list string) =>
                  let '(key, _, _) := entry in
                  match dict_get m key with
                  | Some utility =>
                      if UtilityType.should_display utility then push active utility
                      else active
                  | None => active
                  end) entries acc
             = (acc ++ filter UtilityType.should_display
                         (flat_map (fun entry : string * string * list string =>
                                      match dict_get m (fst (fst entry)) with
                                      | Some utility => [utility]
                                      | None => []
                                      end) entries))%list).
  { induction entries as [| [[key name] ms] entries IH]; intros acc; simpl.
    - symmetry; apply app_nil_r.
    - rewrite IH, filter_app. destruct (dict_get m key) as [utility |]; simpl;
        [| reflexivity].
      destruct (UtilityType.should_display utility); [| reflexivity].
      unfold push. rewrite <- app_assoc. reflexivity. }
  apply (Hgen []).
Qed.

Lemma active_sections_nonempty (m : UtilityMatrix.t) :
  Forall (fun u => truthy (UtilityType.format_section u) = true)
         (filter UtilityType.should_display (held_utilities m)).
Proof.
  apply Forall_forall. intros u Hin. apply filter_In in Hin as [_ Hdisplay].
  apply truthy_true_nonempty.
  unfold UtilityType.format_section. rewrite Hdisplay. cbn [negb]. cbv zeta.
  destruct (truthy _); apply append_cons_nonempty.
Qed.

(** X12: [get_active_utilities] returns the utilities of the matrix that
    should display, in the order of [UTILITY_TYPES], and the section of each
    of them is not empty. *)
Theorem active_utilities_in_matrix_order :
  forall m : UtilityMatrix.t,
    UtilityMatrix.get_active_utilities m
    = filter UtilityType.should_display (held_utilities m)
    /\ Forall (fun u => UtilityType.format_section u <> "")
              (UtilityMatrix.get_active_utilities m).
Proof.
  intros m. split; [apply get_active_utilities_filter |].
  rewrite get_active_utilities_filter.
  apply (Forall_impl _ (P := fun u => truthy (UtilityType.format_section u) = true)).
  - intros u Hu. apply truthy_true_nonempty, Hu.
  - apply active_sections_nonempty.
Qed.

(** ** Hydrovac and recommendations *)

(** X13: the hydrovac section is empty exactly when hydrovac is not
    recommended; otherwise it starts with the header and the sentence, and
    with no reason selected it is the plain sentence, followed by the custom
    notes on a line of their own when there are any. *)
Theorem hydrovac_section_shape :
  forall h : HydrovacRecommendation.t,
    (HydrovacRecommendation.format_section h = ""
     <-> HydrovacRecommendation.recommended h = false)
    /\ (HydrovacRecommendation.recommended h = true ->
        startswith ("HYDROVAC RECOMMENDED:" ++ CR ++ "Hydrovac exposure is recommended")
                   (HydrovacRecommendation.format_section h) = true)
    /\ (HydrovacRecommendation.recommended h = true ->
        (forall key text, In (key, text) HydrovacRecommendation.STANDARD_REASONS ->
           flag (HydrovacRecommendation.reasons h) key = false) ->
        HydrovacRecommendation.format_section h
        = "HYDROVAC RECOMMENDED:" ++ CR ++ "Hydrovac exposure is recommended."
            ++ (if truthy (HydrovacRecommendation.custom_notes h)
                then CR ++ HydrovacRecommendation.custom_notes h else "")).
Proof.
  intros h. unfold HydrovacRecommendation.format_section.
  destruct (HydrovacRecommendation.recommended h); cbn [negb].
  - split; [| split].
    + split; [| discriminate].
      destruct (HydrovacRecommendation.get_selected_reasons h);
        destruct (truthy (HydrovacRecommendation.custom_notes h)); discriminate.
    + intros _.
      destruct (HydrovacRecommendation.get_selected_reasons h);
        destruct (truthy (HydrovacRecommendation.custom_notes h)); reflexivity.
    + intros _ Hnone.
      assert (Hsel : HydrovacRecommendation.get_selected_reasons h = []).
      { unfold HydrovacRecommendation.get_selected_reasons.
        rewrite (fold_push_filter _
                   (fun e : string * string => flag (HydrovacRecommendation.reasons h) (fst e))
                   (fun e => lower (snd e))) by (intros acc [key text]; reflexivity).
        cbn [app]. replace (filter _ HydrovacRecommendation.STANDARD_REASONS) with (@nil (string * string)); [reflexivity |].
        symmetry. apply filter_nil_iff. intros [key text] Hin. apply (Hnone key text Hin). }
      rewrite Hsel.
      destruct (truthy (HydrovacRecommendation.custom_notes h)); reflexivity.
  - split; [split; reflexivity |]. split; discriminate.
Qed.

Lemma hydrovac_section_shape_witness :
  HydrovacRecommendation.format_section (HydrovacRecommendation.mk [] true "Near the gas main")
  = "HYDROVAC RECOMMENDED:" ++ CR ++ "Hydrovac exposure is recommended."
      ++ CR ++ "Near the gas main".
Proof.
  apply (proj2 (proj2 (hydrovac_section_shape
                         (HydrovacRecommendation.mk [] true "Near the gas main")))).
  - reflexivity.
  - intros key text _. reflexivity.
Defined.

Lemma missing_docs_sentence_empty {Date : Type} (r : LocateReport.t Date) :
  LocateReport.format_missing_docs_sentence r = ""
  <-> forall key label, In (key, label) (@LocateReport.doc_labels) ->
        flag (LocateReport.missing_docs r) key = false.
Proof.
  unfold LocateReport.format_missing_docs_sentence.
  rewrite (fold_push_filter _
             (fun e : string * string => flag (LocateReport.missing_docs r) (fst e))
             (fun e => snd e)) by (intros acc [key label]; reflexivity).
  cbn [app].
  destruct (filter _ LocateReport.doc_labels) as [| e rest] eqn:Hf; cbn [map].
  - split; [| reflexivity]. intros _ key label Hin.
    apply (proj1 (filter_nil_iff _ _) Hf (key, label) Hin).
  - split.
    + intros H. exfalso. apply (append_cons_nonempty _ _ _ H).
    + intros Hnone. exfalso.
      assert (Hin : In e (filter (fun e : string * string => flag (LocateReport.missing_docs r) (fst e)) LocateReport.doc_labels))
        by (rewrite Hf; left; reflexivity).
      apply filter_In in Hin as [Hin Hflag]. destruct e as [key label].
      cbn [fst] in Hflag. rewrite (Hnone key label Hin) in Hflag. discriminate Hflag.
Qed.

(** X14: [format_recommendations] is empty exactly when there is no
    recommendation text and no document is marked missing; otherwise it is
    the header, the text and the sentence on the missing documents, the two
    separated by a blank line when both are there. *)
Theorem recommendations_section_shape :
  forall (Date : Type) (r : LocateReport.t Date),
    let reco := LocateReport.text_or_empty (LocateReport.recommendations r) in
    let missing := LocateReport.format_missing_docs_sentence r in
    (LocateReport.format_recommendations r = ""
     <-> reco = ""
         /\ forall key label, In (key, label) (@LocateReport.doc_labels) ->
              flag (LocateReport.missing_docs r) key = false)
    /\ (reco <> "" -> missing <> "" ->
        LocateReport.format_recommendations r
        = "RECOMMENDATIONS:" ++ CR ++ reco ++ CR ++ CR ++ missing)
    /\ (reco = "" -> missing <> "" ->
        LocateReport.format_recommendations r = "RECOMMENDATIONS:" ++ CR ++ missing)
    /\ (reco <> "" -> missing = "" ->
        LocateReport.format_recommendations r = "RECOMMENDATIONS:" ++ CR ++ reco).
Proof.
  intros Date r reco missing.
  rewrite <- (missing_docs_sentence_empty r). fold missing.
  unfold LocateReport.format_recommendations. fold reco. fold missing.
  destruct reco as [| a s]; destruct missing as [| b t]; cbn [truthy];
    repeat split; intros; try reflexivity; try contradiction; try discriminate;
    try (exfalso; match goal with H : _ /\ _ |- _ => destruct H; discriminate end).
Qed.

Lemma recommendations_section_shape_witness :
  LocateReport.format_recommendations
    (LocateReport.mk UtilityMatrix.init (@MultiDayJob.init string)
       HydrovacRecommendation.init [("gas", true)]
       None None None (Some "Dig by hand.") None None [] [])
  = "RECOMMENDATIONS:" ++ CR ++ "Dig by hand." ++ CR ++ CR
      ++ "Fortis documentation missing on site. It is the responsibility of the Ground Disturber, prior to ground disturbance, to obtain and review said documentation.".
Proof.
  apply (proj1 (proj2 (recommendations_section_shape string
           (LocateReport.mk UtilityMatrix.init (@MultiDayJob.init string)
              HydrovacRecommendation.init [("gas", true)]
              None None None (Some "Dig by hand.") None None [] [])))).
  - discriminate.
  - vm_compute. discriminate.
Defined.

(** ** The combined report *)

Lemma push_titled (sections : list string) (title text : string) :
  (if truthy text then push sections (title ++ CR ++ text) else sections)
  = (sections ++ titled title text)%list.
Proof.
  unfold titled, push. destruct (truthy text); [reflexivity | symmetry; apply app_nil_r].
Qed.

Lemma push_when_nonempty (sections : list string) (s : string) :
  (if truthy s then push sections s else sections) = (sections ++ when_nonempty s)%list.
Proof.
  unfold when_nonempty, push. destruct (truthy s); [reflexivity | symmetry; apply app_nil_r].
Qed.

Lemma filter_all {A : Type} (p : A -> bool) (xs : list A) :
  Forall (fun x => p x = true) xs -> filter p xs = xs.
Proof.
  induction 1 as [| x xs Hx _ IH]; simpl; [reflexivity |].
  rewrite Hx, IH. reflexivity.
Qed.

Lemma combined_report_sections {Date : Type} (r : LocateReport.t Date) :
  LocateReport.format_combined_report r = join (CR ++ CR) (combined_sections r).
Proof.
  unfold LocateReport.format_combined_report, combined_sections.
  cbv zeta.
  rewrite !push_titled, get_active_utilities_filter.
  rewrite (fold_push_filter _ (fun u => truthy (UtilityType.format_section u))
             UtilityType.format_section) by reflexivity.
  rewrite (filter_all _ _ (active_sections_nonempty _)).
  rewrite !push_when_nonempty.
  rewrite <- !app_assoc, app_nil_l. reflexivity.
Qed.

Lemma combined_sections_nonempty {Date : Type} (r : LocateReport.t Date) :
  Forall (fun s => s <> "") (combined_sections r).
Proof.
  unfold combined_sections.
  assert (Htitled : forall title text, Forall (fun s => s <> "") (titled title text)).
  { intros title text. unfold titled. destruct (truthy text); constructor; [| constructor].
    apply truthy_true_nonempty. rewrite !truthy_append. simpl. apply orb_true_r. }
  assert (Hwhen : forall s, Forall (fun s => s <> "") (when_nonempty s)).
  { intros s. unfold when_nonempty. destruct (truthy s) eqn:E; constructor; [| constructor].
    apply truthy_true_nonempty, E. }
  repeat (apply Forall_app; split); auto.
  apply Forall_map.
  apply (Forall_impl _ (P := fun u => truthy (UtilityType.format_section u) = true)).
  - intros u Hu. apply truthy_true_nonempty, Hu.
  - apply active_sections_nonempty.
Qed.

(** X15: [format_combined_report] joins, by two carriage returns, the
    travel notes, the site conditions, the sections of the utilities that
    should display in matrix order, the hydrovac section and the
    recommendations, each one only when it has content: no section is
    empty, and the report is empty exactly when there is no section. *)
Theorem combined_report_has_no_empty_section :
  forall (Date : Type) (r : LocateReport.t Date),
    LocateReport.format_combined_report r = join (CR ++ CR) (combined_sections r)
    /\ Forall (fun s => s <> "") (combined_sections r)
    /\ (LocateReport.format_combined_report r = "" <-> combined_sections r = []).
Proof.
  intros Date r.
  split; [apply combined_report_sections |].
  split; [apply combined_sections_nonempty |].
  rewrite combined_report_sections.
  apply join_empty, combined_sections_nonempty.
Qed.

(** ** The paths of a job *)

(** X16: on the multi-day path [format_time_on_site] has one line for
    every work day, "Day (date): " and the time range, also for a day
    without times. *)
Theorem time_on_site_multi_day :
  forall (Date : Type) (fd : Date -> string) (j : MultiDayJob.t Date),
    MultiDayJob.is_multi_day j = true ->
    (2 <= List.length (MultiDayJob.work_days j))%nat ->
    MultiDayJob.format_time_on_site fd j
    = join CR (map (fun day => "Day (" ++ MultiDayJob.date_str fd day ++ "): "
                                 ++ WorkDay.format_time_range day)
                   (MultiDayJob.work_days j)).
Proof.
  intros Date fd j Hflag Hlen.
  unfold MultiDayJob.format_time_on_site.
  rewrite (multi_day_not_single j Hflag Hlen).
  rewrite (fold_push_map
             (fun day => "Day (" ++ MultiDayJob.date_str fd day ++ "): "
                           ++ WorkDay.format_time_range day)).
  reflexivity.
Qed.

Lemma time_on_site_multi_day_witness :
  MultiDayJob.format_time_on_site short_text job_two_days
  = join CR ["Day (Unknown): 9:00 am to 2:30 pm"; "Day (Unknown): from 8:00 am"].
Proof.
  apply (time_on_site_multi_day string short_text job_two_days).
  - reflexivity.
  - simpl. lia.
Defined.

Lemma working_count (techs : list Technician.t) (parts : list (list string)) :
  mapM tech_part techs = inr parts ->
  exists working,
    filterM Technician.has_any_hours techs = inr working
    /\ List.length working = List.length (List.concat parts).
Proof.
  revert parts. induction techs as [| tech techs IH]; simpl; intros parts.
  - intros [= <-]. exists []. split; reflexivity.
  - unfold tech_part at 1.
    destruct (Technician.has_any_hours tech) as [e | b]; [discriminate |].
    cbn [bind].
    destruct (mapM tech_part techs) as [e | parts'] eqn:Hrest.
    + destruct b; [destruct (Technician.format_tech_line tech) |]; discriminate.
    + destruct (IH parts' eq_refl) as (working & Hw & Hlen). rewrite Hw. cbn [bind ret].
      destruct b.
      * destruct (Technician.format_tech_line tech) as [e | line]; [discriminate |].
        cbn [bind ret]. intros [= <-]. exists (tech :: working).
        split; [reflexivity |]. simpl. rewrite Hlen. reflexivity.
      * cbn [bind ret]. intros [= <-]. exists working. split; [reflexivity | exact Hlen].
Qed.

(** X17: on the single-day path [format_type_time] lists the technicians
    of the first day that have hours, and adds the line "Total: ..." only
    when two or more of them have hours and some total is positive. *)
Theorem single_day_type_time :
  forall (Date : Type) (fd : Date -> string) (j : MultiDayJob.t Date)
         (day : WorkDay.t Date),
    (MultiDayJob.is_multi_day j = false
     \/ (List.length (MultiDayJob.work_days j) <= 1)%nat) ->
    hd_error (MultiDayJob.work_days j) = Some day ->
    MultiDayJob.format_type_time fd j = single_day_text day.
Proof.
  intros Date fd j day Hsingle Hhd.
  destruct (single_day_texts fd j day (single_day_true j Hsingle) Hhd) as [_ Htext].
  rewrite Htext. unfold single_day_text.
  rewrite append_tech_lines_parts, !bind_assoc.
  destruct (mapM tech_part (WorkDay.technicians day)) as [e | parts] eqn:Hparts;
    [reflexivity |].
  cbn [bind ret app].
  destruct (working_count _ _ Hparts) as (working & Hw & Hlen).
  rewrite Hw. cbn [bind]. rewrite Hlen.
  destruct (2 <=? List.length (List.concat parts))%nat; [| reflexivity].
  unfold WorkDay.get_all_hours_by_type.
  destruct (foldM add_tech_hours (WorkDay.technicians day) zero_totals) as [e | tot];
    [reflexivity |].
  cbn [bind]. destruct (format_totals_line tot) as [e | line]; [reflexivity |].
  cbn [bind]. destruct (truthy line); cbn [bind ret]; unfold push;
    [reflexivity | rewrite app_nil_r; reflexivity].
Qed.

Lemma single_day_type_time_witness :
  MultiDayJob.format_type_time short_text job_flag_off = single_day_text day_a.
Proof.
  apply (single_day_type_time string short_text job_flag_off day_a).
  - left. reflexivity.
  - reflexivity.
Defined.

(** ** Exceptions of the hour computations *)

Lemma any_hours_raises (tech : Technician.t) (hts : list string) (e : exn) :
  Technician.any_hours tech hts = inl e ->
  e = TypeError /\ exists ht, In ht hts /\ Technician.hours_get tech ht = None.
Proof.
  induction hts as [| ht hts IH]; simpl; [discriminate |].
  destruct (Technician.hours_get tech ht) as [n |] eqn:Hget; simpl.
  - destruct (num_gt_zero n); [discriminate |].
    intros Hrest. destruct (IH Hrest) as (He & ht' & Hin & Hnone).
    split; [exact He |]. exists ht'. split; [right; exact Hin | exact Hnone].
  - intros [= <-]. split; [reflexivity |]. exists ht. split; [left; reflexivity | exact Hget].
Qed.

Lemma any_hours_returns (tech : Technician.t) (hts : list string) :
  (forall ht, In ht hts -> Technician.hours_get tech ht <> None) ->
  exists b, Technician.any_hours tech hts = inr b.
Proof.
  induction hts as [| ht hts IH]; simpl; intros Hsome; [eauto |].
  destruct (Technician.hours_get tech ht) as [n |] eqn:Hget.
  - simpl. destruct (num_gt_zero n); [eauto |].
    apply IH. intros ht' Hin. apply Hsome. right. exact Hin.
  - exfalso. apply (Hsome ht (or_introl eq_refl)). exact Hget.
Qed.

(** X18: for a technician whose hour values are each [None] or a number,
    an int or a float (the values of [Technician.hval]; a value of another
    type, such as a [str], is not covered), [has_any_hours] raises nothing but
    [TypeError], and only when an hour type holds [None]; with no [None]
    among the six it returns. *)
Theorem has_any_hours_raises_only_on_none :
  forall tech : Technician.t,
    (forall e, Technician.has_any_hours tech = inl e ->
       e = TypeError
       /\ exists ht, In ht Technician.HOUR_TYPES /\ Technician.hours_get tech ht = None)
    /\ ((forall ht, In ht Technician.HOUR_TYPES -> Technician.hours_get tech ht <> None) ->
        exists b, Technician.has_any_hours tech = inr b).
Proof.
  intros tech. split.
  - intros e. apply any_hours_raises.
  - apply any_hours_returns.
Qed.

Lemma has_any_hours_raises_only_on_none_witness :
  Technician.has_any_hours tech_none = inl TypeError
  /\ TypeError = TypeError
  /\ exists ht, In ht Technician.HOUR_TYPES /\ Technician.hours_get tech_none ht = None.
Proof.
  split; [vm_compute; reflexivity |].
  apply (proj1 (has_any_hours_raises_only_on_none tech_none) TypeError).
  vm_compute. reflexivity.
Defined.

Lemma mapM_returns {A B : Type} (f : A -> M B) (xs : list A) :
  (forall x, In x xs -> exists y, f x = inr y) -> exists ys, mapM f xs = inr ys.
Proof.
  induction xs as [| x xs IH]; simpl; intros Hf; [eauto |].
  destruct (Hf x (or_introl eq_refl)) as (y & ->).
  destruct IH as (ys & ->); [intros x' Hin; apply Hf; right; exact Hin |].
  simpl. eauto.
Qed.






(** ** Scalar fields of the report *)

(** X20: the provider "None" gives "No BC 1 Call completed" whatever the
    number; a number with provider "Client" or "Quadra" is followed by the
    attribution in parentheses, and with any other or no provider it stands
    alone. *)
Theorem bc1_display_with_number :
  forall (Date : Type) (r : LocateReport.t Date),
    (LocateReport.bc1_provider r = Some "None" ->
     LocateReport.format_bc1_display r = "No BC 1 Call completed")
    /\ (forall v, LocateReport.bc1_number r = Some v -> attr_truthy (Some v) = true ->
          (LocateReport.bc1_provider r = Some "Client" ->
           LocateReport.format_bc1_display r = attr_str v ++ " (Provided by Client)")
          /\ (LocateReport.bc1_provider r = Some "Quadra" ->
              LocateReport.format_bc1_display r = attr_str v ++ " (Provided by Quadra)")
          /\ ((forall p, LocateReport.bc1_provider r = Some p ->
                 p <> "None" /\ p <> "Client" /\ p <> "Quadra") ->
              LocateReport.format_bc1_display r = attr_str v)).
Proof.
  intros Date r.
  unfold LocateReport.format_bc1_display, LocateReport.provider_is.
  split.
  - intros ->. reflexivity.
  - intros v -> Htruthy. rewrite Htruthy. cbn [negb andb].
    split; [intros ->; reflexivity |].
    split; [intros ->; reflexivity |].
    intros Hother.
    destruct (LocateReport.bc1_provider r) as [p |].
    + destruct (Hother p eq_refl) as (Hn & Hc & Hq).
      apply String.eqb_neq in Hn, Hc, Hq. rewrite Hn, Hc, Hq.
      apply append_empty_r.
    + apply append_empty_r.
Qed.

Lemma bc1_display_with_number_witness :
  LocateReport.format_bc1_display
    (with_bc1 (@LocateReport.init string) (Some "Quadra") (Some (AInt 20241234)))
  = "20241234 (Provided by Quadra)".
Proof.
  apply (proj2 (bc1_display_with_number string
                  (with_bc1 LocateReport.init (Some "Quadra") (Some (AInt 20241234))))
               (AInt 20241234)); reflexivity.
Defined.

(** ** SUPPLEMENTAL and MATERIALS *)


Lemma field_items_loop (fields : list (string * string)) (sep : string)
      (values : dict attr_val) :
  fold_left (fun items (entry : string * string) =>
               let '(key, label) := entry in
               let value := dict_get values key in
               match value with
               | Some v =>
                   if attr_truthy value then push items (label ++ sep ++ attr_str v)
                   else items
               | None => items
               end)
            fields []
  = field_items fields sep values.
Proof.
  unfold field_items.
  rewrite (fold_push_filter _
             (fun e : string * string => attr_truthy (dict_get values (fst e)))
             (fun e : string * string =>
                snd e ++ sep ++ match dict_get values (fst e) with
                                | Some v => attr_str v
                                | None => ""
                                end)).
  - reflexivity.
  - intros acc [key label]. cbn [fst snd].
    destruct (dict_get values key); reflexivity.
Qed.

Lemma field_items_empty (fields : list (string * string)) (sep : string)
      (values : dict attr_val) :
  sep <> "" ->
  (join "; " (field_items fields sep values) = ""
   <-> forall key label, In (key, label) fields ->
         attr_truthy (dict_get values key) = false).
Proof.
  intros Hsep. rewrite join_empty.
  - unfold field_items. split.
    + intros Hnil key label Hin.
      apply map_eq_nil in Hnil.
      apply (proj1 (filter_nil_iff _ _) Hnil (key, label) Hin).
    + intros Hnone.
      replace (filter _ fields) with (@nil (string * string)); [reflexivity |].
      symmetry. apply filter_nil_iff. intros [key label] Hin. apply (Hnone key label Hin).
  - unfold field_items. apply Forall_map, Forall_forall. intros e _.
    destruct sep as [| c sep']; [contradiction |].
    apply append_cons_nonempty.
Qed.

(** X21: SUPPLEMENTAL and MATERIALS list, in the fixed order of their
    fields, the fields whose value is true (not absent, empty or 0) as
    "Label = value" and "Label xvalue" joined by "; ", and each is empty
    exactly when no field of its list has such a value. *)
Theorem supplemental_and_materials_items :
  forall (Date : Type) (r : LocateReport.t Date),
    LocateReport.format_supplemental r
    = join "; " (field_items (@LocateReport.supp_fields) " = " (LocateReport.supp r))
    /\ LocateReport.format_materials r
       = join "; " (field_items (@LocateReport.mat_fields) " x" (LocateReport.mat r))
    /\ (LocateReport.format_supplemental r = ""
        <-> forall key label, In (key, label) (@LocateReport.supp_fields) ->
              attr_truthy (dict_get (LocateReport.supp r) key) = false)
    /\ (LocateReport.format_materials r = ""
        <-> forall key label, In (key, label) (@LocateReport.mat_fields) ->
              attr_truthy (dict_get (LocateReport.mat r) key) = false).
Proof.
  intros Date r.
  assert (Hsupp : LocateReport.format_supplemental r
                  = join "; " (field_items (@LocateReport.supp_fields) " = "
                                 (LocateReport.supp r))).
  { unfold LocateReport.format_supplemental. cbv zeta.
    rewrite <- field_items_loop. reflexivity. }
  assert (Hmat : LocateReport.format_materials r
                 = join "; " (field_items (@LocateReport.mat_fields) " x"
                                (LocateReport.mat r))).
  { unfold LocateReport.format_materials. cbv zeta.
    rewrite <- field_items_loop. reflexivity. }
  split; [exact Hsupp |]. split; [exact Hmat |]. split.
  - rewrite Hsupp. apply field_items_empty. discriminate.
  - rewrite Hmat. apply field_items_empty. discriminate.
Qed.

(** ** The names of [get_all_technicians] *)

Lemma tech_entry_names (techs : list Technician.t) (entries : list (string * list float)) :
  mapM tech_entry techs = inr entries ->
  map fst entries = map MultiDayJob.tech_name techs.
Proof.
  revert entries. induction techs as [| tech techs IH]; simpl; intros entries.
  - intros [= <-]. reflexivity.
  - unfold tech_entry at 1.
    destruct (hours_as_floats tech) as [e | v]; [discriminate |]. cbn [bind ret].
    destruct (mapM tech_entry techs) as [e | rest]; [discriminate |]. cbn [bind ret].
    intros [= <-]. simpl. rewrite (IH rest eq_refl). reflexivity.
Qed.

(** X22: the dict of [get_all_technicians] has one key for every distinct
    name, in the order of first occurrence over the days, a technician
    without a name counting as "Unknown"; under each name it holds the hours
    recorded under that name, summed in the order recorded. *)
Theorem all_technicians_keys :
  forall (Date : Type) (j : MultiDayJob.t Date) (by_name : dict totals),
    MultiDayJob.get_all_technicians j = inr by_name ->
    map fst by_name
    = first_occurrences (map MultiDayJob.tech_name (all_technicians j))
    /\ NoDup (map fst by_name)
    /\ exists entries,
         mapM tech_entry (all_technicians j) = inr entries
         /\ forall n, In n (map fst by_name) ->
              dict_get by_name n = Some (name_totals n entries).
Proof.
  intros Date j by_name. rewrite get_all_technicians_by_name.
  destruct (mapM tech_entry (all_technicians j)) as [e | entries] eqn:Hentries;
    [discriminate |].
  cbn [bind ret]. intros [= <-].
  assert (Hkeys : map fst (totals_by_name entries) = first_occurrences (map fst entries)).
  { unfold totals_by_name. rewrite map_map. cbn [fst]. apply map_id. }
  rewrite Hkeys. split; [| split].
  - rewrite (tech_entry_names _ _ Hentries). reflexivity.
  - apply first_occurrences_NoDup.
  - exists entries. split; [reflexivity |].
    intros n Hin. unfold totals_by_name. rewrite dict_get_map.
    apply mem_str_In in Hin. rewrite Hin. reflexivity.
Qed.

Lemma all_technicians_keys_witness :
  MultiDayJob.get_all_technicians job_two_days
  = inr [("A", dict_set zero_totals "em" (literal 20 1)); ("B", zero_totals)]
  /\ map fst [("A", dict_set zero_totals "em" (literal 20 1)); ("B", zero_totals)]
     = first_occurrences (map MultiDayJob.tech_name (all_technicians job_two_days)).
Proof.
  split; [vm_compute; reflexivity |].
  apply (all_technicians_keys string job_two_days
           [("A", dict_set zero_totals "em" (literal 20 1)); ("B", zero_totals)]).
  vm_compute. reflexivity.
Defined.
